(** * hcsshim/lcow.go: Linux containers on Windows, utility-VM glue

    A shallow embedding of [vendor/github.com/Microsoft/hcsshim/lcow.go]:
    [DebugLCOWGCS], [CreateLCOWScratch], [TarToVhd] and [createLCOWv1].

    The host compute service, the file system and the guest are external
    collaborators.  They are an interface ([Host]) over an abstract world
    [W]; every call through that interface is recorded, with its
    arguments and its result, in the list of events a run returns.  The
    theorems quantify over every implementation of the interface and
    every world. *)

From Stdlib Require Import ZArith NArith String Ascii List Lia.
From stdpp Require Import base gmap strings list pretty.

Open Scope string_scope.
Open Scope list_scope.

(** ** Values the code passes around *)

(** A [Container] (the Go interface value, when it is not nil), a
    [Process] and an [os.File] are opaque handles. *)
Definition Container := nat.
Definition Process := nat.
Definition File := nat.
Definition Reader := nat.

(** Text of a Go [error] coming from a collaborator ([err.Error()]). *)
Definition errtext := string.

(** Arguments of a [fmt.Errorf] call, as the verbs consume them. *)
Inductive fmtarg : Type :=
| FStr (s : string)            (* %s, '%s', %q of a string or of an error *)
| FInt (z : Z)                 (* %d *)
| FStrs (l : list string)      (* %+v of a []string *)
| FMount (destination type_ source : string) (options : list string).
                               (* %+v of a specs.Mount *)

(** A Go [error] the code returns: the one a [fmt.Errorf(format, args...)]
    builds, or a collaborator's error handed on as it is. *)
Inductive error : Type :=
| Errorf (format : string) (args : list fmtarg)
| Raw (text : errtext).

(** Where a process's standard stream is wired. *)
Inductive Sink : Type :=
| ToBuffer                     (* a local bytes.Buffer *)
| ToFile (f : File).           (* an os.File *)

(** The request structure of [CreateProcessEx]; the OCI specification
    carries only [Process.Args] and an empty [Linux] section. *)
Record CreateProcessEx : Type := mkCreateProcessEx {
  Args : list string;
  CreateInUtilityVm : bool;
  Stdin : option Reader;
  Stdout : option Sink;
  Stderr : option Sink
}.

Record ByteCounts : Type := mkByteCounts { In_ : Z; Out : Z; Err_ : Z }.

(** What [container.CreateProcessEx] returns: a process with its byte
    counts and a nil error, or an error (and no process). *)
Inductive started : Type :=
| Started (p : Process) (bc : ByteCounts)
| StartFailed (err : errtext).

Inductive stream : Type := StdoutStream | StderrStream.

(** ** Memory the caller shares with [createLCOWv1]

    A Go slice is a window on a backing array; copying a slice, or a
    struct that holds one, copies the window and shares the array.  The
    arrays live in a store, by location. *)

Definition loc := positive.

Record slice : Type := mkSlice { base : loc; offset : nat; len : nat }.

(** specs.Mount *)
Record Mount : Type := mkMount {
  Destination : string;
  Type_ : string;
  Source : string;
  Options : slice                (* []string *)
}.

Record Heap : Type := mkHeap {
  stringArrays : gmap loc (list string);
  mountArrays : gmap loc (list Mount)
}.

Definition window {A} (s : slice) (a : list A) : list A :=
  take (len s) (drop (offset s) a).

Definition readStrings (h : Heap) (s : slice) : list string :=
  match stringArrays h !! base s with
  | Some a => window s a
  | None => []
  end.

Definition readMounts (h : Heap) (s : slice) : list Mount :=
  match mountArrays h !! base s with
  | Some a => window s a
  | None => []
  end.

(** A new backing array holding [ms], and the slice over all of it. *)
Definition allocMounts (h : Heap) (ms : list Mount) : slice * Heap :=
  let l := fresh (dom (mountArrays h)) in
  (mkSlice l 0 (length ms),
   mkHeap (stringArrays h) (<[l := ms]> (mountArrays h))).

(** specs.WindowsNetwork, specs.Windows and specs.Spec, as far as the
    code reads them. *)
Record WindowsNetwork : Type := mkWindowsNetwork {
  wn_EndpointList : list string;
  wn_AllowUnqualifiedDNSQuery : bool;
  wn_DNSSearchList : option (list string);      (* None: a nil slice *)
  wn_NetworkSharedContainerName : string
}.

Record Windows : Type := mkWindows {
  LayerFolders : list string;
  Network : option WindowsNetwork               (* None: a nil pointer *)
}.

Record Spec : Type := mkSpec {
  spec_Windows : option Windows;                (* None: a nil pointer *)
  Mounts : slice                                (* []specs.Mount *)
}.

Record CreateOptions : Type := mkCreateOptions {
  id : string;
  owner : string;
  lcowkird : string;
  lcowkernel : string;
  lcowinitrd : string;
  lcowbootparams : string;
  spec : Spec                                   (* behind the pointer Spec *)
}.

(** What [createOptions] points to, and the arrays. *)
Record Memory : Type := mkMemory {
  createOptions : CreateOptions;
  heap : Heap
}.

(** A GUID, as the text its [ToString] gives. *)
Definition GUID := string.

Record Layer : Type := mkLayer { ID : string; Path : string }.

Record MappedDir : Type := mkMappedDir {
  HostPath : string;
  ContainerPath : string;
  CreateInUtilityVM : bool;
  ReadOnly : bool
}.

Record HvRuntime : Type := mkHvRuntime {
  ImagePath : string;
  LinuxKernelFile : string;
  LinuxInitrdFile : string;
  LinuxBootParameters : string
}.

Record ContainerConfig : Type := mkContainerConfig {
  HvPartition : bool;
  Name : string;
  SystemType : string;
  ContainerType : string;
  Owner : string;
  TerminateOnLastHandleClosed : bool;
  cfg_HvRuntime : option HvRuntime;
  LayerFolderPath : string;
  Layers : list Layer;
  EndpointList : list string;
  AllowUnqualifiedDNSQuery : bool;
  DNSSearchList : string;
  NetworkSharedContainerName : string;
  MappedDirectories : list MappedDir
}.

(** ** Events: one per call to a collaborator *)

Inductive Event : Type :=
| EvStat (name : string) (err : option errtext)
| EvCopyFile (src dst : string) (flag : bool) (err : option errtext)
| EvCreateVhdx (path : string) (sizeGB blockSizeMB : N) (err : option errtext)
| EvAddSCSI (uvm : Container) (path hint : string) (controller lun : Z)
            (err : option errtext)
| EvRemoveSCSI (uvm : Container) (path : string) (controller lun : Z)
               (err : option errtext)
| EvCreateProcessEx (uvm : Container) (req : CreateProcessEx) (res : started)
| EvWaitTimeout (p : Process) (d : Z) (err : option errtext)
| EvExitCode (p : Process) (code : Z) (err : option errtext)
| EvKill (p : Process) (err : option errtext)
| EvClose (p : Process) (err : option errtext)
| EvCreate (name : string) (res : File + errtext)
| EvFileClose (f : File) (err : option errtext)
| EvNameToGuid (name : string) (res : GUID + errtext)
| EvCreateContainer (id : string) (configuration : ContainerConfig)
                    (res : Container + errtext)
| EvSetSpecMounts (mounts : slice).
    (* the store [createOptions.Spec.Mounts = mounts], which the caller sees *)

(** ** The collaborators *)

Record Host (W : Type) : Type := mkHost {
  os_Stat : string -> W -> option errtext * W;
  CopyFile : string -> string -> bool -> W -> option errtext * W;
  winio_CreateVhdx : string -> N -> N -> W -> option errtext * W;
  AddSCSI : Container -> string -> string -> W -> (Z * Z * option errtext) * W;
  removeSCSI : Container -> string -> Z -> Z -> W -> option errtext * W;
  container_CreateProcessEx : Container -> CreateProcessEx -> W -> started * W;
  process_WaitTimeout : Process -> Z -> W -> option errtext * W;
  process_ExitCode : Process -> W -> (Z * option errtext) * W;
  process_Kill : Process -> W -> option errtext * W;
  process_Close : Process -> W -> option errtext * W;
  (* contents of the bytes.Buffer wired to a stream of a process *)
  buffer_String : Process -> stream -> W -> string;
  os_Create : string -> W -> (File + errtext) * W;
  file_Close : File -> W -> option errtext * W;
  (* logrus.GetLevel() >= logrus.DebugLevel *)
  logrus_debug : W -> bool;
  os_Getenv : string -> W -> string;
  NameToGuid : string -> W -> (GUID + errtext) * W;
  CreateContainer : string -> ContainerConfig -> W -> (Container + errtext) * W
}.

Arguments os_Stat {W}.
Arguments CopyFile {W}.
Arguments winio_CreateVhdx {W}.
Arguments AddSCSI {W}.
Arguments removeSCSI {W}.
Arguments container_CreateProcessEx {W}.
Arguments process_WaitTimeout {W}.
Arguments process_ExitCode {W}.
Arguments process_Kill {W}.
Arguments process_Close {W}.
Arguments buffer_String {W}.
Arguments os_Create {W}.
Arguments file_Close {W}.
Arguments logrus_debug {W}.
Arguments os_Getenv {W}.
Arguments NameToGuid {W}.
Arguments CreateContainer {W}.

(** ** A monad of calls: world passing, with the events written out *)

Definition M (W A : Type) : Type := W -> A * W * list Event.

Definition ret {W A} (a : A) : M W A := fun w => (a, w, []).

Definition bind {W A B} (m : M W A) (k : A -> M W B) : M W B :=
  fun w =>
    let '(a, w1, l1) := m w in
    let '(b, w2, l2) := k a w1 in
    (b, w2, l1 ++ l2).

(** A call to a collaborator, recorded with its result. *)
Definition call {W A} (op : W -> A * W) (ev : A -> Event) : M W A :=
  fun w => let '(a, w1) := op w in (a, w1, [ev a]).

(** A read of the world that is not recorded. *)
Definition peek {W A} (f : W -> A) : M W A := fun w => (f w, w, []).

(** Go's [defer c]: [c] runs when the rest of the function returns, and
    its own result is dropped. *)
Definition defer {W A B} (c : M W B) (rest : M W A) : M W A :=
  bind rest (fun r => bind c (fun _ => ret r)).

Declare Scope go_scope.
Delimit Scope go_scope with go.
Notation "x <~ c ;; k" := (bind c (fun x => k))
  (at level 100, c at next level, right associativity) : go_scope.
Notation "c ;;; k" := (bind c (fun _ => k))
  (at level 100, right associativity) : go_scope.
Open Scope go_scope.

(** Result, final world and events of a run. *)
Definition result {W A} (r : A * W * list Event) : A := fst (fst r).
Definition final {W A} (r : A * W * list Event) : W := snd (fst r).
Definition events {W A} (r : A * W * list Event) : list Event := snd r.

(** ** Constants *)

(** DefaultLCOWScratchSizeGB is the size of the default LCOW scratch in GB.
    Sizes are Go's [uint32]; the code only compares them, so they are
    numbers of [N]. *)
Definition DefaultLCOWScratchSizeGB : N := 20.

(** defaultLCOWVhdxBlockSizeMB is the block size of the VHDx's this
    package creates. *)
Definition defaultLCOWVhdxBlockSizeMB : N := 1.

Definition dquote : string := String (ascii_of_nat 34) EmptyString.

Section Lcow.

Context {W : Type} (H : Host W).

(** [defaultTimeoutSeconds] is declared in another file of the package;
    [strings.TrimSpace] is Go's. *)
Variable defaultTimeoutSeconds : Z.
Variable strings_TrimSpace : string -> string.

(** *** The calls, recorded *)

Definition Stat (name : string) : M W (option errtext) :=
  call (os_Stat H name) (EvStat name).

Definition Copy (src dst : string) (flag : bool) : M W (option errtext) :=
  call (CopyFile H src dst flag) (EvCopyFile src dst flag).

Definition CreateVhdx (path : string) (sizeGB blockMB : N) : M W (option errtext) :=
  call (winio_CreateVhdx H path sizeGB blockMB) (EvCreateVhdx path sizeGB blockMB).

Definition Attach (uvm : Container) (path hint : string) : M W (Z * Z * option errtext) :=
  call (AddSCSI H uvm path hint)
       (fun r => EvAddSCSI uvm path hint (fst (fst r)) (snd (fst r)) (snd r)).

Definition Detach (uvm : Container) (path : string) (controller lun : Z)
  : M W (option errtext) :=
  call (removeSCSI H uvm path controller lun) (EvRemoveSCSI uvm path controller lun).

Definition Start (uvm : Container) (req : CreateProcessEx) : M W started :=
  call (container_CreateProcessEx H uvm req) (EvCreateProcessEx uvm req).

Definition WaitTimeout (p : Process) (d : Z) : M W (option errtext) :=
  call (process_WaitTimeout H p d) (EvWaitTimeout p d).

Definition ExitCode (p : Process) : M W (Z * option errtext) :=
  call (process_ExitCode H p) (fun r => EvExitCode p (fst r) (snd r)).

Definition Kill (p : Process) : M W (option errtext) :=
  call (process_Kill H p) (EvKill p).

Definition Close (p : Process) : M W (option errtext) :=
  call (process_Close H p) (EvClose p).

Definition Create (name : string) : M W (File + errtext) :=
  call (os_Create H name) (EvCreate name).

Definition FileClose (f : File) : M W (option errtext) :=
  call (file_Close H f) (EvFileClose f).

(** *** DebugLCOWGCS *)

Definition debugCommand (s : string) : string :=
  "echo -e 'DEBUG COMMAND: " +:+ s +:+ "\\n--------------\\n';" +:+ s
  +:+ ";echo -e '\\n\\n';".

Definition defaultDebugCommand : string :=
  "sh -c " +:+ dquote
  +:+ debugCommand "kill -10 `pidof gcs`"
  +:+ debugCommand "ls -l /tmp"
  +:+ debugCommand "cat /tmp/gcs.log"
  +:+ debugCommand "cat /tmp/gcs/gcs-stacks*"
  +:+ debugCommand "cat /tmp/gcs/paniclog*"
  +:+ debugCommand "ls -l /tmp/gcs"
  +:+ debugCommand "ls -l /tmp/gcs/*"
  +:+ debugCommand "cat /tmp/gcs/*/config.json"
  +:+ debugCommand "ls -lR /var/run/gcsrunc"
  +:+ debugCommand "cat /tmp/gcs/global-runc.log"
  +:+ debugCommand "cat /tmp/gcs/*/runc.log"
  +:+ debugCommand "ps -ef"
  +:+ dquote.

(** Extracts logs from the GCS; every failure is benign. *)
Definition DebugLCOWGCS (container : Container) : M W unit :=
  enabled <~ peek (fun w => andb (logrus_debug H w)
      (negb (Nat.eqb (String.length (os_Getenv H "HCSSHIM_LCOW_DEBUG_ENABLE" w)) 0))) ;;
  if negb enabled then ret tt else
  env <~ peek (os_Getenv H "HCSSHIM_LCOW_DEBUG_COMMAND") ;;
  let cmd := if String.eqb env "" then defaultDebugCommand else env in
  r <~ Start container
        (mkCreateProcessEx [cmd] true None (Some ToBuffer) None) ;;
  match r with
  | StartFailed err => ret tt          (* benign failure getting gcs logs *)
  | Started proc _ =>
      defer (Kill proc ;;; Close proc)
        (WaitTimeout proc (1000000000 * 30) ;;; ret tt)
  end.

(** *** CreateLCOWScratch *)

Definition scsiDevice (controller lun : Z) : string :=
  "/sys/bus/scsi/devices/" +:+ pretty controller +:+ ":0:0:" +:+ pretty lun.

Definition testdCommand (controller lun : Z) : list string :=
  ["test"; "-d"; scsiDevice controller lun].

Definition lsCommand (controller lun : Z) : list string :=
  ["ls"; scsiDevice controller lun +:+ "/block"].

Definition mkfsCommand (device : string) : list string :=
  ["mkfs.ext4"; "-q"; "-E"; "lazy_itable_init=1"; "-O";
   "^has_journal,sparse_super2,uninit_bg,^resize_inode"; device].

(** The smallest size accepted is the default one: a scratch can only be
    expanded. *)
Definition effectiveSizeGB (sizeGB : N) : N :=
  if (sizeGB <? DefaultLCOWScratchSizeGB)%N then DefaultLCOWScratchSizeGB else sizeGB.

Definition cacheEligible (sizeGB : N) (cacheFile : string) : bool :=
  andb (negb (String.eqb cacheFile "")) (sizeGB =? DefaultLCOWScratchSizeGB)%N.

(** The format step and what follows it, the device's leaf name known. *)
Definition formatAndRelease (uvm : Container) (destFile : string) (sizeGB : N)
    (cacheFile : string) (controller lun : Z) (device : string)
  : M W (option error) :=
  let mkfsCommand := mkfsCommand device in
  r <~ Start uvm (mkCreateProcessEx mkfsCommand true None None (Some ToBuffer)) ;;
  match r with
  | StartFailed err =>
      Detach uvm destFile controller lun ;;;
      ret (Some (Errorf "failed to `%+v` following hot-add %s to utility VM: %s"
                        [FStrs mkfsCommand; FStr destFile; FStr err]))
  | Started mkfsProc _ =>
    defer (Close mkfsProc) (
      WaitTimeout mkfsProc defaultTimeoutSeconds ;;;
      ec <~ ExitCode mkfsProc ;;
      let '(mkfsExitCode, err) := ec in
      match err with
      | Some err =>
          Detach uvm destFile controller lun ;;;
          ret (Some (Errorf "failed to get exit code from `%+v` following hot-add %s to utility VM: %s"
                            [FStrs mkfsCommand; FStr destFile; FStr err]))
      | None =>
        if negb (mkfsExitCode =? 0)%Z then
          Detach uvm destFile controller lun ;;;
          mkfsStderr <~ peek (buffer_String H mkfsProc StderrStream) ;;
          ret (Some (Errorf "`%+v` return non-zero exit code (%d) following hot-add %s to utility VM: %s"
                            [FStrs mkfsCommand; FInt mkfsExitCode; FStr destFile;
                             FStr (strings_TrimSpace mkfsStderr)]))
        else
          (* Hot-Remove before we copy it *)
          err <~ Detach uvm destFile controller lun ;;
          match err with
          | Some err => ret (Some (Errorf "failed to hot-remove: %s" [FStr err]))
          | None =>
            (* Populate the cache. *)
            if cacheEligible sizeGB cacheFile then
              err <~ Copy destFile cacheFile true ;;
              match err with
              | Some err =>
                  ret (Some (Errorf "failed to seed cache '%s' from '%s': %s"
                                    [FStr destFile; FStr cacheFile; FStr err]))
              | None => ret None
              end
            else ret None
          end
      end)
  end.

(** The device lookup and what follows it. *)
Definition locateAndFormat (uvm : Container) (destFile : string) (sizeGB : N)
    (cacheFile : string) (controller lun : Z) : M W (option error) :=
  let lsCommand := lsCommand controller lun in
  r <~ Start uvm (mkCreateProcessEx lsCommand true None (Some ToBuffer) None) ;;
  match r with
  | StartFailed err =>
      Detach uvm destFile controller lun ;;;
      ret (Some (Errorf "failed to `%+v` following hot-add %s to utility VM: %s"
                        [FStrs lsCommand; FStr destFile; FStr err]))
  | Started lsProc _ =>
    defer (Close lsProc) (
      WaitTimeout lsProc defaultTimeoutSeconds ;;;
      ec <~ ExitCode lsProc ;;
      let '(lsExitCode, err) := ec in
      match err with
      | Some err =>
          Detach uvm destFile controller lun ;;;
          ret (Some (Errorf "failed to get exit code from `%+v` following hot-add %s to utility VM: %s"
                            [FStrs lsCommand; FStr destFile; FStr err]))
      | None =>
        if negb (lsExitCode =? 0)%Z then
          Detach uvm destFile controller lun ;;;
          ret (Some (Errorf "`%+v` return non-zero exit code (%d) following hot-add %s to utility VM"
                            [FStrs lsCommand; FInt lsExitCode; FStr destFile]))
        else
          lsOutput <~ peek (buffer_String H lsProc StdoutStream) ;;
          let device := "/dev/" +:+ strings_TrimSpace lsOutput in
          formatAndRelease uvm destFile sizeGB cacheFile controller lun device
      end)
  end.

(** The validation of the hot-add and what follows it. *)
Definition validateAndLocate (uvm : Container) (destFile : string) (sizeGB : N)
    (cacheFile : string) (controller lun : Z) : M W (option error) :=
  let testdCommand := testdCommand controller lun in
  r <~ Start uvm (mkCreateProcessEx testdCommand true None None None) ;;
  match r with
  | StartFailed err =>
      Detach uvm destFile controller lun ;;;
      ret (Some (Errorf "failed to run %+v following hot-add %s to utility VM: %s"
                        [FStrs testdCommand; FStr destFile; FStr err]))
  | Started testdProc _ =>
    defer (Close testdProc) (
      WaitTimeout testdProc defaultTimeoutSeconds ;;;
      ec <~ ExitCode testdProc ;;
      let '(testdExitCode, err) := ec in
      match err with
      | Some err =>
          Detach uvm destFile controller lun ;;;
          ret (Some (Errorf "failed to get exit code from from %+v following hot-add %s to utility VM: %s"
                            [FStrs testdCommand; FStr destFile; FStr err]))
      | None =>
        if negb (testdExitCode =? 0)%Z then
          Detach uvm destFile controller lun ;;;
          ret (Some (Errorf "`%+v` return non-zero exit code (%d) following hot-add %s to utility VM"
                            [FStrs testdCommand; FInt testdExitCode; FStr destFile]))
        else
          locateAndFormat uvm destFile sizeGB cacheFile controller lun
      end)
  end.

(** Everything after the cache lookup missed. *)
Definition createWithUVM (uvm : option Container) (destFile : string) (sizeGB : N)
    (cacheFile : string) : M W (option error) :=
  match uvm with
  | None =>
      ret (Some (Errorf "cannot create scratch disk as cache is not present and no utility VM supplied" []))
  | Some uvmc =>
    (* Create the VHDX *)
    err <~ CreateVhdx destFile sizeGB defaultLCOWVhdxBlockSizeMB ;;
    match err with
    | Some err =>
        ret (Some (Errorf "failed to create VHDx %s: %s" [FStr destFile; FStr err]))
    | None =>
      DebugLCOWGCS uvmc ;;;
      added <~ Attach uvmc destFile "" ;;
      let '(controller, lun, err) := added in
      (* if err != nil: TODO Rollback (the branch is empty) *)
      validateAndLocate uvmc destFile sizeGB cacheFile controller lun
    end
  end.

(** CreateLCOWScratch uses a utility VM to create an empty scratch disk of
    a requested size, with a cache for the default size.  [uvm] is the Go
    interface value, [None] when nil; its dynamic type is taken to be
    [*container], the one the type assertion of the code asks for. *)
Definition CreateLCOWScratch (uvm : option Container) (destFile : string)
    (sizeGB : N) (cacheFile : string) : M W (option error) :=
  let sizeGB := effectiveSizeGB sizeGB in
  (* Retrieve from cache if the default size and already on disk *)
  if cacheEligible sizeGB cacheFile then
    err <~ Stat cacheFile ;;
    match err with
    | None =>
        err <~ Copy cacheFile destFile false ;;
        match err with
        | Some err =>
            ret (Some (Errorf "failed to copy cached file '%s' to '%s': %s"
                              [FStr cacheFile; FStr destFile; FStr err]))
        | None => ret None
        end
    | Some _ => createWithUVM uvm destFile sizeGB cacheFile
    end
  else createWithUVM uvm destFile sizeGB cacheFile.

(** *** TarToVhd *)

(** TarToVhd streams a tarstream contained in an io.Reader to a fixed vhd
    file. *)
Definition TarToVhd (uvm : option Container) (targetVHDFile : string)
    (reader : Reader) : M W (Z * option error) :=
  match uvm with
  | None => ret (0%Z, Some (Errorf "cannot Tar2Vhd as no utility VM supplied" []))
  | Some uvm =>
    defer (DebugLCOWGCS uvm) (
      r <~ Create targetVHDFile ;;
      match r with
      | inr err =>
          ret (0%Z, Some (Errorf "tar2vhd failed to create %s: %s"
                                 [FStr targetVHDFile; FStr err]))
      | inl outFile =>
        defer (FileClose outFile) (
          (* BUGBUG Delete the file on failure *)
          r <~ Start uvm (mkCreateProcessEx ["tar2vhd"] true (Some reader)
                                             (Some (ToFile outFile)) None) ;;
          match r with
          | StartFailed err =>
              ret (0%Z, Some (Errorf "failed to start tar2vhd for %s: %s"
                                     [FStr targetVHDFile; FStr err]))
          | Started tar2vhd byteCounts =>
              defer (Close tar2vhd) (ret (Out byteCounts, None))
          end)
      end)
  end.

End Lcow.

(** ** createLCOWv1 *)

(** How a Go function ends: it returns, or it panics. *)
Inductive outcome (A : Type) : Type :=
| Returned (a : A)
| Panicked (msg : string).

Arguments Returned {A}.
Arguments Panicked {A}.

(** [s] cut at its first [=]. *)
Fixpoint cutAtEquals (s : string) : option (string * string) :=
  match s with
  | EmptyString => None
  | String c r =>
      if Ascii.eqb c "="%char then Some (EmptyString, r)
      else match cutAtEquals r with
           | Some (a, b) => Some (String c a, b)
           | None => None
           end
  end.

(** strings.SplitN(s, "=", 2) *)
Definition strings_SplitN_eq_2 (s : string) : list string :=
  match cutAtEquals s with
  | Some (a, b) => [a; b]
  | None => [s]
  end.

(** The variables of the scan of one bind mount's options. *)
Record scan : Type := mkScan {
  updatedOptions : list string;
  uvmPath : string;
  readonly : bool
}.

Inductive scanned : Type :=
| ScanDone (st : scan)
| ScanError (e : error)
| ScanPanic (msg : string).

(** The loop over [mount.Options]. *)
Fixpoint scanOptions (opts : list string) (st : scan) : scanned :=
  match opts with
  | [] => ScanDone st
  | opt :: rest =>
      let elements := strings_SplitN_eq_2 opt in
      let e0 := hd "" elements in
      if String.eqb e0 "uvmpath" then
        match elements !! 1%nat with
        | None => ScanPanic "runtime error: index out of range"
        | Some e1 =>
            (* dropOption = true *)
            scanOptions rest (mkScan (updatedOptions st) e1 (readonly st))
        end
      else if String.eqb e0 "rw" then
        scanOptions rest (mkScan (updatedOptions st ++ [opt]) (uvmPath st) (readonly st))
      else if String.eqb e0 "ro" then
        scanOptions rest (mkScan (updatedOptions st ++ [opt]) (uvmPath st) true)
      else if String.eqb e0 "rbind" then
        scanOptions rest (mkScan (updatedOptions st ++ [opt]) (uvmPath st) (readonly st))
      else ScanError (Errorf "unsupported option %q" [FStr opt])
  end.

Section Translation.

(** Go's [path.Join], of two elements. *)
Variable path_Join : string -> string -> string.

(** The loop over [createOptions.Spec.Mounts]: the mapped directories for
    HCS and the mounts for the spec.  [mount] and [specMount] are copies
    of the element; [mds] and [specMounts] are slices of the function's
    own, held as lists until they leave it. *)
Fixpoint translateMounts (h : Heap) (mounts : list Mount)
    (mds : list MappedDir) (specMounts : list Mount)
  : outcome (error + list MappedDir * list Mount) :=
  match mounts with
  | [] => Returned (inr (mds, specMounts))
  | mount :: rest =>
      let specMount := mount in
      if String.eqb (Type_ mount) "bind" then
        (* Strip out the uvmpath from the options *)
        match scanOptions (readStrings h (Options mount)) (mkScan [] "" false) with
        | ScanPanic msg => Panicked msg
        | ScanError e => Returned (inl e)
        | ScanDone st =>
            (* mount.Options = updatedOptions: on the copy [mount] only *)
            if String.eqb (uvmPath st) "" then
              Returned (inl (Errorf "no uvmpath for bind mount %+v"
                               [FMount (Destination mount) (Type_ mount)
                                       (Source mount) (updatedOptions st)]))
            else
              let md := mkMappedDir (Source mount)
                          (path_Join (uvmPath st) (Destination mount))
                          true (readonly st) in
              let specMount :=
                mkMount (Destination specMount) (Type_ specMount)
                        (path_Join (uvmPath st) (Destination mount))
                        (Options specMount) in
              translateMounts h rest (mds ++ [md]) (specMounts ++ [specMount])
        end
      else translateMounts h rest mds (specMounts ++ [specMount])
  end.

End Translation.

Section CreateLCOWv1.

Context {W : Type} (H : Host W).

(** Go's [filepath.Split], [filepath.Join] and [path.Join]. *)
Variable filepath_Split : string -> string * string.
Variable filepath_Join : string -> string -> string.
Variable path_Join : string -> string -> string.

(** The caller's memory, and the world. *)
Definition St : Type := Memory * W.

(** A call to a collaborator: it does not see the caller's memory. *)
Definition callW {A} (op : W -> A * W) (ev : A -> Event) : M St A :=
  fun s => let '(a, w1) := op (snd s) in (a, (fst s, w1), [ev a]).

(** The loop over the layer folders below the top-most one. *)
Fixpoint layersLoop (layerFolders : list string) (layers : list Layer)
  : M St (errtext + list Layer) :=
  match layerFolders with
  | [] => ret (inr layers)
  | layerPath :: rest =>
      let filename := snd (filepath_Split layerPath) in
      r <~ callW (NameToGuid H filename) (EvNameToGuid filename) ;;
      match r with
      | inr err => ret (inl err)
      | inl g =>
          layersLoop rest
            (layers ++ [mkLayer g (filepath_Join layerPath "layer.vhd")])
      end
  end.

(** [createOptions.Spec.Mounts = specMounts]: the backing array of
    [specMounts] is one the function allocated. *)
Definition storeSpecMounts (specMounts : list Mount) : M St unit :=
  fun s =>
    let m := fst s in
    let '(sl, h) := allocMounts (heap m) specMounts in
    let co := createOptions m in
    let co' := mkCreateOptions (id co) (owner co) (lcowkird co) (lcowkernel co)
                 (lcowinitrd co) (lcowbootparams co)
                 (mkSpec (spec_Windows (spec co)) sl) in
    (tt, (mkMemory co' h, snd s), [EvSetSpecMounts sl]).

(** The configuration, its fields as the function has set them when it
    calls [CreateContainer]. *)
Definition configurationOf (co : CreateOptions) (layerFolderPath : string)
    (layers : list Layer) (mds : list MappedDir) : ContainerConfig :=
  let network :=
    match spec_Windows (spec co) with
    | Some w => Network w
    | None => None
    end in
  {| HvPartition := true;
     Name := id co;
     SystemType := "container";
     ContainerType := "linux";
     Owner := owner co;
     TerminateOnLastHandleClosed := true;
     cfg_HvRuntime := Some (mkHvRuntime (lcowkird co) (lcowkernel co)
                                         (lcowinitrd co) (lcowbootparams co));
     LayerFolderPath := layerFolderPath;
     Layers := layers;
     EndpointList :=
       match network with Some n => wn_EndpointList n | None => [] end;
     AllowUnqualifiedDNSQuery :=
       match network with Some n => wn_AllowUnqualifiedDNSQuery n | None => false end;
     DNSSearchList :=
       match network with
       | Some n =>
           match wn_DNSSearchList n with
           | Some l => String.concat "," l
           | None => ""
           end
       | None => ""
       end;
     NetworkSharedContainerName :=
       match network with
       | Some n => wn_NetworkSharedContainerName n
       | None => ""
       end;
     MappedDirectories := mds |}.

(** The mounts, [CreateContainer], and the store into the spec. *)
Definition mountsAndCreate (co : CreateOptions) (layerFolderPath : string)
    (layers : list Layer) : M St (outcome (Container + error)) :=
  h <~ peek (fun s : St => heap (fst s)) ;;
  match translateMounts path_Join h (readMounts h (Mounts (spec co))) [] [] with
  | Panicked msg => ret (Panicked msg)
  | Returned (inl e) => ret (Returned (inr e))
  | Returned (inr (mds, specMounts)) =>
      let configuration := configurationOf co layerFolderPath layers mds in
      r <~ callW (CreateContainer H (id co) configuration)
                 (EvCreateContainer (id co) configuration) ;;
      match r with
      | inr err => ret (Returned (inr (Raw err)))
      | inl container =>
          (* TODO - Not sure why after CreateContainer *)
          storeSpecMounts specMounts ;;;
          ret (Returned (inl container))
      end
  end.

(** createLCOWv1 creates a Linux (LCOW) container using the V1 schema. *)
Definition createLCOWv1 : M St (outcome (Container + error)) :=
  co <~ peek (fun s : St => createOptions (fst s)) ;;
  match spec_Windows (spec co) with
  | Some w =>
      (* Strip off the top-most layer as that's passed in separately to HCS *)
      if (0 <? length (LayerFolders w))%nat then
        r <~ layersLoop (removelast (LayerFolders w)) [] ;;
        match r with
        | inl err => ret (Returned (inr (Raw err)))
        | inr layers => mountsAndCreate co (List.last (LayerFolders w) "") layers
        end
      else mountsAndCreate co "" []
  | None => mountsAndCreate co "" []
  end.

End CreateLCOWv1.

(** ** Reading a run's events *)

Fixpoint count (p : Event -> bool) (l : list Event) : nat :=
  match l with
  | [] => 0
  | e :: t => (if p e then 1 else 0) + count p t
  end.

Definition isAttach (e : Event) : bool :=
  match e with EvAddSCSI _ _ _ _ _ _ => true | _ => false end.

Definition isDetach (e : Event) : bool :=
  match e with EvRemoveSCSI _ _ _ _ _ => true | _ => false end.

(** The calls on a process of the guest. *)
Definition isProcessEvent (e : Event) : bool :=
  match e with
  | EvCreateProcessEx _ _ _ | EvWaitTimeout _ _ _ | EvExitCode _ _ _
  | EvKill _ _ | EvClose _ _ => true
  | _ => false
  end.

(** Any interaction with the guest: hot-add, hot-remove, processes. *)
Definition isGuestEvent (e : Event) : bool :=
  isAttach e || isDetach e || isProcessEvent e.

(** The calls on the host's file system. *)
Definition isFileEvent (e : Event) : bool :=
  match e with
  | EvStat _ _ | EvCopyFile _ _ _ _ | EvCreateVhdx _ _ _ _
  | EvCreate _ _ | EvFileClose _ _ => true
  | _ => false
  end.

(** The events that follow the hot-add. *)
Fixpoint afterAttach (l : list Event) : list Event :=
  match l with
  | [] => []
  | EvAddSCSI _ _ _ _ _ _ :: t => t
  | _ :: t => afterAttach t
  end.

(** A remote step that failed: the command did not start, its exit code
    could not be read, or it is not zero. *)
Definition stepFailed (e : Event) : bool :=
  match e with
  | EvCreateProcessEx _ _ (StartFailed _) => true
  | EvExitCode _ _ (Some _) => true
  | EvExitCode _ code None => negb (code =? 0)%Z
  | _ => false
  end.

(** The file of the host a call writes: the target of a copy, the image
    it creates, the file it creates or truncates, and the image hot-added
    to the guest, which the guest then writes. *)
Definition written (e : Event) : option string :=
  match e with
  | EvCopyFile _ dst _ _ => Some dst
  | EvCreateVhdx path _ _ _ => Some path
  | EvCreate name _ => Some name
  | EvAddSCSI _ path _ _ _ _ => Some path
  | _ => None
  end.

(** One way in which two paths name the same file: a leading [./] does
    not count. *)
Fixpoint dropDotSlash (p : string) : string :=
  match p with
  | String "."%char (String "/"%char r) => dropDotSlash r
  | _ => p
  end.

Definition sameLocalFile (p q : string) : Prop :=
  dropDotSlash p = dropDotSlash q.

(** *** The mkfs.ext4 command line

    [-E] and [-O] each take a comma-separated list; in the list of [-O] a
    feature is set by its name and cleared by its name after a caret. *)

Fixpoint splitOn (sep : ascii) (s : string) : list string :=
  match s with
  | EmptyString => [EmptyString]
  | String c r =>
      if Ascii.eqb c sep then EmptyString :: splitOn sep r
      else match splitOn sep r with
           | [] => [String c EmptyString]
           | x :: t => String c x :: t
           end
  end.

(** The items of the list that follows the flag [flag]. *)
Fixpoint flagItems (flag : string) (args : list string) : list string :=
  match args with
  | [] => []
  | a :: t =>
      if String.eqb a flag then
        match t with
        | [] => []
        | v :: _ => splitOn ","%char v
        end
      else flagItems flag t
  end.

Definition extendedOption (o : string) (args : list string) : bool :=
  existsb (String.eqb o) (flagItems "-E" args).

Definition featureSet (f : string) (args : list string) : bool :=
  existsb (String.eqb f) (flagItems "-O" args).

Definition featureCleared (f : string) (args : list string) : bool :=
  existsb (String.eqb ("^" +:+ f)) (flagItems "-O" args).

(** The four features, all cleared. *)
Definition allFourCleared (args : list string) : bool :=
  featureCleared "has_journal" args && featureCleared "sparse_super" args
  && featureCleared "uninit_bg" args && featureCleared "resize_inode" args.

(** *** The options of a bind mount *)

(** [uvmpath=<p>] *)
Definition isUvmpathOption (opt : string) : bool :=
  match cutAtEquals opt with
  | Some (k, _) => String.eqb k "uvmpath"
  | None => false
  end.

(** An option the scan accepts: [uvmpath=<p>], or [rw], [ro], [rbind]
    (each with or without an [=...] after it). *)
Definition supportedOption (opt : string) : bool :=
  isUvmpathOption opt
  || (let e0 := hd "" (strings_SplitN_eq_2 opt) in
      String.eqb e0 "rw" || String.eqb e0 "ro" || String.eqb e0 "rbind").

Definition isBind (m : Mount) : bool := String.eqb (Type_ m) "bind".


Definition supportedOptions (h : Heap) (m : Mount) : bool :=
  forallb supportedOption (readStrings h (Options m)).


(** ** A scripted host

    A host whose answers are fixed in advance.  Its world counts the
    processes started; the count names the next process. *)

Record Script : Type := mkScript {
  cachePresent : bool;
  copyError : option errtext;
  vhdxError : option errtext;
  attachResult : Z * Z * option errtext;
  detachError : option errtext;
  startError : list string -> option errtext;
  exitCodes : Process -> Z * option errtext;
  stdoutText : string;
  stderrText : string;
  debugOn : bool;
  createResult : File + errtext;
  guidError : option errtext;
  containerResult : Container + errtext
}.

Definition scripted (s : Script) : Host nat :=
  {| os_Stat := fun _ w =>
       (if cachePresent s then None else Some "file does not exist", w);
     CopyFile := fun _ _ _ w => (copyError s, w);
     winio_CreateVhdx := fun _ _ _ w => (vhdxError s, w);
     AddSCSI := fun _ _ _ w => (attachResult s, w);
     removeSCSI := fun _ _ _ _ w => (detachError s, w);
     container_CreateProcessEx := fun _ req w =>
       (match startError s (Args req) with
        | Some e => StartFailed e
        | None => Started w (mkByteCounts 0 4096 0)
        end, S w);
     process_WaitTimeout := fun _ _ w => (None, w);
     process_ExitCode := fun p w => (exitCodes s p, w);
     process_Kill := fun _ w => (None, w);
     process_Close := fun _ w => (None, w);
     buffer_String := fun _ st _ =>
       match st with StdoutStream => stdoutText s | StderrStream => stderrText s end;
     os_Create := fun _ w => (createResult s, w);
     file_Close := fun _ w => (None, w);
     logrus_debug := fun _ => debugOn s;
     os_Getenv := fun _ _ => if debugOn s then "1" else "";
     NameToGuid := fun name w =>
       (match guidError s with Some e => inr e | None => inl ("guid-" +:+ name) end, w);
     CreateContainer := fun _ _ w => (containerResult s, w) |}.

(** Everything succeeds; the disk is found as [sda]. *)
Definition allGood : Script :=
  {| cachePresent := false;
     copyError := None;
     vhdxError := None;
     attachResult := (0%Z, 1%Z, None);
     detachError := None;
     startError := fun _ => None;
     exitCodes := fun _ => (0%Z, None);
     stdoutText := "sda";
     stderrText := "";
     debugOn := false;
     createResult := inl 7%nat;
     guidError := None;
     containerResult := inl 1%nat |}.

(** The hot-add fails. *)
Definition attachFails : Script :=
  {| cachePresent := false;
     copyError := None;
     vhdxError := None;
     attachResult := ((-1)%Z, (-1)%Z, Some "hot-add failed");
     detachError := None;
     startError := fun _ => None;
     exitCodes := fun _ => (0%Z, None);
     stdoutText := "sda";
     stderrText := "";
     debugOn := false;
     createResult := inl 7%nat;
     guidError := None;
     containerResult := inl 1%nat |}.

(** The cache file is there, and copying fails. *)
Definition cachedCopyFails : Script :=
  {| cachePresent := true;
     copyError := Some "disk full";
     vhdxError := None;
     attachResult := (0%Z, 1%Z, None);
     detachError := None;
     startError := fun _ => None;
     exitCodes := fun _ => (0%Z, None);
     stdoutText := "sda";
     stderrText := "";
     debugOn := false;
     createResult := inl 7%nat;
     guidError := None;
     containerResult := inl 1%nat |}.

(** The cache file is there, and copying works. *)
Definition cacheHit : Script :=
  {| cachePresent := true;
     copyError := None;
     vhdxError := None;
     attachResult := (0%Z, 1%Z, None);
     detachError := None;
     startError := fun _ => None;
     exitCodes := fun _ => (0%Z, None);
     stdoutText := "sda";
     stderrText := "";
     debugOn := false;
     createResult := inl 7%nat;
     guidError := None;
     containerResult := inl 1%nat |}.

(** The format command exits with 1; diagnostics are on. *)
Definition mkfsFails : Script :=
  {| cachePresent := false;
     copyError := None;
     vhdxError := None;
     attachResult := (0%Z, 1%Z, None);
     detachError := None;
     startError := fun _ => None;
     exitCodes := fun p => if Nat.eqb p 3 then (1%Z, None) else (0%Z, None);
     stdoutText := "sda";
     stderrText := "mkfs: no such device";
     debugOn := true;
     createResult := inl 7%nat;
     guidError := None;
     containerResult := inl 1%nat |}.

(** The hot-remove fails. *)
Definition detachFails : Script :=
  {| cachePresent := false;
     copyError := None;
     vhdxError := None;
     attachResult := (0%Z, 1%Z, None);
     detachError := Some "device busy";
     startError := fun _ => None;
     exitCodes := fun _ => (0%Z, None);
     stdoutText := "sda";
     stderrText := "";
     debugOn := false;
     createResult := inl 7%nat;
     guidError := None;
     containerResult := inl 1%nat |}.

(** The extraction command does not start. *)
Definition tar2vhdFails : Script :=
  {| cachePresent := false;
     copyError := None;
     vhdxError := None;
     attachResult := (0%Z, 1%Z, None);
     detachError := None;
     startError := fun args =>
       if String.eqb (hd "" args) "tar2vhd" then Some "no such command" else None;
     exitCodes := fun _ => (0%Z, None);
     stdoutText := "";
     stderrText := "";
     debugOn := false;
     createResult := inl 7%nat;
     guidError := None;
     containerResult := inl 1%nat |}.

(** [CreateContainer] fails. *)
Definition containerFails : Script :=
  {| cachePresent := false;
     copyError := None;
     vhdxError := None;
     attachResult := (0%Z, 1%Z, None);
     detachError := None;
     startError := fun _ => None;
     exitCodes := fun _ => (0%Z, None);
     stdoutText := "";
     stderrText := "";
     debugOn := false;
     createResult := inl 7%nat;
     guidError := None;
     containerResult := inr "hcs: create failed" |}.

(** The timeout and the trimming used with the scripted host. *)
Definition timeout4min : Z := 1000000000 * 60 * 4.
Definition noTrim (s : string) : string := s.

Definition scratch (s : Script) (uvm : option Container) (destFile : string)
    (sizeGB : N) (cacheFile : string) : option error * nat * list Event :=
  CreateLCOWScratch (scripted s) timeout4min noTrim uvm destFile sizeGB cacheFile 0%nat.

(** The request [TarToVhd] starts the extraction with. *)
Definition tar2vhdRequest (reader : Reader) (outFile : File) : CreateProcessEx :=
  mkCreateProcessEx ["tar2vhd"] true (Some reader) (Some (ToFile outFile)) None.

Definition tar (s : Script) (uvm : option Container) (targetVHDFile : string)
    (reader : Reader) : Z * option error * nat * list Event :=
  TarToVhd (scripted s) uvm targetVHDFile reader 0%nat.

(** *** Events of [createLCOWv1] *)

Definition isStore (e : Event) : bool :=
  match e with EvSetSpecMounts _ => true | _ => false end.

Definition isNameToGuid (e : Event) : bool :=
  match e with EvNameToGuid _ _ => true | _ => false end.

(** An array that is in [h] is in [h'], with the same contents. *)
Definition arraysKept (h h' : Heap) : Prop :=
  (forall l a, stringArrays h !! l = Some a -> stringArrays h' !! l = Some a)
  /\ (forall l a, mountArrays h !! l = Some a -> mountArrays h' !! l = Some a).

(** *** A caller's memory, for examples *)

(** Path functions for the examples: the elements, a slash between. *)
Definition joinSlash (a b : string) : string := a +:+ "/" +:+ b.
Definition splitNone (s : string) : string * string := ("", s).

(** A bind mount with a [uvmpath] and a tmpfs mount. *)
Definition bindMount : Mount :=
  mkMount "/target" "bind" "C:/host/data" (mkSlice 1%positive 0 2).
Definition tmpfsMount : Mount :=
  mkMount "/run" "tmpfs" "tmpfs" (mkSlice 3%positive 0 1).

(** A bind mount whose options are [rw] and [noexec], and no [uvmpath]. *)
Definition bogusMount : Mount :=
  mkMount "/target" "bind" "C:/host/data" (mkSlice 4%positive 0 2).

(** A bind mount whose options are [ro] alone. *)
Definition roMount : Mount :=
  mkMount "/target" "bind" "C:/host/data" (mkSlice 5%positive 0 1).

(** A bind mount whose options are the bare word [uvmpath], and [ro]. *)
Definition bareMount : Mount :=
  mkMount "/target" "bind" "C:/host/data" (mkSlice 6%positive 0 2).

Definition exampleHeap : Heap :=
  mkHeap
    (<[1%positive := ["uvmpath=/tmp/gcs/c1/binds"; "ro"]]>
       (<[3%positive := ["nosuid"]]>
          (<[4%positive := ["rw"; "noexec"]]>
             (<[5%positive := ["ro"]]>
                (<[6%positive := ["uvmpath"; "ro"]]> ∅)))))
    (<[2%positive := [bindMount; tmpfsMount]]> ∅).

Definition exampleOptions : CreateOptions :=
  mkCreateOptions "c1" "docker" "C:/Program Files/Linux Containers"
    "bootx64.efi" "initrd.img" ""
    (mkSpec None (mkSlice 2%positive 0 2)).

Definition exampleMemory : Memory := mkMemory exampleOptions exampleHeap.

Definition createV1 (s : Script) (m : Memory)
  : outcome (Container + error) * St * list Event :=
  createLCOWv1 (scripted s) splitNone joinSlash joinSlash (m, 0%nat).

(** The caller's options with the new mounts stored. *)
Definition withMounts (co : CreateOptions) (sl : slice) : CreateOptions :=
  mkCreateOptions (id co) (owner co) (lcowkird co) (lcowkernel co)
    (lcowinitrd co) (lcowbootparams co) (mkSpec (spec_Windows (spec co)) sl).

(** How a run [r] of [createLCOWv1] from the memory [m] ends, the events
    [pre] done: it fails, with the memory as it was and at most the
    failed [CreateContainer] called; or it has the container, and then
    stores the new array of mounts. *)
Definition v1Ends {W : Type} (path_Join : string -> string -> string) (m : Memory)
    (pre : list Event) (r : outcome (Container + error) * @St W * list Event)
  : Prop :=
  let co := createOptions m in
  (fst (final r) = m
   /\ (forall c, result r <> Returned (inl c))
   /\ (events r = pre
       \/ exists cfg e,
            events r = pre ++ [EvCreateContainer (id co) cfg (inr e)]
            /\ result r = Returned (inr (Raw e))))
  \/ (exists c cfg mds specMounts,
        let a := allocMounts (heap m) specMounts in
        translateMounts path_Join (heap m)
          (readMounts (heap m) (Mounts (spec co))) [] []
        = Returned (inr (mds, specMounts))
        /\ result r = Returned (inl c)
        /\ events r = pre ++ [EvCreateContainer (id co) cfg (inl c);
                              EvSetSpecMounts (fst a)]
        /\ fst (final r) = mkMemory (withMounts co (fst a)) (snd a)).

(** *** Handles, failed calls *)

Definition isClose (e : Event) : bool :=
  match e with EvClose _ _ => true | _ => false end.

Definition isKill (e : Event) : bool :=
  match e with EvKill _ _ => true | _ => false end.

(** A process was started: there is a handle to close. *)
Definition startedOk (e : Event) : bool :=
  match e with EvCreateProcessEx _ _ (Started _ _) => true | _ => false end.

Definition isFileClose (e : Event) : bool :=
  match e with EvFileClose _ _ => true | _ => false end.

(** A file was created: there is a handle to close. *)
Definition createdOk (e : Event) : bool :=
  match e with EvCreate _ (inl _) => true | _ => false end.

(** A call whose failure [CreateLCOWScratch] looks at, once the image is
    hot-added: a step, the hot-remove, the copy to the cache. *)
Definition callFailed (e : Event) : bool :=
  match e with
  | EvRemoveSCSI _ _ _ _ (Some _) => true
  | EvCopyFile _ _ _ (Some _) => true
  | _ => stepFailed e
  end.

(** The processes still open after the events [l], [open] being open
    before them, most recent first; [None] when a close is not of the
    process most recently started among those still open. *)
Fixpoint openProcesses (open : list Process) (l : list Event)
  : option (list Process) :=
  match l with
  | [] => Some open
  | EvCreateProcessEx _ _ (Started p _) :: t => openProcesses (p :: open) t
  | EvClose p _ :: t =>
      match open with
      | q :: rest => if Nat.eqb p q then openProcesses rest t else None
      | [] => None
      end
  | _ :: t => openProcesses open t
  end.

(** The first exit code of [l] that failed (it could not be read, or it
    is not zero), with the command of the process started last before it;
    [cmd] is the command of the process started last before [l]. *)
Fixpoint failedExit (cmd : list string) (l : list Event)
  : option (list string * Process * Z * option errtext) :=
  match l with
  | [] => None
  | EvCreateProcessEx _ req (Started _ _) :: t => failedExit (Args req) t
  | EvExitCode p code err :: t =>
      if stepFailed (EvExitCode p code err) then Some (cmd, p, code, err)
      else failedExit cmd t
  | _ :: t => failedExit cmd t
  end.

(** What the host answered along a step that ran to its end: from the
    world [w] the command [req] started in [uvm] as the process [p], the
    wait for it returned [t], and its exit code was read as [code], which
    left the world [w']. *)
Definition stepRan {W : Type} (H : Host W) (uvm : Container) (d : Z)
    (req : CreateProcessEx) (w : W) (p : Process) (bc : ByteCounts)
    (t : option errtext) (code : Z) (w' : W) : Prop :=
  exists wa wb,
    container_CreateProcessEx H uvm req w = (Started p bc, wa)
    /\ process_WaitTimeout H p d wa = (t, wb)
    /\ process_ExitCode H p wb = ((code, None), w').

(** *** Reading the options of a mount *)

(** The part of an option before its first [=]. *)
Definition optionKey (opt : string) : string := hd "" (strings_SplitN_eq_2 opt).

(** The value of the last [uvmpath=<p>] of the options, [init] without one. *)
Definition lastUvmpath (opts : list string) (init : string) : string :=
  fold_left (fun acc o =>
               match cutAtEquals o with
               | Some (k, v) => if String.eqb k "uvmpath" then v else acc
               | None => acc
               end) opts init.

Definition hasRo (opts : list string) : bool :=
  existsb (fun o => String.eqb (optionKey o) "ro") opts.

(** *** The translation, said at once *)

(** The mapped directory of a bind mount: the host's source, under the
    last [uvmpath] of its options, read-only when [ro] is among them. *)
Definition mappedDirOf (path_Join : string -> string -> string) (h : Heap)
    (m : Mount) : MappedDir :=
  let opts := readStrings h (Options m) in
  mkMappedDir (Source m) (path_Join (lastUvmpath opts "") (Destination m))
              true (hasRo opts).

(** The mount as the spec gets it: a bind mount with its source moved
    into the utility VM, any other mount as it is. *)
Definition rewrittenMount (path_Join : string -> string -> string) (h : Heap)
    (m : Mount) : Mount :=
  if isBind m then
    mkMount (Destination m) (Type_ m)
            (path_Join (lastUvmpath (readStrings h (Options m)) "")
                       (Destination m))
            (Options m)
  else m.

(** A mount the translation accepts: not a bind mount, or one whose
    options are supported and give a [uvmpath] that is not empty. *)
Definition translatable (h : Heap) (m : Mount) : bool :=
  negb (isBind m)
  || (supportedOptions h m
      && negb (String.eqb (lastUvmpath (readStrings h (Options m)) "") "")).

(** The scan of [opts] from [st], when it goes through. *)
Definition scannedFrom (opts : list string) (st : scan) : scan :=
  mkScan (updatedOptions st
            ++ List.filter (fun o => negb (String.eqb (optionKey o) "uvmpath")) opts)
         (lastUvmpath opts (uvmPath st))
         (readonly st || hasRo opts).

(** *** More readings of the events of [createLCOWv1] *)

Definition isCreateContainer (e : Event) : bool :=
  match e with EvCreateContainer _ _ _ => true | _ => false end.

(** The GUIDs [NameToGuid] returned, in the order of the calls. *)
Fixpoint guidsOf (l : list Event) : list GUID :=
  match l with
  | [] => []
  | EvNameToGuid _ (inl g) :: t => g :: guidsOf t
  | _ :: t => guidsOf t
  end.

(** The names [NameToGuid] was called with, in the order of the calls. *)
Fixpoint namesOf (l : list Event) : list string :=
  match l with
  | [] => []
  | EvNameToGuid name _ :: t => name :: namesOf t
  | _ :: t => namesOf t
  end.

(** The layer folders of the spec, none without a [Windows] section. *)
Definition layerFoldersOf (co : CreateOptions) : list string :=
  match spec_Windows (spec co) with
  | Some w => LayerFolders w
  | None => []
  end.

(** *** getLCOWSettings *)

Section Settings.

Context {W : Type} (H : Host W).

(** [valueFromStringMap] and the names of the options are declared in
    other files of the package; [filepath.Join] is Go's. The map
    [createOptions.Options] is given beside the options. *)
Variable valueFromStringMap : gmap string string -> string -> string.
Variable HCSOPTION_LCOW_KIRD_PATH : string.
Variable HCSOPTION_LCOW_KERNEL_FILE : string.
Variable HCSOPTION_LCOW_INITRD_FILE : string.
Variable HCSOPTION_LCOW_BOOT_PARAMETERS : string.
Variable filepath_Join : string -> string -> string.

Definition orDefault (v d : string) : string :=
  if String.eqb v "" then d else v.

Definition getLCOWSettings (Options : gmap string string) (co : CreateOptions)
    (w : W) : CreateOptions :=
  let lcowkird :=
    orDefault (valueFromStringMap Options HCSOPTION_LCOW_KIRD_PATH)
              (filepath_Join (os_Getenv H "ProgramFiles" w) "Linux Containers") in
  let lcowkernel :=
    orDefault (valueFromStringMap Options HCSOPTION_LCOW_KERNEL_FILE)
              "bootx64.efi" in
  let lcowinitrd :=
    orDefault (valueFromStringMap Options HCSOPTION_LCOW_INITRD_FILE)
              "initrd.img" in
  let lcowbootparams :=
    valueFromStringMap Options HCSOPTION_LCOW_BOOT_PARAMETERS in
  mkCreateOptions (id co) (owner co) lcowkird lcowkernel lcowinitrd
                  lcowbootparams (spec co).

End Settings.

(** *** More scripts and memories, for examples *)

(** The image cannot be created. *)
Definition vhdxFails : Script :=
  {| cachePresent := false;
     copyError := None;
     vhdxError := Some "access denied";
     attachResult := (0%Z, 1%Z, None);
     detachError := None;
     startError := fun _ => None;
     exitCodes := fun _ => (0%Z, None);
     stdoutText := "sda";
     stderrText := "";
     debugOn := true;
     createResult := inl 7%nat;
     guidError := None;
     containerResult := inl 1%nat |}.

(** [NameToGuid] fails. *)
Definition guidFails : Script :=
  {| cachePresent := false;
     copyError := None;
     vhdxError := None;
     attachResult := (0%Z, 1%Z, None);
     detachError := None;
     startError := fun _ => None;
     exitCodes := fun _ => (0%Z, None);
     stdoutText := "";
     stderrText := "";
     debugOn := false;
     createResult := inl 7%nat;
     guidError := Some "bad name";
     containerResult := inl 1%nat |}.

(** The file cannot be created. *)
Definition createFails : Script :=
  {| cachePresent := false;
     copyError := None;
     vhdxError := None;
     attachResult := (0%Z, 1%Z, None);
     detachError := None;
     startError := fun _ => None;
     exitCodes := fun _ => (0%Z, None);
     stdoutText := "";
     stderrText := "";
     debugOn := true;
     createResult := inr "access denied";
     guidError := None;
     containerResult := inl 1%nat |}.

(** Three layer folders, the last the top-most. *)
Definition layeredOptions : CreateOptions :=
  mkCreateOptions "c1" "docker" "C:/Program Files/Linux Containers"
    "bootx64.efi" "initrd.img" ""
    (mkSpec (Some (mkWindows ["C:/l/base"; "C:/l/mid"; "C:/l/top"] None))
            (mkSlice 2%positive 0 2)).

Definition layeredMemory : Memory := mkMemory layeredOptions exampleHeap.

(** The one mount is the bind mount with [rw] and [noexec]. *)
Definition bogusMemory : Memory :=
  mkMemory exampleOptions
    (mkHeap (stringArrays exampleHeap) (<[2%positive := [bogusMount]]> ∅)).

(** The configuration that the options with three layers give, on the
    scripted host. *)
Definition layeredConfiguration : ContainerConfig :=
  configurationOf layeredOptions "C:/l/top"
    [mkLayer "guid-C:/l/base" "C:/l/base/layer.vhd";
     mkLayer "guid-C:/l/mid" "C:/l/mid/layer.vhd"]
    [mappedDirOf joinSlash exampleHeap bindMount].

(** * Proofs *)

(** ** Running the monad by hand *)

(** Case analysis on a scrutinee that holds no other match: the next
    call whose result the code looks at. *)
Ltac break_match :=
  match goal with
  | |- context [match ?x with _ => _ end] =>
      lazymatch x with
      | context [match _ with _ => _ end] => fail
      | _ => destruct x eqn:?
      end
  end.

Ltac red_run := cbv beta iota zeta delta [bind call ret peek defer].

Ltac exec := red_run; repeat (break_match; red_run).

Ltac unfold_calls :=
  unfold Stat, Copy, CreateVhdx, Attach, Detach, Start, WaitTimeout, ExitCode,
    Kill, Close, Create, FileClose.

(** Names the run of the goal [r], runs it along every path, and leaves
    one goal per path, with the run's value in place of [r]. *)
Ltac paths_of run defs :=
  let r := fresh "r" in
  let Hr := fresh "Hr" in
  remember run as r eqn:Hr; symmetry in Hr; revert Hr;
  defs; unfold_calls; exec;
  intros Hr; subst r; cbn [app result final events fst snd].

(** Evaluates [existsb stepFailed] in [Hsf] with the exit codes known. *)
Ltac failed_steps Hsf :=
  cbn [existsb stepFailed] in Hsf;
  repeat match goal with
         | Hb : negb _ = _ |- _ => rewrite Hb in Hsf
         end;
  cbn [orb] in Hsf.

Ltac in_list := cbn [In]; repeat (first [left; reflexivity | right]).

(** ** Lists of events *)

Lemma count_app p l1 l2 : count p (l1 ++ l2) = (count p l1 + count p l2)%nat.
Proof.
  induction l1 as [|e t IH]; [reflexivity|].
  cbn [app count]. rewrite IH. lia.
Qed.

Lemma count_zero_In p l e : count p l = 0%nat -> In e l -> p e = false.
Proof.
  induction l as [|x t IH]; intros Hc Hin; [contradiction|].
  cbn [count] in Hc. destruct Hin as [<-|Hin].
  - destruct (p x); [discriminate|reflexivity].
  - apply IH; [|assumption]. destruct (p x); [discriminate|exact Hc].
Qed.

Lemma afterAttach_skip l rest :
  count isAttach l = 0%nat -> afterAttach (l ++ rest) = afterAttach rest.
Proof.
  induction l as [|x t IH]; intros Hc; [reflexivity|].
  cbn [count] in Hc.
  destruct x; cbn [isAttach] in Hc; try discriminate; cbn [app afterAttach];
    apply IH; exact Hc.
Qed.

Lemma process_events_count p l :
  (forall e, isProcessEvent e = true -> p e = false) ->
  forallb isProcessEvent l = true -> count p l = 0%nat.
Proof.
  intros Hp. induction l as [|x t IH]; intros Hl; [reflexivity|].
  cbn [forallb] in Hl. apply andb_prop in Hl as [Hx Ht].
  cbn [count]. rewrite (Hp x Hx), (IH Ht). reflexivity.
Qed.

Lemma process_not_attach e : isProcessEvent e = true -> isAttach e = false.
Proof. destruct e; cbn; congruence. Qed.

Lemma process_not_detach e : isProcessEvent e = true -> isDetach e = false.
Proof. destruct e; cbn; congruence. Qed.

Lemma process_not_written l e :
  forallb isProcessEvent l = true -> In e l -> written e = None.
Proof.
  intros Hl Hin. rewrite forallb_forall in Hl. specialize (Hl e Hin).
  destruct e; cbn in *; congruence.
Qed.

Lemma effectiveSizeGB_idem sizeGB :
  effectiveSizeGB (effectiveSizeGB sizeGB) = effectiveSizeGB sizeGB.
Proof.
  unfold effectiveSizeGB, DefaultLCOWScratchSizeGB.
  destruct (sizeGB <? 20)%N eqn:E; [reflexivity|]. rewrite E. reflexivity.
Qed.

Lemma cacheEligible_spec sizeGB cacheFile :
  cacheEligible sizeGB cacheFile = true <->
  cacheFile <> "" /\ sizeGB = DefaultLCOWScratchSizeGB.
Proof.
  unfold cacheEligible. rewrite andb_true_iff, negb_true_iff, N.eqb_eq.
  split; intros [Hc Hs]; (split; [|assumption]).
  - intros ->. discriminate.
  - destruct (String.eqb_spec cacheFile ""); [contradiction|reflexivity].
Qed.

(** ** CreateLCOWScratch *)

Section ScratchProofs.

Context {W : Type} (H : Host W) (dts : Z) (trim : string -> string).

(** The diagnostics only run processes. *)
Lemma DebugLCOWGCS_process_events c w :
  forallb isProcessEvent (events (DebugLCOWGCS H c w)) = true.
Proof. unfold DebugLCOWGCS; unfold_calls; exec; reflexivity. Qed.

(** With a utility VM: the image cannot be created, or it is created,
    the diagnostics run, the image is hot-added, and the run goes on with
    the validation whatever the hot-add returned. *)
Lemma createWithUVM_shape uvmc destFile sizeGB cacheFile w :
  let r := createWithUVM H dts trim (Some uvmc) destFile sizeGB cacheFile w in
  (exists e,
     events r = [EvCreateVhdx destFile sizeGB defaultLCOWVhdxBlockSizeMB (Some e)]
     /\ result r = Some (Errorf "failed to create VHDx %s: %s"
                                [FStr destFile; FStr e]))
  \/ (exists dl controller lun err w',
        let v := validateAndLocate H dts trim uvmc destFile sizeGB cacheFile
                   controller lun w' in
        forallb isProcessEvent dl = true
        /\ events r = EvCreateVhdx destFile sizeGB defaultLCOWVhdxBlockSizeMB None
                       :: dl ++ EvAddSCSI uvmc destFile "" controller lun err
                       :: events v
        /\ result r = result v).
Proof.
  unfold createWithUVM; unfold_calls. red_run.
  destruct (winio_CreateVhdx H destFile sizeGB defaultLCOWVhdxBlockSizeMB w)
    as [[e|] w1] eqn:Hv.
  - left. exists e. split; reflexivity.
  - right.
    pose proof (DebugLCOWGCS_process_events uvmc w1) as Hd.
    destruct (DebugLCOWGCS H uvmc w1) as [[u w2] dl].
    destruct (AddSCSI H uvmc destFile "" w2) as [[[c l] err] w3].
    exists dl, c, l, err, w3.
    destruct (validateAndLocate H dts trim uvmc destFile sizeGB cacheFile c l w3)
      as [[res w4] vl].
    cbv zeta. split; [exact Hd|]. split; reflexivity.
Qed.

(** The cache is hit, or the run is [createWithUVM] at the effective
    size, after at most a failed [os.Stat] of the cache file. *)
Lemma CreateLCOWScratch_shape uvm destFile sizeGB cacheFile w :
  let sz := effectiveSizeGB sizeGB in
  let r := CreateLCOWScratch H dts trim uvm destFile sizeGB cacheFile w in
  (cacheEligible sz cacheFile = true
   /\ exists w1 res w2,
       os_Stat H cacheFile w = (None, w1)
       /\ CopyFile H cacheFile destFile false w1 = (res, w2)
       /\ r = (match res with
               | Some e =>
                   Some (Errorf "failed to copy cached file '%s' to '%s': %s"
                                [FStr cacheFile; FStr destFile; FStr e])
               | None => None
               end, w2,
               [EvStat cacheFile None; EvCopyFile cacheFile destFile false res]))
  \/ (exists pre w1,
        let c := createWithUVM H dts trim uvm destFile sz cacheFile w1 in
        (pre = [] \/ (cacheEligible sz cacheFile = true
                      /\ exists e, os_Stat H cacheFile w = (Some e, w1)
                                   /\ pre = [EvStat cacheFile (Some e)]))
        /\ events r = pre ++ events c
        /\ result r = result c).
Proof.
  unfold CreateLCOWScratch; unfold_calls.
  destruct (cacheEligible (effectiveSizeGB sizeGB) cacheFile) eqn:Hel; red_run.
  - destruct (os_Stat H cacheFile w) as [[e|] w1] eqn:Hs.
    + right. exists [EvStat cacheFile (Some e)], w1.
      destruct (createWithUVM H dts trim uvm destFile (effectiveSizeGB sizeGB)
                  cacheFile w1) as [[res w2] l].
      split; [right; eauto|]. split; reflexivity.
    + left. split; [reflexivity|].
      destruct (CopyFile H cacheFile destFile false w1) as [res w2] eqn:Hc.
      exists w1, res, w2. split; [reflexivity|]. split; [exact Hc|].
      destruct res; reflexivity.
  - right. exists [], w. split; [left; reflexivity|]. split; reflexivity.
Qed.

(** From the validation on, whatever happens: one hot-remove, of the
    address given; a failed step ends in an error; a failed hot-remove is
    never a success, and is the error returned when no step failed. *)
Lemma validateAndLocate_detach uvm destFile sizeGB cacheFile controller lun w :
  let r := validateAndLocate H dts trim uvm destFile sizeGB cacheFile
             controller lun w in
  count isDetach (events r) = 1%nat
  /\ count isAttach (events r) = 0%nat
  /\ (exists res,
        In (EvRemoveSCSI uvm destFile controller lun res) (events r)
        /\ (result r = None -> res = None)
        /\ (forall e, res = Some e ->
              existsb stepFailed (events r) = false ->
              result r = Some (Errorf "failed to hot-remove: %s" [FStr e])))
  /\ (existsb stepFailed (events r) = true -> result r <> None).
Proof.
  intros r; subst r.
  paths_of (validateAndLocate H dts trim uvm destFile sizeGB cacheFile
              controller lun w)
           ltac:(unfold validateAndLocate, locateAndFormat, formatAndRelease).
  all: cbn [count isDetach isAttach Nat.add].
  all: split; [reflexivity|]; split; [reflexivity|].
  all: split;
    [ eexists; split;
      [ in_list
      | split; [ intros Hn; first [discriminate Hn | reflexivity]
               | intros e' He' Hsf; failed_steps Hsf;
                 first [discriminate | congruence] ] ]
    | intros Hsf; failed_steps Hsf; first [discriminate | congruence] ].
Qed.

(** In a run, a hot-add is followed by the validation and what comes
    after it, at the address the hot-add returned. *)
Lemma CreateLCOWScratch_after_attach
    uvm destFile sizeGB cacheFile w g path hint controller lun err :
  let r := CreateLCOWScratch H dts trim uvm destFile sizeGB cacheFile w in
  In (EvAddSCSI g path hint controller lun err) (events r) ->
  exists pre w',
    let v := validateAndLocate H dts trim g path (effectiveSizeGB sizeGB)
               cacheFile controller lun w' in
    uvm = Some g /\ path = destFile /\ hint = ""
    /\ count isAttach pre = 0%nat /\ count isDetach pre = 0%nat
    /\ events r = pre ++ EvAddSCSI g path hint controller lun err :: events v
    /\ result r = result v.
Proof.
  intros r Hin.
  destruct (CreateLCOWScratch_shape uvm destFile sizeGB cacheFile w)
    as [(_ & w1 & res & w2 & _ & _ & Hr) | (pre & w1 & Hpre & Hev & Hres)].
  - exfalso. fold r in Hr. rewrite Hr in Hin. cbn in Hin.
    destruct Hin as [Hin|[Hin|[]]]; discriminate Hin.
  - fold r in Hev, Hres. cbv zeta in Hev, Hres.
    assert (Hpa : count isAttach pre = 0%nat /\ count isDetach pre = 0%nat).
    { destruct Hpre as [->|(_ & e & _ & ->)]; split; reflexivity. }
    destruct Hpa as [Hpa Hpd].
    rewrite Hev in Hin. apply in_app_or in Hin as [Hin|Hin].
    { apply (count_zero_In _ _ _ Hpa) in Hin. discriminate Hin. }
    destruct uvm as [uvmc|]; [|contradiction].
    destruct (createWithUVM_shape uvmc destFile (effectiveSizeGB sizeGB) cacheFile w1)
      as [(e & Hce & _) | (dl & c & l & err' & w' & Hdl & Hce & Hcr)].
    { rewrite Hce in Hin. destruct Hin as [Hin|[]]; discriminate Hin. }
    cbv zeta in Hce, Hcr. rewrite Hce in Hin, Hev.
    destruct (validateAndLocate_detach uvmc destFile (effectiveSizeGB sizeGB)
                cacheFile c l w') as (_ & Hva & _).
    cbv zeta in Hva.
    destruct Hin as [Hin|Hin]; [discriminate Hin|].
    apply in_app_or in Hin as [Hin|Hin].
    { rewrite forallb_forall in Hdl. apply Hdl in Hin. discriminate Hin. }
    destruct Hin as [Hin|Hin].
    2:{ apply (count_zero_In _ _ _ Hva) in Hin. discriminate Hin. }
    injection Hin as <- <- <- <- <- <-.
    exists (pre ++ EvCreateVhdx destFile (effectiveSizeGB sizeGB)
                     defaultLCOWVhdxBlockSizeMB None :: dl), w'.
    cbv zeta. repeat (split; [reflexivity|]).
    split; [|split; [|split]].
    + rewrite count_app. cbn [count isAttach]. rewrite Hpa.
      rewrite (process_events_count _ _ process_not_attach Hdl). reflexivity.
    + rewrite count_app. cbn [count isDetach]. rewrite Hpd.
      rewrite (process_events_count _ _ process_not_detach Hdl). reflexivity.
    + rewrite Hev. rewrite <- app_assoc. reflexivity.
    + rewrite Hres. exact Hcr.
Qed.

(** C1. Once the image has been hot-added, the hot-remove is attempted
    exactly once on every path, and it is the hot-remove of the address
    that the hot-add returned: when a step among validation, device
    lookup and format fails, the run ends in an error, the one hot-remove
    made; when no step fails and the hot-remove does, its error is the
    error returned (a run that succeeds had its hot-remove succeed). *)
Theorem CreateLCOWScratch_detach_exactly_once
    uvm destFile sizeGB cacheFile w g path hint controller lun :
  let r := CreateLCOWScratch H dts trim uvm destFile sizeGB cacheFile w in
  In (EvAddSCSI g path hint controller lun None) (events r) ->
  count isDetach (events r) = 1%nat
  /\ (exists res,
        In (EvRemoveSCSI g path controller lun res) (afterAttach (events r))
        /\ (result r = None -> res = None)
        /\ (forall e, res = Some e ->
              existsb stepFailed (afterAttach (events r)) = false ->
              result r = Some (Errorf "failed to hot-remove: %s" [FStr e])))
  /\ (existsb stepFailed (afterAttach (events r)) = true -> result r <> None).
Proof.
  intros r Hin.
  destruct (CreateLCOWScratch_after_attach _ _ _ _ _ _ _ _ _ _ _ Hin)
    as (pre & w' & _ & _ & _ & Hpa & Hpd & Hev & Hres).
  cbv zeta in Hev, Hres. fold r in Hev, Hres.
  destruct (validateAndLocate_detach g path (effectiveSizeGB sizeGB) cacheFile
              controller lun w') as (Hd & _ & Hrem & Hfail).
  cbv zeta in Hd, Hrem, Hfail.
  assert (Haft : afterAttach (events r) =
                 events (validateAndLocate H dts trim g path
                           (effectiveSizeGB sizeGB) cacheFile controller lun w')).
  { rewrite Hev, (afterAttach_skip _ _ Hpa). reflexivity. }
  rewrite Haft, Hres. split; [|split; assumption].
  rewrite Hev, count_app. cbn [count isDetach]. rewrite Hpd, Hd. reflexivity.
Qed.

(** The validation starts with its command, whatever comes next. *)
Lemma validateAndLocate_starts uvm destFile sizeGB cacheFile controller lun w :
  exists res,
    hd_error (events (validateAndLocate H dts trim uvm destFile sizeGB cacheFile
                        controller lun w))
    = Some (EvCreateProcessEx uvm
              (mkCreateProcessEx (testdCommand controller lun) true None None None)
              res).
Proof.
  paths_of (validateAndLocate H dts trim uvm destFile sizeGB cacheFile
              controller lun w)
           ltac:(unfold validateAndLocate, locateAndFormat, formatAndRelease).
  all: eexists; reflexivity.
Qed.

(** C2, as the code has it. A failed hot-add does not end the run: the
    error is dropped, the validation command is started next at the
    address the failed hot-add returned, the run is from there on the run
    of the steps after a hot-add, with its one hot-remove, and its
    result is theirs. *)
Theorem CreateLCOWScratch_attach_error_ignored
    uvm destFile sizeGB cacheFile w g path hint controller lun err :
  let r := CreateLCOWScratch H dts trim uvm destFile sizeGB cacheFile w in
  In (EvAddSCSI g path hint controller lun (Some err)) (events r) ->
  (exists res,
     hd_error (afterAttach (events r))
     = Some (EvCreateProcessEx g
               (mkCreateProcessEx (testdCommand controller lun) true None None None)
               res))
  /\ count isDetach (events r) = 1%nat
  /\ exists w',
      let v := validateAndLocate H dts trim g path (effectiveSizeGB sizeGB)
                 cacheFile controller lun w' in
      afterAttach (events r) = events v /\ result r = result v.
Proof.
  intros r Hin.
  destruct (CreateLCOWScratch_after_attach _ _ _ _ _ _ _ _ _ _ _ Hin)
    as (pre & w' & _ & _ & _ & Hpa & Hpd & Hev & Hres).
  cbv zeta in Hev, Hres. fold r in Hev, Hres.
  assert (Haft : afterAttach (events r) =
                 events (validateAndLocate H dts trim g path
                           (effectiveSizeGB sizeGB) cacheFile controller lun w')).
  { rewrite Hev, (afterAttach_skip _ _ Hpa). reflexivity. }
  split; [|split].
  - rewrite Haft. apply validateAndLocate_starts.
  - destruct (validateAndLocate_detach g path (effectiveSizeGB sizeGB) cacheFile
                controller lun w') as (Hd & _).
    cbv zeta in Hd.
    rewrite Hev, count_app. cbn [count isDetach]. rewrite Hpd, Hd. reflexivity.
  - exists w'. cbv zeta. split; [exact Haft|exact Hres].
Qed.

(** The four ways a run goes. *)
Lemma CreateLCOWScratch_cases uvm destFile sizeGB cacheFile w :
  let sz := effectiveSizeGB sizeGB in
  let r := CreateLCOWScratch H dts trim uvm destFile sizeGB cacheFile w in
  (* the cache is hit *)
  (cacheEligible sz cacheFile = true
   /\ exists res,
       events r = [EvStat cacheFile None; EvCopyFile cacheFile destFile false res]
       /\ result r = match res with
                     | Some e =>
                         Some (Errorf "failed to copy cached file '%s' to '%s': %s"
                                      [FStr cacheFile; FStr destFile; FStr e])
                     | None => None
                     end)
  \/ exists pre,
      (pre = [] \/ (cacheEligible sz cacheFile = true
                    /\ exists e, pre = [EvStat cacheFile (Some e)]))
      /\ ((* no utility VM *)
          (uvm = None /\ events r = pre /\ result r <> None)
          (* the image cannot be created *)
          \/ (exists e,
                events r = pre ++ [EvCreateVhdx destFile sz
                                     defaultLCOWVhdxBlockSizeMB (Some e)]
                /\ result r <> None)
          (* the image is created and hot-added *)
          \/ (exists g dl controller lun err w',
                let v := validateAndLocate H dts trim g destFile sz cacheFile
                           controller lun w' in
                uvm = Some g
                /\ forallb isProcessEvent dl = true
                /\ events r = pre ++ EvCreateVhdx destFile sz
                                       defaultLCOWVhdxBlockSizeMB None
                                :: dl ++ EvAddSCSI g destFile "" controller lun err
                                :: events v
                /\ result r = result v)).
Proof.
  intros sz r.
  destruct (CreateLCOWScratch_shape uvm destFile sizeGB cacheFile w)
    as [(Hel & w1 & res & w2 & _ & _ & Hr) | (pre & w1 & Hpre & Hev & Hres)].
  - left. split; [exact Hel|]. exists res. fold r in Hr. rewrite Hr.
    split; reflexivity.
  - right. exists pre. fold r sz in Hev, Hres. cbv zeta in Hev, Hres.
    split.
    { destruct Hpre as [->|(Hel & e & _ & ->)]; [left; reflexivity|].
      right. split; [exact Hel|]. exists e. reflexivity. }
    destruct uvm as [g|].
    + destruct (createWithUVM_shape g destFile sz cacheFile w1)
        as [(e & Hce & Hcr) | (dl & c & l & err & w' & Hdl & Hce & Hcr)].
      * right; left. exists e. rewrite Hev, Hce, Hres, Hcr.
        split; [reflexivity|discriminate].
      * right; right. exists g, dl, c, l, err, w'. cbv zeta in Hce, Hcr |- *.
        rewrite Hev, Hce, Hres, Hcr. repeat split. exact Hdl.
    + left. rewrite Hev, Hres. cbn. rewrite app_nil_r.
      repeat split. discriminate.
Qed.

(** The commands started from the validation on. *)
Lemma validateAndLocate_commands uvm destFile sizeGB cacheFile controller lun w
    g req res :
  let r := validateAndLocate H dts trim uvm destFile sizeGB cacheFile
             controller lun w in
  In (EvCreateProcessEx g req res) (events r) ->
  req = mkCreateProcessEx (testdCommand controller lun) true None None None
  \/ req = mkCreateProcessEx (lsCommand controller lun) true None (Some ToBuffer) None
  \/ exists device,
       req = mkCreateProcessEx (mkfsCommand device) true None None (Some ToBuffer).
Proof.
  intros r; subst r.
  paths_of (validateAndLocate H dts trim uvm destFile sizeGB cacheFile
              controller lun w)
           ltac:(unfold validateAndLocate, locateAndFormat, formatAndRelease).
  all: cbn [In]; intros Hin;
    repeat (destruct Hin as [Hin|Hin]; [try discriminate Hin|]);
    try contradiction.
  all: injection Hin as <- <- <-; eauto.
Qed.

(** From the validation on, every call is a call on a process or the
    hot-remove, but for the copy that seeds the cache; when that copy
    fails the run fails. *)
Lemma validateAndLocate_host_calls uvm destFile sizeGB cacheFile controller lun w e :
  let r := validateAndLocate H dts trim uvm destFile sizeGB cacheFile
             controller lun w in
  In e (events r) -> isProcessEvent e || isDetach e = false ->
  cacheEligible sizeGB cacheFile = true
  /\ exists res,
      e = EvCopyFile destFile cacheFile true res
      /\ (forall err, res = Some err ->
            result r = Some (Errorf "failed to seed cache '%s' from '%s': %s"
                                    [FStr destFile; FStr cacheFile; FStr err])).
Proof.
  intros r; subst r.
  paths_of (validateAndLocate H dts trim uvm destFile sizeGB cacheFile
              controller lun w)
           ltac:(unfold validateAndLocate, locateAndFormat, formatAndRelease).
  all: cbn [In]; intros Hin Hw;
    repeat (destruct Hin as [Hin|Hin]; [try (subst e; discriminate Hw)|]);
    try contradiction.
  all: subst e; split; [reflexivity|]; eexists; split; [reflexivity|];
    intros err' Herr; congruence.
Qed.

(** What follows the hot-add in a run. *)
Lemma CreateLCOWScratch_afterAttach uvm destFile sizeGB cacheFile w :
  let r := CreateLCOWScratch H dts trim uvm destFile sizeGB cacheFile w in
  afterAttach (events r) = []
  \/ exists g controller lun w',
       afterAttach (events r) =
       events (validateAndLocate H dts trim g destFile (effectiveSizeGB sizeGB)
                 cacheFile controller lun w').
Proof.
  intros r.
  destruct (CreateLCOWScratch_cases uvm destFile sizeGB cacheFile w)
    as [(_ & res & Hev & _) | (pre & Hpre & Hc)]; fold r in Hev || fold r in Hc.
  - left. rewrite Hev. reflexivity.
  - assert (Hpa : count isAttach pre = 0%nat).
    { destruct Hpre as [->|(_ & e & ->)]; reflexivity. }
    assert (Hp0 : afterAttach pre = []).
    { destruct Hpre as [->|(_ & e & ->)]; reflexivity. }
    destruct Hc as [(_ & Hev & _) | [(e & Hev & _)
                   | (g & dl & c & l & err & w' & _ & Hdl & Hev & _)]].
    + left. rewrite Hev. exact Hp0.
    + left. rewrite Hev, (afterAttach_skip _ _ Hpa). reflexivity.
    + right. exists g, c, l, w'. cbv zeta in Hev. rewrite Hev.
      rewrite (afterAttach_skip _ _ Hpa). cbn [afterAttach].
      rewrite (afterAttach_skip _ _
                 (process_events_count _ _ process_not_attach Hdl)).
      reflexivity.
Qed.

(** C3, as the code has it. The format command of a run is the fixed
    command line [mkfsCommand] on some device: lazy inode-table
    initialisation is on, the features has_journal and resize_inode are
    cleared, and the features sparse_super2 and uninit_bg are set. *)
Theorem CreateLCOWScratch_format_command
    uvm destFile sizeGB cacheFile w g req res :
  let r := CreateLCOWScratch H dts trim uvm destFile sizeGB cacheFile w in
  In (EvCreateProcessEx g req res) (afterAttach (events r)) ->
  hd "" (Args req) = "mkfs.ext4" ->
  (exists device, Args req = mkfsCommand device)
  /\ extendedOption "lazy_itable_init=1" (Args req) = true
  /\ featureCleared "has_journal" (Args req) = true
  /\ featureCleared "resize_inode" (Args req) = true
  /\ (featureSet "sparse_super2" (Args req) = true
      /\ featureCleared "sparse_super2" (Args req) = false
      /\ featureCleared "sparse_super" (Args req) = false)
  /\ (featureSet "uninit_bg" (Args req) = true
      /\ featureCleared "uninit_bg" (Args req) = false).
Proof.
  intros r Hin Hhd.
  destruct (CreateLCOWScratch_afterAttach uvm destFile sizeGB cacheFile w)
    as [Hnil | (g' & c & l & w' & Haft)]; fold r in Hnil || fold r in Haft.
  - rewrite Hnil in Hin. contradiction.
  - rewrite Haft in Hin.
    apply validateAndLocate_commands in Hin as [-> | [-> | (device & ->)]];
      try discriminate Hhd.
    cbn [Args]. split; [exists device; reflexivity|].
    repeat split; reflexivity.
Qed.

(** C4. The size is raised to the default when it is below it and kept
    otherwise, and the run is the run at that size: the image is created
    with it, and the cache is consulted, read or seeded only when it is
    the default size (and a cache file is named). *)
Theorem CreateLCOWScratch_effective_size uvm destFile sizeGB cacheFile w :
  let sz := effectiveSizeGB sizeGB in
  let r := CreateLCOWScratch H dts trim uvm destFile sizeGB cacheFile w in
  ((sizeGB < DefaultLCOWScratchSizeGB)%N -> sz = 20%N)
  /\ ((DefaultLCOWScratchSizeGB <= sizeGB)%N -> sz = sizeGB)
  /\ r = CreateLCOWScratch H dts trim uvm destFile sz cacheFile w
  /\ (forall path s b e, In (EvCreateVhdx path s b e) (events r) -> s = sz)
  /\ (forall name e, In (EvStat name e) (events r) ->
        name = cacheFile /\ cacheFile <> "" /\ sz = DefaultLCOWScratchSizeGB)
  /\ (forall src dst flag e, In (EvCopyFile src dst flag e) (events r) ->
        cacheFile <> "" /\ sz = DefaultLCOWScratchSizeGB)
  /\ (cacheFile <> "" -> sz = DefaultLCOWScratchSizeGB ->
      exists e, hd_error (events r) = Some (EvStat cacheFile e)).
Proof.
  intros sz r.
  split; [|split; [|split]].
  { unfold sz, effectiveSizeGB. intros Hlt.
    apply N.ltb_lt in Hlt. rewrite Hlt. reflexivity. }
  { unfold sz, effectiveSizeGB. intros Hle.
    apply N.ltb_ge in Hle. rewrite Hle. reflexivity. }
  { unfold r, sz, CreateLCOWScratch. rewrite effectiveSizeGB_idem. reflexivity. }
  destruct (CreateLCOWScratch_cases uvm destFile sizeGB cacheFile w)
    as [(Hel & res & Hev & _) | (pre & Hpre & Hc)];
    fold r sz in Hel, Hev || fold r sz in Hpre, Hc.
  - apply cacheEligible_spec in Hel. rewrite Hev.
    split; [|split; [|split]].
    + intros path s b e [Hin|[Hin|[]]]; discriminate Hin.
    + intros name e [Hin|[Hin|[]]]; [|discriminate Hin].
      injection Hin as <- _. tauto.
    + intros; assumption.
    + intros _ _. eexists. reflexivity.
  - assert (Hfile : forall e, In e pre ->
              exists err, e = EvStat cacheFile err
                          /\ cacheFile <> "" /\ sz = DefaultLCOWScratchSizeGB).
    { destruct Hpre as [->|(Hel & e0 & ->)]; intros e Hin; [contradiction|].
      apply cacheEligible_spec in Hel. destruct Hin as [<-|[]]. eauto. }
    assert (Hall : forall e, In e (events r) ->
              (exists err, e = EvStat cacheFile err
                           /\ cacheFile <> "" /\ sz = DefaultLCOWScratchSizeGB)
              \/ (exists err, e = EvCreateVhdx destFile sz
                                    defaultLCOWVhdxBlockSizeMB err)
              \/ (exists res, e = EvCopyFile destFile cacheFile true res
                               /\ cacheFile <> "" /\ sz = DefaultLCOWScratchSizeGB)
              \/ isGuestEvent e = true).
    { intros e Hin.
      destruct Hc as [(_ & Hev & _) | [(e0 & Hev & _)
                     | (g & dl & c & l & err & w' & _ & Hdl & Hev & _)]];
        cbv zeta in Hev; rewrite Hev in Hin.
      - left. apply Hfile, Hin.
      - apply in_app_or in Hin as [Hin|[<-|[]]]; [left; apply Hfile, Hin|].
        right; left. eauto.
      - apply in_app_or in Hin as [Hin|Hin]; [left; apply Hfile, Hin|].
        destruct Hin as [<-|Hin]; [right; left; eauto|].
        apply in_app_or in Hin as [Hin|Hin].
        { right; right; right. rewrite forallb_forall in Hdl.
          unfold isGuestEvent. rewrite (Hdl e Hin). apply orb_true_r. }
        destruct Hin as [<-|Hin]; [right; right; right; reflexivity|].
        destruct (isProcessEvent e || isDetach e) eqn:Hg.
        + right; right; right. unfold isGuestEvent.
          destruct (isProcessEvent e), (isDetach e), (isAttach e);
            reflexivity || discriminate Hg.
        + destruct (validateAndLocate_host_calls _ _ _ _ _ _ _ _ Hin Hg)
            as (Hel & res & -> & _).
          apply cacheEligible_spec in Hel. right; right; left. eauto. }
    split; [|split; [|split]].
    + intros path s b e Hin.
      destruct (Hall _ Hin) as [(? & Heq & _) | [(? & Heq)
                               | [(? & Heq & _) | Heq]]];
        try discriminate Heq. injection Heq as _ -> _ _. reflexivity.
    + intros name e Hin.
      destruct (Hall _ Hin) as [(? & Heq & ?) | [(? & Heq)
                               | [(? & Heq & _) | Heq]]];
        try discriminate Heq. injection Heq as -> _. tauto.
    + intros src dst flag e Hin.
      destruct (Hall _ Hin) as [(? & Heq & _) | [(? & Heq)
                               | [(? & Heq & ?) | Heq]]];
        try discriminate Heq. assumption.
    + intros Hne Hsz.
      assert (Hel : cacheEligible sz cacheFile = true)
        by (apply cacheEligible_spec; tauto).
      unfold r, CreateLCOWScratch. fold sz. rewrite Hel.
      unfold_calls. red_run.
      destruct (os_Stat H cacheFile w) as [[e|] w1].
      * destruct (createWithUVM H dts trim uvm destFile sz cacheFile w1)
          as [[? ?] ?]. eexists; reflexivity.
      * destruct (CopyFile H cacheFile destFile false w1) as [[?|] ?];
          eexists; reflexivity.
Qed.

(** C5, as the code has it. When a cache file is named, the effective
    size is the default and the file is there, the run makes the one copy
    of the cache file onto the destination, its flag unset, and no
    other call: nothing on the guest. It succeeds when the copy does, and
    otherwise returns the error of the copy. *)
Theorem CreateLCOWScratch_cache_hit
    uvm destFile sizeGB cacheFile w w1 res w2 :
  cacheFile <> "" ->
  effectiveSizeGB sizeGB = DefaultLCOWScratchSizeGB ->
  os_Stat H cacheFile w = (None, w1) ->
  CopyFile H cacheFile destFile false w1 = (res, w2) ->
  let r := CreateLCOWScratch H dts trim uvm destFile sizeGB cacheFile w in
  events r = [EvStat cacheFile None; EvCopyFile cacheFile destFile false res]
  /\ final r = w2
  /\ result r =
     match res with
     | Some e => Some (Errorf "failed to copy cached file '%s' to '%s': %s"
                              [FStr cacheFile; FStr destFile; FStr e])
     | None => None
     end
  /\ forallb (fun e => negb (isGuestEvent e)) (events r) = true
  /\ (res = None <-> result r = None).
Proof.
  intros Hne Hsz Hstat Hcopy r.
  assert (Hel : cacheEligible (effectiveSizeGB sizeGB) cacheFile = true)
    by (apply cacheEligible_spec; tauto).
  unfold r, CreateLCOWScratch. rewrite Hel. unfold_calls. red_run.
  rewrite Hstat. red_run. rewrite Hcopy.
  destruct res; cbn; repeat split; congruence.
Qed.

(** C6, as the code has it. [sameFile] says which paths name the same
    file; it may be any relation (equal text, or the resolution of
    relative paths, letter case and links by the host). When the
    destination and the cache path do not name the same file, the only
    call of a run that writes a path that names the cache file is the copy
    of the destination onto the cache path, with the flag set, and it is
    made only when a cache file is named and the effective size is the
    default; when that copy fails, the run fails with its error. *)
Theorem CreateLCOWScratch_cache_writes (sameFile : string -> string -> Prop)
    uvm destFile sizeGB cacheFile w :
  ~ sameFile destFile cacheFile ->
  let r := CreateLCOWScratch H dts trim uvm destFile sizeGB cacheFile w in
  (forall e path, In e (events r) -> written e = Some path ->
     sameFile path cacheFile ->
     (cacheFile <> "" /\ effectiveSizeGB sizeGB = DefaultLCOWScratchSizeGB)
     /\ exists res, e = EvCopyFile destFile cacheFile true res)
  /\ (forall err, In (EvCopyFile destFile cacheFile true (Some err)) (events r) ->
        result r = Some (Errorf "failed to seed cache '%s' from '%s': %s"
                                [FStr destFile; FStr cacheFile; FStr err])).
Proof.
  intros Hne r.
  assert (Hseed : forall e, In e (events r) ->
            (exists path, written e = Some path /\ sameFile path cacheFile)
            \/ (exists err, e = EvCopyFile destFile cacheFile true err) ->
            cacheEligible (effectiveSizeGB sizeGB) cacheFile = true
            /\ exists res, e = EvCopyFile destFile cacheFile true res
                 /\ (forall err, res = Some err ->
                       result r = Some (Errorf "failed to seed cache '%s' from '%s': %s"
                                          [FStr destFile; FStr cacheFile; FStr err]))).
  { assert (Hdest : forall e, written e = Some destFile ->
              (exists path, written e = Some path /\ sameFile path cacheFile) ->
              False).
    { intros e Hd (path & Hw & Hs). rewrite Hd in Hw.
      injection Hw as <-. exact (Hne Hs). }
    intros e Hin Hw.
    destruct (CreateLCOWScratch_cases uvm destFile sizeGB cacheFile w)
      as [(Hel & res & Hev & _) | (pre & Hpre & Hc)];
      fold r in Hev || fold r in Hc.
    - exfalso. rewrite Hev in Hin.
      destruct Hin as [<-|[<-|[]]]; destruct Hw as [Hw|(? & Hw)];
        try discriminate Hw.
      + destruct Hw as (? & Hw & _). discriminate Hw.
      + (eapply Hdest; [|exact Hw]; reflexivity).
    - assert (Hp : ~ In e pre).
      { destruct Hpre as [->|(_ & e0 & ->)]; [tauto|].
        intros [<-|[]]. destruct Hw as [(? & Hw & _)|(? & Hw)]; discriminate Hw. }
      destruct Hc as [(_ & Hev & _) | [(e0 & Hev & _)
                     | (g & dl & c & l & err & w' & _ & Hdl & Hev & Hres)]];
        cbv zeta in Hev; rewrite Hev in Hin.
      + contradiction.
      + exfalso. apply in_app_or in Hin as [Hin|[<-|[]]]; [tauto|].
        destruct Hw as [Hw|(? & Hw)]; [|discriminate Hw].
        (eapply Hdest; [|exact Hw]; reflexivity).
      + apply in_app_or in Hin as [Hin|Hin]; [tauto|].
        destruct Hin as [<-|Hin].
        { exfalso. destruct Hw as [Hw|(? & Hw)]; [|discriminate Hw].
          (eapply Hdest; [|exact Hw]; reflexivity). }
        apply in_app_or in Hin as [Hin|Hin].
        { exfalso. pose proof (process_not_written _ _ Hdl Hin) as Hn.
          rewrite forallb_forall in Hdl. specialize (Hdl e Hin).
          destruct Hw as [(? & Hw & _)|(? & ->)]; [congruence|discriminate Hdl]. }
        destruct Hin as [<-|Hin].
        { exfalso. destruct Hw as [Hw|(? & Hw)]; [|discriminate Hw].
          (eapply Hdest; [|exact Hw]; reflexivity). }
        cbv zeta in Hres. rewrite Hres.
        apply (validateAndLocate_host_calls _ _ _ _ _ _ _ _ Hin).
        destruct Hw as [(? & Hw & _)|(? & ->)]; [|reflexivity].
        destruct e; cbn in Hw |- *; congruence. }
  split.
  - intros e path Hin Hw Hs.
    destruct (Hseed e Hin (or_introl (ex_intro _ path (conj Hw Hs))))
      as (Hel & res & -> & _).
    apply cacheEligible_spec in Hel. split; [exact Hel|]. eauto.
  - intros err Hin.
    destruct (Hseed _ Hin (or_intror (ex_intro _ _ eq_refl)))
      as (_ & res & Heq & Hres).
    injection Heq as <-. apply Hres. reflexivity.
Qed.

End ScratchProofs.

(** ** TarToVhd *)

Section TarProofs.

Context {W : Type} (H : Host W).

(** C9. Without a utility VM, [TarToVhd] fails with the no-utility-VM
    error (and calls nothing); with one, when the extraction command
    starts, it returns the count of bytes written out, and no error; when
    the command does not start, it returns that failure as its error. *)
Theorem TarToVhd_result targetVHDFile reader :
  (forall w,
     TarToVhd H None targetVHDFile reader w =
     ((0%Z, Some (Errorf "cannot Tar2Vhd as no utility VM supplied" [])), w, []))
  /\ (forall uvm w outFile w1 tar2vhd byteCounts w2,
        os_Create H targetVHDFile w = (inl outFile, w1) ->
        container_CreateProcessEx H uvm (tar2vhdRequest reader outFile) w1 =
          (Started tar2vhd byteCounts, w2) ->
        result (TarToVhd H (Some uvm) targetVHDFile reader w) =
          (Out byteCounts, None))
  /\ (forall uvm w outFile w1 err w2,
        os_Create H targetVHDFile w = (inl outFile, w1) ->
        container_CreateProcessEx H uvm (tar2vhdRequest reader outFile) w1 =
          (StartFailed err, w2) ->
        result (TarToVhd H (Some uvm) targetVHDFile reader w) =
          (0%Z, Some (Errorf "failed to start tar2vhd for %s: %s"
                             [FStr targetVHDFile; FStr err]))).
Proof.
  split; [reflexivity|]. split.
  - intros uvm w outFile w1 p bc w2 Hc Hs.
    unfold TarToVhd; unfold_calls. red_run. rewrite Hc. red_run.
    unfold tar2vhdRequest in Hs. rewrite Hs. red_run.
    destruct (process_Close H p w2) as [? w3].
    destruct (file_Close H outFile w3) as [? w4].
    destruct (DebugLCOWGCS H uvm w4) as [[? ?] ?]. reflexivity.
  - intros uvm w outFile w1 err w2 Hc Hs.
    unfold TarToVhd; unfold_calls. red_run. rewrite Hc. red_run.
    unfold tar2vhdRequest in Hs. rewrite Hs. red_run.
    destruct (file_Close H outFile w2) as [? w3].
    destruct (DebugLCOWGCS H uvm w3) as [[? ?] ?]. reflexivity.
Qed.

(** With a utility VM, the first call is the creation of the file. *)
Lemma TarToVhd_creates_first uvm targetVHDFile reader w :
  exists res,
    hd_error (events (TarToVhd H (Some uvm) targetVHDFile reader w))
    = Some (EvCreate targetVHDFile res).
Proof.
  remember (TarToVhd H (Some uvm) targetVHDFile reader w) as r eqn:Hr.
  symmetry in Hr; revert Hr.
  unfold TarToVhd; unfold_calls; exec; intros Hr; subst r;
    eexists; reflexivity.
Qed.

(** C10. The destination file is created (or truncated) first, the
    extraction command is started after it; when the command does not
    start, [TarToVhd] returns 0 and an error, and what it still does is
    close the file and collect diagnostics: of the calls on the host's
    files there are the creation and the close, the file stays. *)
Theorem TarToVhd_start_failure_leaves_file
    uvm targetVHDFile reader w outFile w1 err w2 :
  os_Create H targetVHDFile w = (inl outFile, w1) ->
  container_CreateProcessEx H uvm (tar2vhdRequest reader outFile) w1 =
    (StartFailed err, w2) ->
  let r := TarToVhd H (Some uvm) targetVHDFile reader w in
  result r = (0%Z, Some (Errorf "failed to start tar2vhd for %s: %s"
                                [FStr targetVHDFile; FStr err]))
  /\ exists closed dl,
      events r = EvCreate targetVHDFile (inl outFile)
                 :: EvCreateProcessEx uvm (tar2vhdRequest reader outFile)
                      (StartFailed err)
                 :: EvFileClose outFile closed :: dl
      /\ forallb isProcessEvent dl = true
      /\ List.filter isFileEvent (events r) =
         [EvCreate targetVHDFile (inl outFile); EvFileClose outFile closed]
      /\ written (EvCreate targetVHDFile (inl outFile)) = Some targetVHDFile.
Proof.
  intros Hc Hs r. subst r.
  unfold TarToVhd; unfold_calls. red_run. rewrite Hc. red_run.
  unfold tar2vhdRequest in Hs |- *. rewrite Hs. red_run.
  destruct (file_Close H outFile w2) as [closed w3].
  pose proof (DebugLCOWGCS_process_events H uvm w3) as Hd.
  destruct (DebugLCOWGCS H uvm w3) as [[u w4] dl].
  cbn [events snd] in Hd.
  split; [reflexivity|]. exists closed, dl.
  cbn [events result fst snd app]. rewrite app_nil_r.
  split; [reflexivity|]. split; [exact Hd|]. split; [|reflexivity].
  cbn [List.filter isFileEvent]. do 2 f_equal.
  clear - Hd. induction dl as [|e t IH]; [reflexivity|].
  cbn [forallb] in Hd. apply andb_prop in Hd as [He Ht].
  cbn [List.filter]. destruct e; cbn in He |- *; try discriminate He;
    apply IH, Ht.
Qed.

End TarProofs.

(** ** The translation of the mounts *)



(** ** createLCOWv1 and the caller's memory *)

Lemma allocMounts_fresh h ms :
  base (fst (allocMounts h ms)) ∉ dom (mountArrays h).
Proof. unfold allocMounts. cbn [fst base]. apply is_fresh. Qed.

Lemma allocMounts_kept h ms : arraysKept h (snd (allocMounts h ms)).
Proof.
  unfold allocMounts, arraysKept. cbn [snd stringArrays mountArrays].
  split; [tauto|]. intros l a Hl.
  rewrite lookup_insert_ne; [exact Hl|].
  intros <-. apply (is_fresh (dom (mountArrays h))).
  apply elem_of_dom. eauto.
Qed.

Lemma allocMounts_read h ms :
  readMounts (snd (allocMounts h ms)) (fst (allocMounts h ms)) = ms.
Proof.
  unfold allocMounts, readMounts, window.
  cbn [fst snd base offset len mountArrays].
  rewrite lookup_insert_eq. cbn [drop]. apply firstn_all.
Qed.

Lemma arraysKept_refl h : arraysKept h h.
Proof. split; tauto. Qed.

Lemma bind_peek {W A B} (f : W -> A) (k : A -> M W B) w :
  bind (peek f) k w = k (f w) w.
Proof. unfold bind, peek. destruct (k (f w) w) as [[b w2] l]. reflexivity. Qed.

Section V1Proofs.

Context {W : Type} (H : Host W).
Variable filepath_Split : string -> string * string.
Variable filepath_Join : string -> string -> string.
Variable path_Join : string -> string -> string.

(** The loop over the layers calls [NameToGuid] and nothing else, and
    leaves the memory alone. *)
Lemma layersLoop_memory layerFolders layers (s : St) :
  let r := layersLoop H filepath_Split filepath_Join layerFolders layers s in
  fst (final r) = fst s /\ forallb isNameToGuid (events r) = true.
Proof.
  revert layers s.
  induction layerFolders as [|layerPath rest IH]; intros layers s.
  - split; reflexivity.
  - cbn [layersLoop]. unfold callW. red_run.
    destruct (NameToGuid H (snd (filepath_Split layerPath)) (snd s))
      as [[g|err] w1].
    + specialize (IH (layers ++ [mkLayer g (filepath_Join layerPath "layer.vhd")])
                     (fst s, w1)).
      cbv zeta in IH.
      destruct (layersLoop H filepath_Split filepath_Join rest
                  (layers ++ [mkLayer g (filepath_Join layerPath "layer.vhd")])
                  (fst s, w1)) as [[res s'] l].
      cbn [final events fst snd app forallb isNameToGuid andb] in IH |- *.
      exact IH.
    + split; reflexivity.
Qed.

(** From the mounts on. *)
Lemma mountsAndCreate_cases co layerFolderPath layers (s : St) :
  co = createOptions (fst s) ->
  v1Ends path_Join (fst s) []
    (mountsAndCreate H path_Join co layerFolderPath layers s).
Proof.
  intros ->. unfold v1Ends, mountsAndCreate, callW, storeSpecMounts.
  rewrite bind_peek.
  destruct (translateMounts path_Join (heap (fst s))
              (readMounts (heap (fst s)) (Mounts (spec (createOptions (fst s)))))
              [] [])
    as [[e|[mds specMounts]]|msg] eqn:Ht.
  - left. cbn. split; [reflexivity|]. split; [discriminate|]. left; reflexivity.
  - red_run.
    destruct (CreateContainer H (id (createOptions (fst s)))
                (configurationOf (createOptions (fst s)) layerFolderPath layers mds)
                (snd s))
      as [[c|e] w1].
    + right.
      exists c, (configurationOf (createOptions (fst s)) layerFolderPath layers mds),
             mds, specMounts.
      cbv zeta. split; [reflexivity|]. cbn [fst snd].
      destruct (allocMounts (heap (fst s)) specMounts) as [sl h'].
      cbn. repeat split.
    + left. cbn. split; [reflexivity|]. split; [discriminate|].
      right. eauto.
  - left. cbn. split; [reflexivity|]. split; [discriminate|]. left; reflexivity.
Qed.

(** A whole run: the layers, then the mounts. *)
Lemma createLCOWv1_cases (s : St) :
  exists pre,
    forallb isNameToGuid pre = true
    /\ v1Ends path_Join (fst s) pre
         (createLCOWv1 H filepath_Split filepath_Join path_Join s).
Proof.
  unfold createLCOWv1. rewrite bind_peek.
  assert (Hdirect : forall lfp layers,
            exists pre,
              forallb isNameToGuid pre = true
              /\ v1Ends path_Join (fst s) pre
                   (mountsAndCreate H path_Join (createOptions (fst s)) lfp layers s)).
  { intros lfp layers. exists []. split; [reflexivity|].
    apply mountsAndCreate_cases. reflexivity. }
  destruct (spec_Windows (spec (createOptions (fst s)))) as [w0|];
    [|apply Hdirect].
  destruct (0 <? length (LayerFolders w0))%nat; [|apply Hdirect].
  clear Hdirect. unfold bind.
  pose proof (layersLoop_memory (removelast (LayerFolders w0)) [] s) as Hl.
  cbv zeta in Hl.
  destruct (layersLoop H filepath_Split filepath_Join
              (removelast (LayerFolders w0)) [] s) as [[res s1] pre].
  cbn [final events fst snd] in Hl. destruct Hl as [Hm Hpre].
  exists pre. split; [exact Hpre|].
  destruct res as [err|layers].
  - left. cbn. rewrite app_nil_r. split; [exact Hm|].
    split; [discriminate|]. left; reflexivity.
  - assert (Hco : createOptions (fst s) = createOptions (fst s1))
      by (rewrite Hm; reflexivity).
    pose proof (mountsAndCreate_cases (createOptions (fst s))
                  (List.last (LayerFolders w0) "") layers s1 Hco) as Hc.
    rewrite Hm in Hc. unfold v1Ends in Hc |- *.
    destruct (mountsAndCreate H path_Join (createOptions (fst s))
                (List.last (LayerFolders w0) "") layers s1) as [[res s2] l].
    cbn [final events result fst snd app] in Hc |- *.
    destruct Hc as [(Hf & Hres & Hev) | (c & cfg & mds & sm & Ht & Hres & Hev & Hf)].
    + left. split; [exact Hf|]. split; [exact Hres|].
      destruct Hev as [->|(cfg & e & -> & Hr)].
      * left. apply app_nil_r.
      * right. eauto.
    + right. exists c, cfg, mds, sm. rewrite Hev. auto.
Qed.

(** An error of the translation is the error of [createLCOWv1], which
    has then called nothing since the layers and changed nothing. *)
Lemma mountsAndCreate_translation_error co layerFolderPath layers (s : St) e :
  translateMounts path_Join (heap (fst s))
    (readMounts (heap (fst s)) (Mounts (spec co))) [] [] = Returned (inl e) ->
  mountsAndCreate H path_Join co layerFolderPath layers s
  = (Returned (inr e), s, []).
Proof.
  intros Ht. unfold mountsAndCreate. rewrite bind_peek, Ht.
  destruct s; reflexivity.
Qed.

(** C8. [createLCOWv1] writes no array the caller has: the mounts it
    rewrites go to an array of its own. The store of that array into the
    caller's spec comes last, right after [CreateContainer] has returned
    the container; on every failure, that of [CreateContainer] among
    them, the caller's memory is as it was and nothing is stored. *)
Theorem createLCOWv1_mounts_frame (s : St) :
  let r := createLCOWv1 H filepath_Split filepath_Join path_Join s in
  let m := fst s in
  let m' := fst (final r) in
  arraysKept (heap m) (heap m')
  /\ ((forall c, result r <> Returned (inl c)) ->
      m' = m /\ count isStore (events r) = 0%nat)
  /\ (forall id cfg e, In (EvCreateContainer id cfg (inr e)) (events r) ->
      m' = m /\ result r = Returned (inr (Raw e)))
  /\ (forall c, result r = Returned (inl c) ->
      exists pre cfg mds specMounts sl,
        translateMounts path_Join (heap m)
          (readMounts (heap m) (Mounts (spec (createOptions m)))) [] []
        = Returned (inr (mds, specMounts))
        /\ events r = pre ++ [EvCreateContainer (id (createOptions m)) cfg (inl c);
                              EvSetSpecMounts sl]
        /\ count isStore pre = 0%nat
        /\ (base sl ∉ dom (mountArrays (heap m)))
        /\ readMounts (heap m') sl = specMounts
        /\ createOptions m' = withMounts (createOptions m) sl).
Proof.
  intros r m m'. subst m'.
  assert (Hng : forall pre, forallb isNameToGuid pre = true ->
                            count isStore pre = 0%nat
                            /\ forall id cfg res, ~ In (EvCreateContainer id cfg res) pre).
  { intros pre Hpre. split.
    - induction pre as [|e t IH]; [reflexivity|].
      cbn [forallb] in Hpre. apply andb_prop in Hpre as [He Ht].
      cbn [count]. rewrite (IH Ht). destruct e; cbn in He |- *; congruence.
    - intros id cfg res Hin. rewrite forallb_forall in Hpre.
      apply Hpre in Hin. discriminate Hin. }
  destruct (createLCOWv1_cases s)
    as (pre & Hpre & [(Hf & Hres & Hev) | (c & cfg & mds & sm & Ht & Hres & Hev & Hf)]);
    fold r m in Hf, Hres, Hev; destruct (Hng pre Hpre) as [Hst Hcc].
  - rewrite Hf. split; [apply arraysKept_refl|]. split; [|split].
    + intros _. split; [reflexivity|].
      destruct Hev as [->|(cfg & e & -> & _)]; [exact Hst|].
      rewrite count_app, Hst. reflexivity.
    + intros id cfg e Hin. split; [reflexivity|].
      destruct Hev as [Hev|(cfg' & e' & Hev & Hr)]; rewrite Hev in Hin.
      * exfalso. exact (Hcc _ _ _ Hin).
      * apply in_app_or in Hin as [Hin|[Hin|[]]]; [exfalso; exact (Hcc _ _ _ Hin)|].
        injection Hin as _ _ <-. exact Hr.
    + intros c Hc. exfalso. exact (Hres c Hc).
  - cbv zeta in Hev, Hf. rewrite Hf. cbn [heap createOptions].
    split; [apply allocMounts_kept|]. split; [|split].
    + intros Hno. exfalso. exact (Hno c Hres).
    + intros id cfg' e Hin. exfalso. rewrite Hev in Hin.
      apply in_app_or in Hin as [Hin|[Hin|[Hin|[]]]];
        [exact (Hcc _ _ _ Hin)|discriminate Hin|discriminate Hin].
    + intros c' Hc'. rewrite Hres in Hc'. injection Hc' as <-.
      exists pre, cfg, mds, sm, (fst (allocMounts (heap m) sm)).
      split; [exact Ht|]. split; [exact Hev|]. split; [exact Hst|].
      split; [apply allocMounts_fresh|]. split; [apply allocMounts_read|].
      reflexivity.
Qed.

End V1Proofs.

(** ** Runs on the scripted host *)

Lemma CreateLCOWScratch_detach_exactly_once_witness :
  In (EvAddSCSI 5%nat "d.vhdx" "" 0%Z 1%Z None)
     (events (scratch mkfsFails (Some 5%nat) "d.vhdx" 20 "c.vhdx"))
  /\ count isDetach (events (scratch mkfsFails (Some 5%nat) "d.vhdx" 20 "c.vhdx"))
     = 1%nat.
Proof.
  assert (Hin : In (EvAddSCSI 5%nat "d.vhdx" "" 0%Z 1%Z None)
                   (events (scratch mkfsFails (Some 5%nat) "d.vhdx" 20 "c.vhdx"))).
  { vm_compute. do 6 right. left. reflexivity. }
  split; [exact Hin|].
  exact (proj1 (CreateLCOWScratch_detach_exactly_once (scripted mkfsFails)
                  timeout4min noTrim (Some 5%nat) "d.vhdx" 20%N "c.vhdx" 0%nat
                  5%nat "d.vhdx" "" 0%Z 1%Z Hin)).
Defined.

(** The format command fails, its standard error is "mkfs: no such
    device": the error carries that text, and the hot-remove was made. *)
Example format_failure_detaches :
  result (scratch mkfsFails (Some 5%nat) "d.vhdx" 20 "c.vhdx")
  = Some (Errorf "`%+v` return non-zero exit code (%d) following hot-add %s to utility VM: %s"
                 [FStrs (mkfsCommand "/dev/sda"); FInt 1; FStr "d.vhdx";
                  FStr "mkfs: no such device"])
  /\ In (EvRemoveSCSI 5%nat "d.vhdx" 0%Z 1%Z None)
        (events (scratch mkfsFails (Some 5%nat) "d.vhdx" 20 "c.vhdx")).
Proof. split; [reflexivity|]. vm_compute. tauto. Qed.

(** The hot-remove fails after every step succeeded: its error is the
    error returned. *)
Example detach_failure_is_returned :
  scratch detachFails (Some 5%nat) "d.vhdx" 20 ""
  = (Some (Errorf "failed to hot-remove: %s" [FStr "device busy"]), 3%nat,
     [EvCreateVhdx "d.vhdx" 20 1 None;
      EvAddSCSI 5%nat "d.vhdx" "" 0 1 None;
      EvCreateProcessEx 5%nat
        (mkCreateProcessEx (testdCommand 0 1) true None None None)
        (Started 0%nat (mkByteCounts 0 4096 0));
      EvWaitTimeout 0%nat timeout4min None;
      EvExitCode 0%nat 0 None;
      EvCreateProcessEx 5%nat
        (mkCreateProcessEx (lsCommand 0 1) true None (Some ToBuffer) None)
        (Started 1%nat (mkByteCounts 0 4096 0));
      EvWaitTimeout 1%nat timeout4min None;
      EvExitCode 1%nat 0 None;
      EvCreateProcessEx 5%nat
        (mkCreateProcessEx (mkfsCommand "/dev/sda") true None None (Some ToBuffer))
        (Started 2%nat (mkByteCounts 0 4096 0));
      EvWaitTimeout 2%nat timeout4min None;
      EvExitCode 2%nat 0 None;
      EvRemoveSCSI 5%nat "d.vhdx" 0 1 (Some "device busy");
      EvClose 2%nat None; EvClose 1%nat None; EvClose 0%nat None]).
Proof. reflexivity. Qed.

Lemma CreateLCOWScratch_attach_error_ignored_witness :
  In (EvAddSCSI 5%nat "d.vhdx" "" (-1)%Z (-1)%Z (Some "hot-add failed"))
     (events (scratch attachFails (Some 5%nat) "d.vhdx" 20 ""))
  /\ exists res,
      hd_error (afterAttach (events (scratch attachFails (Some 5%nat) "d.vhdx" 20 "")))
      = Some (EvCreateProcessEx 5%nat
                (mkCreateProcessEx (testdCommand (-1) (-1)) true None None None)
                res).
Proof.
  assert (Hin : In (EvAddSCSI 5%nat "d.vhdx" "" (-1)%Z (-1)%Z (Some "hot-add failed"))
                   (events (scratch attachFails (Some 5%nat) "d.vhdx" 20 ""))).
  { vm_compute. right. left. reflexivity. }
  split; [exact Hin|].
  exact (proj1 (CreateLCOWScratch_attach_error_ignored (scripted attachFails)
                  timeout4min noTrim (Some 5%nat) "d.vhdx" 20%N "" 0%nat
                  5%nat "d.vhdx" "" (-1)%Z (-1)%Z "hot-add failed" Hin)).
Defined.

(** The hot-add fails and every other call succeeds: the run validates,
    looks up and formats at the address (-1, -1) that the failed hot-add
    gave, hot-removes it, and reports success. *)
Example attach_failure_run :
  scratch attachFails (Some 5%nat) "d.vhdx" 20 ""
  = (None, 3%nat,
     [EvCreateVhdx "d.vhdx" 20 1 None;
      EvAddSCSI 5%nat "d.vhdx" "" (-1) (-1) (Some "hot-add failed");
      EvCreateProcessEx 5%nat
        (mkCreateProcessEx ["test"; "-d"; "/sys/bus/scsi/devices/-1:0:0:-1"]
                           true None None None)
        (Started 0%nat (mkByteCounts 0 4096 0));
      EvWaitTimeout 0%nat timeout4min None;
      EvExitCode 0%nat 0 None;
      EvCreateProcessEx 5%nat
        (mkCreateProcessEx ["ls"; "/sys/bus/scsi/devices/-1:0:0:-1/block"]
                           true None (Some ToBuffer) None)
        (Started 1%nat (mkByteCounts 0 4096 0));
      EvWaitTimeout 1%nat timeout4min None;
      EvExitCode 1%nat 0 None;
      EvCreateProcessEx 5%nat
        (mkCreateProcessEx (mkfsCommand "/dev/sda") true None None (Some ToBuffer))
        (Started 2%nat (mkByteCounts 0 4096 0));
      EvWaitTimeout 2%nat timeout4min None;
      EvExitCode 2%nat 0 None;
      EvRemoveSCSI 5%nat "d.vhdx" (-1) (-1) None;
      EvClose 2%nat None; EvClose 1%nat None; EvClose 0%nat None]).
Proof. reflexivity. Qed.

(** C3, as the specification states it, fails at the format command of a run:
    of the four features, sparse_super and uninit_bg are not cleared. *)
Lemma format_features_counterexample :
  In (EvCreateProcessEx 5%nat
        (mkCreateProcessEx (mkfsCommand "/dev/sda") true None None (Some ToBuffer))
        (Started 2%nat (mkByteCounts 0 4096 0)))
     (afterAttach (events (scratch allGood (Some 5%nat) "d.vhdx" 20 "")))
  /\ hd "" (mkfsCommand "/dev/sda") = "mkfs.ext4"
  /\ featureCleared "uninit_bg" (mkfsCommand "/dev/sda") = false
  /\ featureCleared "sparse_super" (mkfsCommand "/dev/sda") = false
  /\ allFourCleared (mkfsCommand "/dev/sda") = false.
Proof.
  split; [vm_compute; do 6 right; left; reflexivity|].
  repeat split; reflexivity.
Qed.

Lemma CreateLCOWScratch_format_command_witness :
  In (EvCreateProcessEx 5%nat
        (mkCreateProcessEx (mkfsCommand "/dev/sda") true None None (Some ToBuffer))
        (Started 2%nat (mkByteCounts 0 4096 0)))
     (afterAttach (events (scratch allGood (Some 5%nat) "d.vhdx" 20 "")))
  /\ hd "" (mkfsCommand "/dev/sda") = "mkfs.ext4"
  /\ exists device, mkfsCommand "/dev/sda" = mkfsCommand device.
Proof.
  assert (Hin : In (EvCreateProcessEx 5%nat
                      (mkCreateProcessEx (mkfsCommand "/dev/sda") true None None
                                         (Some ToBuffer))
                      (Started 2%nat (mkByteCounts 0 4096 0)))
                   (afterAttach (events (scratch allGood (Some 5%nat) "d.vhdx" 20 "")))).
  { vm_compute. do 6 right. left. reflexivity. }
  split; [exact Hin|]. split; [reflexivity|].
  exact (proj1 (CreateLCOWScratch_format_command (scripted allGood) timeout4min
                  noTrim (Some 5%nat) "d.vhdx" 20%N "" 0%nat 5%nat _ _ Hin eq_refl)).
Defined.

Lemma CreateLCOWScratch_effective_size_witness :
  (10 < DefaultLCOWScratchSizeGB)%N /\ effectiveSizeGB 10 = 20%N.
Proof.
  assert (Hlt : (10 < DefaultLCOWScratchSizeGB)%N) by reflexivity.
  split; [exact Hlt|].
  exact (proj1 (CreateLCOWScratch_effective_size (scripted allGood) timeout4min
                  noTrim (Some 5%nat) "d.vhdx" 10%N "" 0%nat) Hlt).
Defined.

(** Requested 10 GB: the image is created with 20 GB. *)
Example ten_becomes_twenty :
  hd_error (events (scratch allGood (Some 5%nat) "d.vhdx" 10 ""))
  = Some (EvCreateVhdx "d.vhdx" 20 1 None).
Proof. reflexivity. Qed.

(** C5, as the specification states it, fails where the copy from the cache
    fails: a cache file is named, the size is the default, the file is
    there, and the run does not succeed. *)
Lemma cache_hit_copy_failure_counterexample :
  "c.vhdx" <> ""
  /\ effectiveSizeGB 20 = DefaultLCOWScratchSizeGB
  /\ fst (os_Stat (scripted cachedCopyFails) "c.vhdx" 0%nat) = None
  /\ result (scratch cachedCopyFails (Some 5%nat) "d.vhdx" 20 "c.vhdx") <> None.
Proof. repeat split; discriminate. Qed.

Lemma CreateLCOWScratch_cache_hit_witness :
  ("c.vhdx" <> ""
   /\ effectiveSizeGB 20 = DefaultLCOWScratchSizeGB
   /\ os_Stat (scripted cacheHit) "c.vhdx" 0%nat = (None, 0%nat)
   /\ CopyFile (scripted cacheHit) "c.vhdx" "d.vhdx" false 0%nat = (None, 0%nat))
  /\ events (scratch cacheHit None "d.vhdx" 20 "c.vhdx")
     = [EvStat "c.vhdx" None; EvCopyFile "c.vhdx" "d.vhdx" false None].
Proof.
  assert (Hne : "c.vhdx" <> "") by discriminate.
  split; [repeat split; exact Hne|].
  exact (proj1 (CreateLCOWScratch_cache_hit (scripted cacheHit) timeout4min noTrim
                  None "d.vhdx" 20%N "c.vhdx" 0%nat 0%nat None 0%nat
                  Hne eq_refl eq_refl eq_refl)).
Defined.

(** C6, as the specification states it, fails where the destination is the cache
    file: the size is not the default, and the run creates its image on
    the cache file. *)
Lemma cache_written_counterexample :
  effectiveSizeGB 30 <> DefaultLCOWScratchSizeGB
  /\ In (EvCreateVhdx "c.vhdx" 30 1 None)
        (events (scratch allGood (Some 5%nat) "c.vhdx" 30 "c.vhdx"))
  /\ written (EvCreateVhdx "c.vhdx" 30 1 None) = Some "c.vhdx".
Proof.
  split; [discriminate|]. split; [vm_compute; left; reflexivity|reflexivity].
Qed.

Lemma CreateLCOWScratch_cache_writes_witness :
  ~ sameLocalFile "d.vhdx" "c.vhdx"
  /\ forall e path,
       In e (events (scratch allGood (Some 5%nat) "d.vhdx" 30 "c.vhdx")) ->
       written e = Some path ->
       sameLocalFile path "c.vhdx" ->
       ("c.vhdx" <> "" /\ effectiveSizeGB 30 = DefaultLCOWScratchSizeGB)
       /\ exists res, e = EvCopyFile "d.vhdx" "c.vhdx" true res.
Proof.
  assert (Hne : ~ sameLocalFile "d.vhdx" "c.vhdx") by (vm_compute; discriminate).
  split; [exact Hne|].
  exact (proj1 (CreateLCOWScratch_cache_writes (scripted allGood) timeout4min
                  noTrim sameLocalFile (Some 5%nat) "d.vhdx" 30%N "c.vhdx"
                  0%nat Hne)).
Defined.

(** Two spellings of one file: with the destination [./c.vhdx] and the
    cache [c.vhdx] the texts differ, and the run creates the image on the
    cache file and hot-adds it. *)
Example respelled_cache_is_written :
  "./c.vhdx" <> "c.vhdx"
  /\ sameLocalFile "./c.vhdx" "c.vhdx"
  /\ In (EvCreateVhdx "./c.vhdx" 30 1 None)
        (events (scratch allGood (Some 5%nat) "./c.vhdx" 30 "c.vhdx"))
  /\ In (EvAddSCSI 5%nat "./c.vhdx" "" 0 1 None)
        (events (scratch allGood (Some 5%nat) "./c.vhdx" 30 "c.vhdx")).
Proof.
  split; [discriminate|]. split; [reflexivity|].
  split; vm_compute; tauto.
Qed.

(** A default-size run with a cache file named seeds the cache last. *)
Example default_size_seeds_cache :
  In (EvCopyFile "d.vhdx" "c.vhdx" true None)
     (events (scratch allGood (Some 5%nat) "d.vhdx" 20 "c.vhdx")).
Proof. vm_compute. tauto. Qed.

(** ** Runs of the translation and of createLCOWv1 *)



(** The bare word [uvmpath], without [=], makes the scan panic. *)
Example bare_uvmpath_panics :
  translateMounts joinSlash exampleHeap [bareMount] [] []
  = Panicked "runtime error: index out of range".
Proof. reflexivity. Qed.

(** The mounts of the spec keep their options, [uvmpath] among them:
    the stripped list is that of the loop's own copy. *)
Example translated_mounts :
  translateMounts joinSlash exampleHeap [bindMount; tmpfsMount] [] []
  = Returned (inr ([mkMappedDir "C:/host/data" "/tmp/gcs/c1/binds//target" true true],
                   [mkMount "/target" "bind" "/tmp/gcs/c1/binds//target"
                            (mkSlice 1%positive 0 2);
                    tmpfsMount])).
Proof. reflexivity. Qed.

(** [CreateContainer] fails: the caller's memory is as it was. *)
Example container_failure_keeps_mounts :
  result (createV1 containerFails exampleMemory)
  = Returned (inr (Raw "hcs: create failed"))
  /\ fst (final (createV1 containerFails exampleMemory)) = exampleMemory.
Proof. split; reflexivity. Qed.

Lemma createLCOWv1_mounts_frame_witness :
  (forall c, result (createV1 containerFails exampleMemory) <> Returned (inl c))
  /\ fst (final (createV1 containerFails exampleMemory)) = exampleMemory.
Proof.
  assert (Hno : forall c, result (createV1 containerFails exampleMemory)
                          <> Returned (inl c)) by (intros c; discriminate).
  split; [exact Hno|].
  exact (proj1 (proj1 (proj2 (createLCOWv1_mounts_frame (scripted containerFails)
                                splitNone joinSlash joinSlash
                                (exampleMemory, 0%nat))) Hno)).
Defined.

Lemma TarToVhd_result_witness :
  (os_Create (scripted allGood) "t.vhd" 0%nat = (inl 7%nat, 0%nat)
   /\ container_CreateProcessEx (scripted allGood) 5%nat
        (tar2vhdRequest 9%nat 7%nat) 0%nat
      = (Started 0%nat (mkByteCounts 0 4096 0), 1%nat))
  /\ result (tar allGood (Some 5%nat) "t.vhd" 9%nat) = (4096%Z, None).
Proof.
  split; [split; reflexivity|].
  exact (proj1 (proj2 (TarToVhd_result (scripted allGood) "t.vhd" 9%nat))
           5%nat 0%nat 7%nat 0%nat 0%nat (mkByteCounts 0 4096 0) 1%nat
           eq_refl eq_refl).
Defined.

Lemma TarToVhd_start_failure_leaves_file_witness :
  (os_Create (scripted tar2vhdFails) "t.vhd" 0%nat = (inl 7%nat, 0%nat)
   /\ container_CreateProcessEx (scripted tar2vhdFails) 5%nat
        (tar2vhdRequest 9%nat 7%nat) 0%nat
      = (StartFailed "no such command", 1%nat))
  /\ result (tar tar2vhdFails (Some 5%nat) "t.vhd" 9%nat)
     = (0%Z, Some (Errorf "failed to start tar2vhd for %s: %s"
                          [FStr "t.vhd"; FStr "no such command"])).
Proof.
  split; [split; reflexivity|].
  exact (proj1 (TarToVhd_start_failure_leaves_file (scripted tar2vhdFails)
                  5%nat "t.vhd" 9%nat 0%nat 7%nat 0%nat "no such command" 1%nat
                  eq_refl eq_refl)).
Defined.

(** The extraction command does not start: the file was created, it is
    closed, and nothing else is done with it. *)
Example tar2vhd_failure_run :
  tar tar2vhdFails (Some 5%nat) "t.vhd" 9%nat
  = ((0%Z, Some (Errorf "failed to start tar2vhd for %s: %s"
                        [FStr "t.vhd"; FStr "no such command"])), 1%nat,
     [EvCreate "t.vhd" (inl 7%nat);
      EvCreateProcessEx 5%nat (tar2vhdRequest 9%nat 7%nat)
        (StartFailed "no such command");
      EvFileClose 7%nat None]).
Proof. reflexivity. Qed.

(** * More of the code *)

(** ** CreateLCOWScratch: the steps after the hot-add *)

Ltac zero_codes :=
  repeat match goal with
         | Hb : negb (?z =? 0)%Z = false |- _ =>
             apply negb_false_iff, Z.eqb_eq in Hb; subst z
         end.

Ltac eval_failed :=
  cbn [existsb callFailed stepFailed];
  repeat match goal with
         | Hb : negb _ = _ |- _ => rewrite Hb
         end;
  cbn [orb].

Ltac split_in Hin :=
  cbn [In events snd] in Hin;
  repeat match type of Hin with
         | _ \/ _ => destruct Hin as [Hin|Hin]; [try discriminate Hin|]
         | False => contradiction
         end.

Section ScratchSteps.

Context {W : Type} (H : Host W) (dts : Z) (trim : string -> string).

Lemma validateAndLocate_success uvm destFile sizeGB cacheFile controller lun w :
  let r := validateAndLocate H dts trim uvm destFile sizeGB cacheFile
             controller lun w in
  result r = None ->
  exists p1 bc1 t1 p2 bc2 t2 w2 p3 bc3 t3 c3 c2 c1,
    events r =
    [EvCreateProcessEx uvm
       (mkCreateProcessEx (testdCommand controller lun) true None None None)
       (Started p1 bc1);
     EvWaitTimeout p1 dts t1;
     EvExitCode p1 0 None;
     EvCreateProcessEx uvm
       (mkCreateProcessEx (lsCommand controller lun) true None (Some ToBuffer) None)
       (Started p2 bc2);
     EvWaitTimeout p2 dts t2;
     EvExitCode p2 0 None;
     EvCreateProcessEx uvm
       (mkCreateProcessEx
          (mkfsCommand ("/dev/" +:+ trim (buffer_String H p2 StdoutStream w2)))
          true None None (Some ToBuffer))
       (Started p3 bc3);
     EvWaitTimeout p3 dts t3;
     EvExitCode p3 0 None;
     EvRemoveSCSI uvm destFile controller lun None]
    ++ (if cacheEligible sizeGB cacheFile
        then [EvCopyFile destFile cacheFile true None] else [])
    ++ [EvClose p3 c3; EvClose p2 c2; EvClose p1 c1].
Proof.
  intros r; subst r.
  paths_of (validateAndLocate H dts trim uvm destFile sizeGB cacheFile
              controller lun w)
           ltac:(unfold validateAndLocate, locateAndFormat, formatAndRelease).
  all: intros Hres; try discriminate Hres.
  all: zero_codes; repeat eexists.
Qed.

Lemma validateAndLocate_success_run uvm destFile sizeGB cacheFile controller lun w :
  let r := validateAndLocate H dts trim uvm destFile sizeGB cacheFile
             controller lun w in
  result r = None ->
  exists p1 bc1 t1 w1 p2 bc2 t2 w2 p3 bc3 t3 w3 w4 c3 c2 c1,
    let testd :=
      mkCreateProcessEx (testdCommand controller lun) true None None None in
    let ls :=
      mkCreateProcessEx (lsCommand controller lun) true None (Some ToBuffer) None in
    let mkfs :=
      mkCreateProcessEx
        (mkfsCommand ("/dev/" +:+ trim (buffer_String H p2 StdoutStream w2)))
        true None None (Some ToBuffer) in
    stepRan H uvm dts testd w p1 bc1 t1 0 w1
    /\ stepRan H uvm dts ls w1 p2 bc2 t2 0 w2
    /\ stepRan H uvm dts mkfs w2 p3 bc3 t3 0 w3
    /\ removeSCSI H uvm destFile controller lun w3 = (None, w4)
    /\ events r =
       [EvCreateProcessEx uvm testd (Started p1 bc1);
        EvWaitTimeout p1 dts t1;
        EvExitCode p1 0 None;
        EvCreateProcessEx uvm ls (Started p2 bc2);
        EvWaitTimeout p2 dts t2;
        EvExitCode p2 0 None;
        EvCreateProcessEx uvm mkfs (Started p3 bc3);
        EvWaitTimeout p3 dts t3;
        EvExitCode p3 0 None;
        EvRemoveSCSI uvm destFile controller lun None]
       ++ (if cacheEligible sizeGB cacheFile
           then [EvCopyFile destFile cacheFile true None] else [])
       ++ [EvClose p3 c3; EvClose p2 c2; EvClose p1 c1].
Proof.
  intros r; subst r.
  paths_of (validateAndLocate H dts trim uvm destFile sizeGB cacheFile
              controller lun w)
           ltac:(unfold validateAndLocate, locateAndFormat, formatAndRelease).
  all: intros Hres; try discriminate Hres.
  all: zero_codes; unfold stepRan; cbv zeta.
  all: match goal with
       | S1 : container_CreateProcessEx _ _ _ _ = (Started ?p1 ?bc1, _),
         W1 : process_WaitTimeout _ ?p1 _ _ = (?t1, _),
         E1 : process_ExitCode _ ?p1 _ = (_, ?w1),
         S2 : container_CreateProcessEx _ _ _ ?w1 = (Started ?p2 ?bc2, _),
         W2 : process_WaitTimeout _ ?p2 _ _ = (?t2, _),
         E2 : process_ExitCode _ ?p2 _ = (_, ?w2),
         S3 : container_CreateProcessEx _ _ _ ?w2 = (Started ?p3 ?bc3, _),
         W3 : process_WaitTimeout _ ?p3 _ _ = (?t3, _),
         E3 : process_ExitCode _ ?p3 _ = (_, ?w3),
         D : removeSCSI _ _ _ _ _ ?w3 = (None, ?w4),
         C3 : process_Close _ ?p3 _ = (?c3, _),
         C2 : process_Close _ ?p2 _ = (?c2, _),
         C1 : process_Close _ ?p1 _ = (?c1, _) |- _ =>
           exists p1, bc1, t1, w1, p2, bc2, t2, w2, p3, bc3, t3, w3, w4, c3, c2, c1;
           split; [exact (ex_intro _ _ (ex_intro _ _ (conj S1 (conj W1 E1))))|];
           split; [exact (ex_intro _ _ (ex_intro _ _ (conj S2 (conj W2 E2))))|];
           split; [exact (ex_intro _ _ (ex_intro _ _ (conj S3 (conj W3 E3))))|];
           split; [exact D|]; reflexivity
       end.
Qed.

Lemma validateAndLocate_result_iff uvm destFile sizeGB cacheFile controller lun w :
  let r := validateAndLocate H dts trim uvm destFile sizeGB cacheFile
             controller lun w in
  result r = None <-> existsb callFailed (events r) = false.
Proof.
  intros r; subst r.
  paths_of (validateAndLocate H dts trim uvm destFile sizeGB cacheFile
              controller lun w)
           ltac:(unfold validateAndLocate, locateAndFormat, formatAndRelease).
  all: eval_failed; split; intros Hx; first [discriminate Hx | reflexivity].
Qed.

Lemma validateAndLocate_guest uvm destFile sizeGB cacheFile controller lun w
    g req res :
  let r := validateAndLocate H dts trim uvm destFile sizeGB cacheFile
             controller lun w in
  In (EvCreateProcessEx g req res) (events r) ->
  g = uvm /\ CreateInUtilityVm req = true /\ Stdin req = None.
Proof.
  intros r; subst r.
  paths_of (validateAndLocate H dts trim uvm destFile sizeGB cacheFile
              controller lun w)
           ltac:(unfold validateAndLocate, locateAndFormat, formatAndRelease).
  all: intros Hin; split_in Hin.
  all: injection Hin as <- <- <-; repeat split.
Qed.

Ltac which_command :=
  first [ left; split; [first [reflexivity | left; reflexivity | right; reflexivity]
                       |reflexivity]
        | right; split; [first [left; reflexivity | right; eexists; reflexivity]
                        |reflexivity] ].

Ltac eval_failedExit :=
  cbn [failedExit stepFailed negb Z.eqb Args];
  repeat match goal with
         | Hb : negb _ = true |- _ => rewrite Hb
         end;
  reflexivity.

Lemma validateAndLocate_failures uvm destFile sizeGB cacheFile controller lun w :
  let r := validateAndLocate H dts trim uvm destFile sizeGB cacheFile
             controller lun w in
  (forall g req err, In (EvCreateProcessEx g req (StartFailed err)) (events r) ->
     (Args req = testdCommand controller lun
      /\ result r
         = Some (Errorf "failed to run %+v following hot-add %s to utility VM: %s"
                        [FStrs (Args req); FStr destFile; FStr err]))
     \/ ((Args req = lsCommand controller lun
          \/ exists device, Args req = mkfsCommand device)
         /\ result r
            = Some (Errorf "failed to `%+v` following hot-add %s to utility VM: %s"
                           [FStrs (Args req); FStr destFile; FStr err])))
  /\ (forall p code err, In (EvExitCode p code (Some err)) (events r) ->
      exists cmd,
        failedExit [] (events r) = Some (cmd, p, code, Some err)
        /\ ((cmd = testdCommand controller lun
             /\ result r
                = Some (Errorf "failed to get exit code from from %+v following hot-add %s to utility VM: %s"
                               [FStrs cmd; FStr destFile; FStr err]))
            \/ ((cmd = lsCommand controller lun
                 \/ exists device, cmd = mkfsCommand device)
                /\ result r
                   = Some (Errorf "failed to get exit code from `%+v` following hot-add %s to utility VM: %s"
                                  [FStrs cmd; FStr destFile; FStr err]))))
  /\ (forall p code, In (EvExitCode p code None) (events r) -> code <> 0%Z ->
      exists cmd,
        failedExit [] (events r) = Some (cmd, p, code, None)
        /\ (((cmd = testdCommand controller lun \/ cmd = lsCommand controller lun)
             /\ result r
                = Some (Errorf "`%+v` return non-zero exit code (%d) following hot-add %s to utility VM"
                               [FStrs cmd; FInt code; FStr destFile]))
            \/ exists device wx w1 dres w2,
                 cmd = mkfsCommand device
                 /\ process_ExitCode H p wx = ((code, None), w1)
                 /\ removeSCSI H uvm destFile controller lun w1 = (dres, w2)
                 /\ result r
                    = Some (Errorf "`%+v` return non-zero exit code (%d) following hot-add %s to utility VM: %s"
                                   [FStrs cmd; FInt code; FStr destFile;
                                    FStr (trim (buffer_String H p StderrStream w2))]))).
Proof.
  intros r; subst r.
  paths_of (validateAndLocate H dts trim uvm destFile sizeGB cacheFile
              controller lun w)
           ltac:(unfold validateAndLocate, locateAndFormat, formatAndRelease).
  all: zero_codes; split; [|split].
  all: try (intros ? ? ? Hin; split_in Hin;
            injection Hin as <- <- <-; cbn [Args]; which_command).
  all: try (intros ? ? ? Hin; split_in Hin;
            injection Hin as <- <- <-; eexists; split; [eval_failedExit|];
            which_command).
  all: intros ? ? Hin Hcode; split_in Hin;
    injection Hin as <- <-; try (exfalso; apply Hcode; reflexivity);
    eexists; (split; [eval_failedExit|]);
    first [ which_command
          | right; do 5 eexists; split; [reflexivity|];
            split; [eassumption|]; split; [eassumption|]; reflexivity ].
Qed.

End ScratchSteps.

(** ** CreateLCOWScratch: whole runs *)

Section ScratchRuns.

Context {W : Type} (H : Host W) (dts : Z) (trim : string -> string).

(** X1. The steps of a run that succeeded after its hot-add, in their order
    and with the answers of the host they rest on: validation, lookup,
    format, each started in the world the step before it left and ended
    by an exit code of zero; the device formatted is the one the lookup
    had printed when its exit code was read; then the hot-remove, the
    copy to the cache when one is due, and the closes of the three
    processes, last started first. *)
Theorem CreateLCOWScratch_success_sequence
    uvm destFile sizeGB cacheFile w g path hint controller lun err :
  let r := CreateLCOWScratch H dts trim uvm destFile sizeGB cacheFile w in
  In (EvAddSCSI g path hint controller lun err) (events r) ->
  result r = None ->
  exists w0 p1 bc1 t1 w1 p2 bc2 t2 w2 p3 bc3 t3 w3 w4 c3 c2 c1,
    let testd :=
      mkCreateProcessEx (testdCommand controller lun) true None None None in
    let ls :=
      mkCreateProcessEx (lsCommand controller lun) true None (Some ToBuffer) None in
    let mkfs :=
      mkCreateProcessEx
        (mkfsCommand ("/dev/" +:+ trim (buffer_String H p2 StdoutStream w2)))
        true None None (Some ToBuffer) in
    stepRan H g dts testd w0 p1 bc1 t1 0 w1
    /\ stepRan H g dts ls w1 p2 bc2 t2 0 w2
    /\ stepRan H g dts mkfs w2 p3 bc3 t3 0 w3
    /\ removeSCSI H g destFile controller lun w3 = (None, w4)
    /\ afterAttach (events r) =
       [EvCreateProcessEx g testd (Started p1 bc1);
        EvWaitTimeout p1 dts t1;
        EvExitCode p1 0 None;
        EvCreateProcessEx g ls (Started p2 bc2);
        EvWaitTimeout p2 dts t2;
        EvExitCode p2 0 None;
        EvCreateProcessEx g mkfs (Started p3 bc3);
        EvWaitTimeout p3 dts t3;
        EvExitCode p3 0 None;
        EvRemoveSCSI g destFile controller lun None]
       ++ (if cacheEligible (effectiveSizeGB sizeGB) cacheFile
           then [EvCopyFile destFile cacheFile true None] else [])
       ++ [EvClose p3 c3; EvClose p2 c2; EvClose p1 c1].
Proof.
  intros r Hin Hnone.
  destruct (CreateLCOWScratch_after_attach H dts trim _ _ _ _ _ _ _ _ _ _ _ Hin)
    as (pre & w' & _ & -> & _ & Hpa & _ & Hev & Hres).
  cbv zeta in Hev, Hres. fold r in Hev, Hres.
  rewrite Hev, (afterAttach_skip _ _ Hpa). cbn [afterAttach].
  exists w'. apply validateAndLocate_success_run. rewrite <- Hres. exact Hnone.
Qed.

(** X2. After a hot-add, the run succeeds exactly when no step failed, the
    hot-remove did not fail and the copy to the cache did not fail; what
    [WaitTimeout] and [Close] return, and what the hot-add itself
    returned, has no part in it. *)
Theorem CreateLCOWScratch_result_iff
    uvm destFile sizeGB cacheFile w g path hint controller lun err :
  let r := CreateLCOWScratch H dts trim uvm destFile sizeGB cacheFile w in
  In (EvAddSCSI g path hint controller lun err) (events r) ->
  (result r = None <-> existsb callFailed (afterAttach (events r)) = false).
Proof.
  intros r Hin.
  destruct (CreateLCOWScratch_after_attach H dts trim _ _ _ _ _ _ _ _ _ _ _ Hin)
    as (pre & w' & _ & _ & _ & Hpa & _ & Hev & Hres).
  cbv zeta in Hev, Hres. fold r in Hev, Hres.
  rewrite Hev, (afterAttach_skip _ _ Hpa), Hres. cbn [afterAttach].
  apply validateAndLocate_result_iff.
Qed.

(** X3. A failed step is reported, in the words of the code. When a command
    does not start, the error names that command, the destination and the
    error of the start. When an exit code cannot be read or is not zero,
    the error names the command of the process started last before it,
    the destination and the error of the read or the exit code; for the
    format, also what the process had written to its standard error when
    the hot-remove that follows the read of the exit code returned. *)
Theorem CreateLCOWScratch_step_errors
    uvm destFile sizeGB cacheFile w g path hint controller lun err :
  let r := CreateLCOWScratch H dts trim uvm destFile sizeGB cacheFile w in
  In (EvAddSCSI g path hint controller lun err) (events r) ->
  (forall g' req e,
     In (EvCreateProcessEx g' req (StartFailed e)) (afterAttach (events r)) ->
     (Args req = testdCommand controller lun
      /\ result r
         = Some (Errorf "failed to run %+v following hot-add %s to utility VM: %s"
                        [FStrs (Args req); FStr destFile; FStr e]))
     \/ ((Args req = lsCommand controller lun
          \/ exists device, Args req = mkfsCommand device)
         /\ result r
            = Some (Errorf "failed to `%+v` following hot-add %s to utility VM: %s"
                           [FStrs (Args req); FStr destFile; FStr e])))
  /\ (forall p code e, In (EvExitCode p code (Some e)) (afterAttach (events r)) ->
      exists cmd,
        failedExit [] (afterAttach (events r)) = Some (cmd, p, code, Some e)
        /\ ((cmd = testdCommand controller lun
             /\ result r
                = Some (Errorf "failed to get exit code from from %+v following hot-add %s to utility VM: %s"
                               [FStrs cmd; FStr destFile; FStr e]))
            \/ ((cmd = lsCommand controller lun
                 \/ exists device, cmd = mkfsCommand device)
                /\ result r
                   = Some (Errorf "failed to get exit code from `%+v` following hot-add %s to utility VM: %s"
                                  [FStrs cmd; FStr destFile; FStr e]))))
  /\ (forall p code, In (EvExitCode p code None) (afterAttach (events r)) ->
      code <> 0%Z ->
      exists cmd,
        failedExit [] (afterAttach (events r)) = Some (cmd, p, code, None)
        /\ (((cmd = testdCommand controller lun \/ cmd = lsCommand controller lun)
             /\ result r
                = Some (Errorf "`%+v` return non-zero exit code (%d) following hot-add %s to utility VM"
                               [FStrs cmd; FInt code; FStr destFile]))
            \/ exists device wx w1 dres w2,
                 cmd = mkfsCommand device
                 /\ process_ExitCode H p wx = ((code, None), w1)
                 /\ removeSCSI H g destFile controller lun w1 = (dres, w2)
                 /\ result r
                    = Some (Errorf "`%+v` return non-zero exit code (%d) following hot-add %s to utility VM: %s"
                                   [FStrs cmd; FInt code; FStr destFile;
                                    FStr (trim (buffer_String H p StderrStream w2))]))).
Proof.
  intros r Hin.
  destruct (CreateLCOWScratch_after_attach H dts trim _ _ _ _ _ _ _ _ _ _ _ Hin)
    as (pre & w' & _ & -> & _ & Hpa & _ & Hev & Hres).
  cbv zeta in Hev, Hres. fold r in Hev, Hres.
  rewrite Hev, (afterAttach_skip _ _ Hpa), Hres. cbn [afterAttach].
  apply validateAndLocate_failures.
Qed.

(** X4. Every command after the hot-add runs in the utility VM that the
    image was added to, with no standard input, and is the validation or
    the lookup at the address of the hot-add, or the format. *)
Theorem CreateLCOWScratch_commands_target
    uvm destFile sizeGB cacheFile w g path hint controller lun err g' req res :
  let r := CreateLCOWScratch H dts trim uvm destFile sizeGB cacheFile w in
  In (EvAddSCSI g path hint controller lun err) (events r) ->
  In (EvCreateProcessEx g' req res) (afterAttach (events r)) ->
  g' = g /\ CreateInUtilityVm req = true /\ Stdin req = None
  /\ (Args req = testdCommand controller lun
      \/ Args req = lsCommand controller lun
      \/ exists device, Args req = mkfsCommand device).
Proof.
  intros r Hin Hc.
  destruct (CreateLCOWScratch_after_attach H dts trim _ _ _ _ _ _ _ _ _ _ _ Hin)
    as (pre & w' & _ & _ & _ & Hpa & _ & Hev & _).
  cbv zeta in Hev. fold r in Hev.
  rewrite Hev, (afterAttach_skip _ _ Hpa) in Hc. cbn [afterAttach] in Hc.
  destruct (validateAndLocate_guest H dts trim _ _ _ _ _ _ _ _ _ _ Hc)
    as (Hg & Hu & Hs).
  split; [exact Hg|]. split; [exact Hu|]. split; [exact Hs|].
  destruct (validateAndLocate_commands H dts trim _ _ _ _ _ _ _ _ _ _ Hc)
    as [-> | [-> | (device & ->)]]; cbn [Args]; eauto.
Qed.

(** X5. Without a utility VM the run touches neither the guest nor the
    destination's image: it succeeds only by the copy from the cache, and
    when it makes no such copy it fails with the no-utility-VM error. *)
Theorem CreateLCOWScratch_without_uvm destFile sizeGB cacheFile w :
  let r := CreateLCOWScratch H dts trim None destFile sizeGB cacheFile w in
  forallb (fun e => negb (isGuestEvent e)) (events r) = true
  /\ (forall path s b e, ~ In (EvCreateVhdx path s b e) (events r))
  /\ (result r = None ->
      events r = [EvStat cacheFile None;
                  EvCopyFile cacheFile destFile false None])
  /\ ((forall res, ~ In (EvCopyFile cacheFile destFile false res) (events r)) ->
      result r = Some (Errorf "cannot create scratch disk as cache is not present and no utility VM supplied" [])).
Proof.
  intros r; subst r.
  paths_of (CreateLCOWScratch H dts trim None destFile sizeGB cacheFile w)
           ltac:(unfold CreateLCOWScratch, createWithUVM).
  all: split; [reflexivity|].
  all: split; [intros ? ? ? ? Hin; split_in Hin|].
  all: split; [intros Hn; first [discriminate Hn | reflexivity]|].
  all: intros Hno; try reflexivity.
  all: exfalso; eapply Hno; in_list.
Qed.

(** X6. When the image cannot be created, its error is returned and the
    guest is left alone: no diagnostics, no hot-add, no command. *)
Theorem CreateLCOWScratch_vhdx_failure
    uvm destFile sizeGB cacheFile w path s b e :
  let r := CreateLCOWScratch H dts trim uvm destFile sizeGB cacheFile w in
  In (EvCreateVhdx path s b (Some e)) (events r) ->
  result r = Some (Errorf "failed to create VHDx %s: %s" [FStr destFile; FStr e])
  /\ forallb (fun e => negb (isGuestEvent e)) (events r) = true.
Proof.
  intros r Hin.
  destruct (CreateLCOWScratch_shape H dts trim uvm destFile sizeGB cacheFile w)
    as [(_ & w1 & res & w2 & _ & _ & Hr) | (pre & w1 & Hpre & Hev & Hres)].
  { exfalso. fold r in Hr. rewrite Hr in Hin. split_in Hin. }
  fold r in Hev, Hres. cbv zeta in Hev, Hres.
  assert (Hp : ~ In (EvCreateVhdx path s b (Some e)) pre
               /\ forallb (fun e => negb (isGuestEvent e)) pre = true).
  { destruct Hpre as [->|(_ & e0 & _ & ->)]; split; try reflexivity;
      intros Hx; split_in Hx. }
  destruct Hp as [Hp Hpg].
  rewrite Hev in Hin |- *. apply in_app_or in Hin as [Hin|Hin]; [tauto|].
  destruct uvm as [uvmc|]; [|contradiction].
  destruct (createWithUVM_shape H dts trim uvmc destFile
              (effectiveSizeGB sizeGB) cacheFile w1)
    as [(e0 & Hce & Hcr) | (dl & c & l & err' & w' & Hdl & Hce & _)].
  - rewrite Hce in Hin |- *. rewrite Hres, Hcr. split_in Hin.
    injection Hin as _ _ _ <-. split; [reflexivity|].
    rewrite forallb_app, Hpg. reflexivity.
  - exfalso. cbv zeta in Hce. rewrite Hce in Hin.
    destruct Hin as [Hin|Hin]; [discriminate Hin|].
    apply in_app_or in Hin as [Hin|Hin].
    { rewrite forallb_forall in Hdl. apply Hdl in Hin. discriminate Hin. }
    destruct Hin as [Hin|Hin]; [discriminate Hin|].
    assert (Hg : isProcessEvent (EvCreateVhdx path s b (Some e))
                 || isDetach (EvCreateVhdx path s b (Some e)) = false)
      by reflexivity.
    destruct (validateAndLocate_host_calls H dts trim _ _ _ _ _ _ _ _ Hin Hg)
      as (_ & res & Heq & _).
    discriminate Heq.
Qed.

(** X7. A call that succeeds with a cache file named, at the default size,
    has copied the cache file onto the destination or the destination
    onto the cache file: the cache file is there for the next call. *)
Theorem CreateLCOWScratch_success_leaves_cache
    uvm destFile sizeGB cacheFile w :
  let r := CreateLCOWScratch H dts trim uvm destFile sizeGB cacheFile w in
  result r = None ->
  cacheFile <> "" ->
  effectiveSizeGB sizeGB = DefaultLCOWScratchSizeGB ->
  events r = [EvStat cacheFile None; EvCopyFile cacheFile destFile false None]
  \/ In (EvCopyFile destFile cacheFile true None) (events r).
Proof.
  intros r Hnone Hne Hsz.
  assert (Hel : cacheEligible (effectiveSizeGB sizeGB) cacheFile = true)
    by (apply cacheEligible_spec; tauto).
  destruct (CreateLCOWScratch_cases H dts trim uvm destFile sizeGB cacheFile w)
    as [(_ & res & Hev & Hres) | (pre & _ & Hc)];
    fold r in Hev, Hres || fold r in Hc.
  - left. rewrite Hres in Hnone. destruct res; [discriminate Hnone|]. exact Hev.
  - right.
    destruct Hc as [(_ & _ & Hr) | [(e & _ & Hr)
                   | (g & dl & c & l & err & w' & _ & _ & Hev & Hres)]];
      try (exfalso; exact (Hr Hnone)).
    cbv zeta in Hev, Hres. rewrite Hres in Hnone.
    destruct (validateAndLocate_success H dts trim _ _ _ _ _ _ _ Hnone)
      as (p1 & bc1 & t1 & p2 & bc2 & t2 & w2 & p3 & bc3 & t3 & c3 & c2 & c1 & Hv).
    rewrite Hev, Hv, Hel.
    apply in_or_app; right. right. apply in_or_app; right. right.
    apply in_or_app; right. left. reflexivity.
Qed.

(** X9. The diagnostics: nothing is called when the log level is below debug
    or the enabling variable is empty; otherwise one command is started
    in the utility VM, the one of the overriding variable or the default
    one, and a process that started is waited for 30 seconds, killed and
    closed. *)
Theorem DebugLCOWGCS_behaviour c w :
  let r := DebugLCOWGCS H c w in
  let cmd := if String.eqb (os_Getenv H "HCSSHIM_LCOW_DEBUG_COMMAND" w) ""
             then defaultDebugCommand
             else os_Getenv H "HCSSHIM_LCOW_DEBUG_COMMAND" w in
  let req := mkCreateProcessEx [cmd] true None (Some ToBuffer) None in
  (logrus_debug H w = false \/ os_Getenv H "HCSSHIM_LCOW_DEBUG_ENABLE" w = "" ->
   r = (tt, w, []))
  /\ (logrus_debug H w = true ->
      os_Getenv H "HCSSHIM_LCOW_DEBUG_ENABLE" w <> "" ->
      (exists e, events r = [EvCreateProcessEx c req (StartFailed e)])
      \/ (exists p bc t k cl,
            events r = [EvCreateProcessEx c req (Started p bc);
                        EvWaitTimeout p 30000000000 t;
                        EvKill p k; EvClose p cl])).
Proof.
  intros r cmd req; subst r cmd req.
  assert (Hlen : forall s, Nat.eqb (String.length s) 0 = true <-> s = "").
  { intros s0. destruct s0; cbn; split; congruence. }
  split.
  - intros Hoff. unfold DebugLCOWGCS. rewrite bind_peek.
    destruct Hoff as [-> | ->]; [reflexivity|].
    rewrite andb_comm. reflexivity.
  - intros Hon Hen. unfold DebugLCOWGCS. rewrite bind_peek, Hon.
    destruct (Nat.eqb (String.length (os_Getenv H "HCSSHIM_LCOW_DEBUG_ENABLE" w)) 0)
      eqn:Hz; [apply Hlen in Hz; contradiction|].
    cbn [andb negb]. rewrite bind_peek. unfold_calls. red_run.
    match goal with
    | |- context [container_CreateProcessEx H c ?q w] =>
        destruct (container_CreateProcessEx H c q w) as [[p bc|e] w1]
    end.
    + right.
      destruct (process_WaitTimeout H p (1000000000 * 30) w1) as [t w2].
      destruct (process_Kill H p w2) as [k w3].
      destruct (process_Close H p w3) as [cl w4].
      exists p, bc, t, k, cl. reflexivity.
    + left. exists e. reflexivity.
Qed.

End ScratchRuns.

(** ** The translation of the mounts, in full *)

(** One turn of the loop over the options. *)
Lemma scanOptions_cons opt rest st :
  scanOptions (opt :: rest) st =
  if String.eqb (optionKey opt) "uvmpath" then
    match cutAtEquals opt with
    | Some (_, v) => scanOptions rest (mkScan (updatedOptions st) v (readonly st))
    | None => ScanPanic "runtime error: index out of range"
    end
  else if String.eqb (optionKey opt) "rw" then
    scanOptions rest (mkScan (updatedOptions st ++ [opt]) (uvmPath st) (readonly st))
  else if String.eqb (optionKey opt) "ro" then
    scanOptions rest (mkScan (updatedOptions st ++ [opt]) (uvmPath st) true)
  else if String.eqb (optionKey opt) "rbind" then
    scanOptions rest (mkScan (updatedOptions st ++ [opt]) (uvmPath st) (readonly st))
  else ScanError (Errorf "unsupported option %q" [FStr opt]).
Proof.
  cbn [scanOptions]. unfold optionKey, strings_SplitN_eq_2.
  destruct (cutAtEquals opt) as [[k v]|]; reflexivity.
Qed.

(** What the scan supports, by the key of the option. *)
Lemma supportedOption_key opt :
  supportedOption opt =
  if String.eqb (optionKey opt) "uvmpath" then
    match cutAtEquals opt with Some _ => true | None => false end
  else String.eqb (optionKey opt) "rw" || String.eqb (optionKey opt) "ro"
       || String.eqb (optionKey opt) "rbind".
Proof.
  unfold supportedOption, isUvmpathOption, optionKey, strings_SplitN_eq_2.
  destruct (cutAtEquals opt) as [[k v]|]; cbn [hd].
  - destruct (String.eqb k "uvmpath") eqn:Hk; [|reflexivity].
    apply String.eqb_eq in Hk. subst k. reflexivity.
  - destruct (String.eqb opt "uvmpath") eqn:Hk; [|reflexivity].
    apply String.eqb_eq in Hk. subst opt. reflexivity.
Qed.

Lemma scannedFrom_cons_keep opt rest st ro :
  String.eqb (optionKey opt) "uvmpath" = false ->
  (ro = String.eqb (optionKey opt) "ro") ->
  scannedFrom rest (mkScan (updatedOptions st ++ [opt]) (uvmPath st)
                           (readonly st || ro))
  = scannedFrom (opt :: rest) st.
Proof.
  intros Hk ->. unfold scannedFrom, hasRo, lastUvmpath.
  cbn [updatedOptions uvmPath readonly List.filter existsb fold_left].
  rewrite Hk. cbn [negb]. rewrite <- app_assoc. cbn [app].
  f_equal; [|symmetry; apply orb_assoc].
  f_equal. unfold optionKey, strings_SplitN_eq_2 in Hk.
  destruct (cutAtEquals opt) as [[k v]|]; [|reflexivity].
  cbn [hd] in Hk. rewrite Hk. reflexivity.
Qed.

(** The scan goes through exactly when every option is supported, and
    then it has dropped the [uvmpath] options from the list, kept the
    value of the last of them, and seen whether [ro] is there. *)
Lemma scanOptions_done_iff opts : forall st st',
  scanOptions opts st = ScanDone st' <->
  forallb supportedOption opts = true /\ st' = scannedFrom opts st.
Proof.
  induction opts as [|opt rest IH]; intros st st'.
  - cbn [scanOptions forallb]. unfold scannedFrom, hasRo, lastUvmpath.
    cbn [List.filter existsb fold_left]. rewrite app_nil_r, orb_false_r.
    destruct st as [u p r]. cbn [updatedOptions uvmPath readonly].
    split; [intros [= <-]; auto | intros [_ ->]; reflexivity].
  - rewrite scanOptions_cons. cbn [forallb]. rewrite supportedOption_key.
    destruct (String.eqb (optionKey opt) "uvmpath") eqn:Hu.
    { destruct (cutAtEquals opt) as [[k v]|] eqn:Hcut.
      - rewrite IH. cbn [andb].
        assert (Hk : k = "uvmpath").
        { unfold optionKey, strings_SplitN_eq_2 in Hu. rewrite Hcut in Hu.
          apply String.eqb_eq in Hu. exact Hu. }
        assert (Heq : scannedFrom rest (mkScan (updatedOptions st) v (readonly st))
                      = scannedFrom (opt :: rest) st).
        { unfold scannedFrom, hasRo, lastUvmpath.
          cbn [updatedOptions uvmPath readonly List.filter existsb fold_left].
          rewrite Hu, Hcut, Hk. cbn [negb String.eqb Ascii.eqb Bool.eqb].
          f_equal.
          assert (Hro : String.eqb (optionKey opt) "ro" = false).
          { apply String.eqb_eq in Hu. rewrite Hu. reflexivity. }
          rewrite Hro. reflexivity. }
        rewrite Heq. reflexivity.
      - cbn [andb]. split; [discriminate|intros [Hx _]; discriminate Hx]. }
    destruct (String.eqb (optionKey opt) "rw") eqn:Hrw.
    { cbn [orb andb]. rewrite IH.
      assert (Hro : String.eqb (optionKey opt) "ro" = false).
      { apply String.eqb_eq in Hrw. rewrite Hrw. reflexivity. }
      rewrite <- (scannedFrom_cons_keep opt rest st false Hu (eq_sym Hro)).
      rewrite orb_false_r. destruct st; reflexivity. }
    destruct (String.eqb (optionKey opt) "ro") eqn:Hro.
    { cbn [orb andb]. rewrite IH.
      rewrite <- (scannedFrom_cons_keep opt rest st true Hu (eq_sym Hro)).
      rewrite orb_true_r. reflexivity. }
    destruct (String.eqb (optionKey opt) "rbind") eqn:Hrb.
    { cbn [orb andb]. rewrite IH.
      rewrite <- (scannedFrom_cons_keep opt rest st false Hu (eq_sym Hro)).
      rewrite orb_false_r. destruct st; reflexivity. }
    cbn [orb andb]. split; [discriminate|intros [Hx _]; discriminate Hx].
Qed.

Section TranslationProofs.

Variable path_Join : string -> string -> string.

(** The loop over the mounts, with what it has gathered so far. *)
Lemma translateMounts_done_acc h mounts : forall mds0 sm0 mds sm,
  translateMounts path_Join h mounts mds0 sm0 = Returned (inr (mds, sm)) <->
  forallb (translatable h) mounts = true
  /\ mds = mds0 ++ map (mappedDirOf path_Join h) (List.filter isBind mounts)
  /\ sm = sm0 ++ map (rewrittenMount path_Join h) mounts.
Proof.
  induction mounts as [|m rest IH]; intros mds0 sm0 mds sm.
  - cbn [translateMounts forallb List.filter map]. rewrite !app_nil_r.
    split; [intros [= <- <-]; auto | intros (_ & -> & ->); reflexivity].
  - cbn [translateMounts forallb List.filter map].
    unfold translatable at 1, rewrittenMount at 1, supportedOptions, isBind.
    destruct (String.eqb (Type_ m) "bind") eqn:Hb; cbn [negb orb].
    + destruct (scanOptions (readStrings h (Options m)) (mkScan [] "" false))
        as [st|e|msg] eqn:Hscan.
      * apply scanOptions_done_iff in Hscan as [Hsup ->].
        rewrite Hsup. unfold scannedFrom at 1.
        cbn [uvmPath readonly updatedOptions andb orb].
        destruct (String.eqb (lastUvmpath (readStrings h (Options m)) "") "")
          eqn:He; cbn [negb andb].
        { split; [discriminate|intros [Hx _]; discriminate Hx]. }
        rewrite IH. unfold scannedFrom, mappedDirOf.
        cbn [uvmPath readonly updatedOptions orb map].
        rewrite <- !app_assoc. cbn [app]. reflexivity.
      * split; [discriminate|]. intros (Hx & _). exfalso.
        apply andb_prop in Hx as [Hx _]. apply andb_prop in Hx as [Hx _].
        assert (Hd : scanOptions (readStrings h (Options m)) (mkScan [] "" false)
                     = ScanDone (scannedFrom (readStrings h (Options m))
                                             (mkScan [] "" false)))
          by (apply scanOptions_done_iff; auto).
        congruence.
      * split; [discriminate|]. intros (Hx & _). exfalso.
        apply andb_prop in Hx as [Hx _]. apply andb_prop in Hx as [Hx _].
        assert (Hd : scanOptions (readStrings h (Options m)) (mkScan [] "" false)
                     = ScanDone (scannedFrom (readStrings h (Options m))
                                             (mkScan [] "" false)))
          by (apply scanOptions_done_iff; auto).
        congruence.
    + rewrite IH. rewrite <- !app_assoc. cbn [app andb]. reflexivity.
Qed.

(** X12. The translation succeeds exactly on the lists whose bind mounts have
    supported options and a [uvmpath] that is not empty. It then gives
    one mapped directory per bind mount, in order, and the mounts one for
    one: every mount keeps its destination, type and options (the
    [uvmpath] option too), a bind mount gets the path in the utility VM
    as its source, any other mount is passed as it is. *)
Theorem translateMounts_success_iff h mounts mds specMounts :
  translateMounts path_Join h mounts [] [] = Returned (inr (mds, specMounts)) <->
  forallb (translatable h) mounts = true
  /\ mds = map (mappedDirOf path_Join h) (List.filter isBind mounts)
  /\ specMounts = map (rewrittenMount path_Join h) mounts.
Proof. apply translateMounts_done_acc. Qed.

(** Supported options are scanned through. *)
Lemma scanOptions_app good : forall st l,
  forallb supportedOption good = true ->
  exists st', scanOptions (good ++ l) st = scanOptions l st'.
Proof.
  induction good as [|opt good IH]; intros st l Hs.
  - exists st. reflexivity.
  - cbn [forallb] in Hs. apply andb_prop in Hs as [Hopt Hs].
    rewrite supportedOption_key in Hopt.
    cbn [app]. rewrite scanOptions_cons.
    destruct (String.eqb (optionKey opt) "uvmpath").
    { destruct (cutAtEquals opt) as [[k v]|]; [|discriminate Hopt].
      apply IH, Hs. }
    destruct (String.eqb (optionKey opt) "rw"); [apply IH, Hs|].
    destruct (String.eqb (optionKey opt) "ro"); [apply IH, Hs|].
    destruct (String.eqb (optionKey opt) "rbind"); [apply IH, Hs|].
    discriminate Hopt.
Qed.

(** Mounts the translation accepts are passed over. *)
Lemma translateMounts_app h pre : forall l mds0 sm0,
  forallb (translatable h) pre = true ->
  translateMounts path_Join h (pre ++ l) mds0 sm0
  = translateMounts path_Join h l
      (mds0 ++ map (mappedDirOf path_Join h) (List.filter isBind pre))
      (sm0 ++ map (rewrittenMount path_Join h) pre).
Proof.
  induction pre as [|m pre IH]; intros l mds0 sm0 Hp.
  - cbn. rewrite !app_nil_r. reflexivity.
  - cbn [forallb] in Hp. apply andb_prop in Hp as [Hm Hp].
    cbn [app translateMounts List.filter map].
    unfold translatable, supportedOptions, isBind in Hm.
    unfold rewrittenMount at 1, isBind.
    destruct (String.eqb (Type_ m) "bind"); cbn [negb orb] in Hm.
    + apply andb_prop in Hm as [Hsup Hne].
      assert (Hd : scanOptions (readStrings h (Options m)) (mkScan [] "" false)
                   = ScanDone (scannedFrom (readStrings h (Options m))
                                           (mkScan [] "" false)))
        by (apply scanOptions_done_iff; auto).
      rewrite Hd. unfold scannedFrom at 1. cbn [uvmPath].
      apply negb_true_iff in Hne. rewrite Hne.
      rewrite (IH _ _ _ Hp). unfold scannedFrom, mappedDirOf.
      cbn [uvmPath readonly updatedOptions orb map].
      rewrite <- !app_assoc. reflexivity.
    + rewrite (IH _ _ _ Hp). rewrite <- !app_assoc. reflexivity.
Qed.

(** X13. The first option that is not supported ends the translation, at the
    first bind mount that has one: with the unsupported-option error that
    names it, or, for the bare word [uvmpath], with a panic. *)
Theorem translateMounts_first_bad_option h pre m post good bad rest :
  forallb (translatable h) pre = true ->
  isBind m = true ->
  readStrings h (Options m) = good ++ bad :: rest ->
  forallb supportedOption good = true ->
  supportedOption bad = false ->
  translateMounts path_Join h (pre ++ m :: post) [] [] =
  if String.eqb bad "uvmpath"
  then Panicked "runtime error: index out of range"
  else Returned (inl (Errorf "unsupported option %q" [FStr bad])).
Proof.
  intros Hpre Hb Hopts Hgood Hbad.
  rewrite (translateMounts_app _ _ _ _ _ Hpre).
  cbn [translateMounts]. unfold isBind in Hb. rewrite Hb, Hopts.
  destruct (scanOptions_app good (mkScan [] "" false) (bad :: rest) Hgood)
    as (st' & ->).
  rewrite scanOptions_cons. rewrite supportedOption_key in Hbad.
  unfold optionKey, strings_SplitN_eq_2 in Hbad |- *.
  destruct (cutAtEquals bad) as [[k v]|] eqn:Hcut; cbn [hd] in Hbad |- *.
  - assert (Hne : String.eqb bad "uvmpath" = false).
    { destruct (String.eqb_spec bad "uvmpath") as [->|]; [discriminate Hcut|reflexivity]. }
    rewrite Hne.
    destruct (String.eqb k "uvmpath"); [discriminate Hbad|].
    destruct (String.eqb k "rw"); [discriminate Hbad|].
    destruct (String.eqb k "ro"); [discriminate Hbad|].
    destruct (String.eqb k "rbind"); [discriminate Hbad|]. reflexivity.
  - destruct (String.eqb bad "uvmpath"); [reflexivity|].
    destruct (String.eqb bad "rw"); [discriminate Hbad|].
    destruct (String.eqb bad "ro"); [discriminate Hbad|].
    destruct (String.eqb bad "rbind"); [discriminate Hbad|]. reflexivity.
Qed.

End TranslationProofs.

Lemma translateMounts_success_iff_witness :
  translateMounts joinSlash exampleHeap [bindMount; tmpfsMount] [] []
  = Returned (inr ([mappedDirOf joinSlash exampleHeap bindMount],
                   [rewrittenMount joinSlash exampleHeap bindMount; tmpfsMount])).
Proof.
  exact (proj2 (translateMounts_success_iff joinSlash exampleHeap
                  [bindMount; tmpfsMount] _ _)
           (conj eq_refl (conj eq_refl eq_refl))).
Defined.

Lemma translateMounts_first_bad_option_witness :
  (forallb (translatable exampleHeap) [bindMount; tmpfsMount] = true
   /\ isBind bogusMount = true
   /\ readStrings exampleHeap (Options bogusMount) = ["rw"] ++ "noexec" :: []
   /\ forallb supportedOption ["rw"] = true
   /\ supportedOption "noexec" = false)
  /\ translateMounts joinSlash exampleHeap
       ([bindMount; tmpfsMount] ++ bogusMount :: [roMount]) [] []
     = Returned (inl (Errorf "unsupported option %q" [FStr "noexec"])).
Proof.
  split; [repeat split; reflexivity|].
  exact (translateMounts_first_bad_option joinSlash exampleHeap
           [bindMount; tmpfsMount] bogusMount [roMount] ["rw"] "noexec" []
           eq_refl eq_refl eq_refl eq_refl eq_refl).
Defined.

(** ** createLCOWv1: the layers, the configuration, the failures *)

Lemma guidsOf_app l1 l2 : guidsOf (l1 ++ l2) = guidsOf l1 ++ guidsOf l2.
Proof.
  induction l1 as [|e t IH]; [reflexivity|].
  destruct e; cbn [app guidsOf]; try exact IH.
  destruct res; cbn; [f_equal|]; exact IH.
Qed.

Lemma namesOf_app l1 l2 : namesOf (l1 ++ l2) = namesOf l1 ++ namesOf l2.
Proof.
  induction l1 as [|e t IH]; [reflexivity|].
  destruct e; cbn [app namesOf]; try exact IH. cbn. f_equal. exact IH.
Qed.

Section V1Runs.

Context {W : Type} (H : Host W).
Variable filepath_Split : string -> string * string.
Variable filepath_Join : string -> string -> string.
Variable path_Join : string -> string -> string.

(** The loop over the layers: it asks for the GUID of the file name of
    each folder, in order, and stops at the first failure. When it goes
    through, it has one layer per folder: the GUID as given, and the
    path of [layer.vhd] in the folder. *)
Lemma layersLoop_run layerFolders : forall layers (s : St),
  let r := layersLoop H filepath_Split filepath_Join layerFolders layers s in
  match result r with
  | inr layers' =>
      namesOf (events r) = map (fun p => snd (filepath_Split p)) layerFolders
      /\ length (guidsOf (events r)) = length layerFolders
      /\ layers' = layers
                   ++ map (fun pg => mkLayer (snd pg)
                                       (filepath_Join (fst pg) "layer.vhd"))
                          (combine layerFolders (guidsOf (events r)))
      /\ forall name e, ~ In (EvNameToGuid name (inr e)) (events r)
  | inl err =>
      exists done name,
        events r = done ++ [EvNameToGuid name (inr err)]
        /\ forall name' e, ~ In (EvNameToGuid name' (inr e)) done
  end.
Proof.
  induction layerFolders as [|layerPath rest IH]; intros layers s.
  - cbn. rewrite app_nil_r. repeat split. intros ? ? [].
  - cbn [layersLoop]. unfold callW. red_run.
    destruct (NameToGuid H (snd (filepath_Split layerPath)) (snd s))
      as [[g|err] w1].
    + specialize (IH (layers ++ [mkLayer g (filepath_Join layerPath "layer.vhd")])
                     (fst s, w1)).
      cbv zeta in IH.
      destruct (layersLoop H filepath_Split filepath_Join rest
                  (layers ++ [mkLayer g (filepath_Join layerPath "layer.vhd")])
                  (fst s, w1)) as [[res s'] l].
      cbn [result events fst snd app] in IH |- *.
      destruct res as [err|layers'].
      * destruct IH as (done & name & -> & Hdone).
        exists (EvNameToGuid (snd (filepath_Split layerPath)) (inl g) :: done), name.
        split; [reflexivity|].
        intros name' e [Hin|Hin]; [discriminate Hin|]. exact (Hdone _ _ Hin).
      * destruct IH as (Hn & Hl & -> & Hno).
        cbn [namesOf guidsOf map length combine fst snd].
        rewrite Hn, Hl, <- app_assoc. repeat split.
        intros name e [Hin|Hin]; [discriminate Hin|]. exact (Hno _ _ Hin).
    + cbn. exists [], (snd (filepath_Split layerPath)).
      split; [reflexivity|]. intros ? ? [].
Qed.

(** [createLCOWv1], its binds written out. *)
Lemma createLCOWv1_unfold (s : St) :
  createLCOWv1 H filepath_Split filepath_Join path_Join s =
  let co := createOptions (fst s) in
  if (0 <? length (layerFoldersOf co))%nat then
    let lr := layersLoop H filepath_Split filepath_Join
                (removelast (layerFoldersOf co)) [] s in
    match result lr with
    | inl err => (Returned (inr (Raw err)), final lr, events lr)
    | inr layers =>
        let mr := mountsAndCreate H path_Join co
                    (List.last (layerFoldersOf co) "") layers (final lr) in
        (result mr, final mr, events lr ++ events mr)
    end
  else mountsAndCreate H path_Join co "" [] s.
Proof.
  unfold createLCOWv1, layerFoldersOf. rewrite bind_peek. cbv zeta.
  destruct (spec_Windows (spec (createOptions (fst s)))) as [w0|];
    [|reflexivity].
  destruct (0 <? length (LayerFolders w0))%nat; [|reflexivity].
  unfold bind.
  destruct (layersLoop H filepath_Split filepath_Join
              (removelast (LayerFolders w0)) [] s) as [[res s1] l].
  cbn [result final events fst snd].
  destruct res as [err|layers].
  - cbn. rewrite app_nil_r. reflexivity.
  - destruct (mountsAndCreate H path_Join (createOptions (fst s))
                (List.last (LayerFolders w0) "") layers s1) as [[res s2] l2].
    reflexivity.
Qed.

(** From the mounts on, a call of [CreateContainer] is the only one, and
    gets the configuration built on the mapped directories of the
    translation. *)
Lemma mountsAndCreate_create co layerFolderPath layers (s : St) :
  let r := mountsAndCreate H path_Join co layerFolderPath layers s in
  (forall e, In e (events r) -> isNameToGuid e = false)
  /\ (count isCreateContainer (events r) <= 1)%nat
  /\ forall cid cfg res, In (EvCreateContainer cid cfg res) (events r) ->
       exists mds specMounts,
         translateMounts path_Join (heap (fst s))
           (readMounts (heap (fst s)) (Mounts (spec co))) [] []
         = Returned (inr (mds, specMounts))
         /\ cid = id co
         /\ cfg = configurationOf co layerFolderPath layers mds.
Proof.
  unfold mountsAndCreate, callW, storeSpecMounts. rewrite bind_peek.
  destruct (translateMounts path_Join (heap (fst s))
              (readMounts (heap (fst s)) (Mounts (spec co))) [] [])
    as [[e|[mds specMounts]]|msg] eqn:Ht.
  - cbn. split; [intros ? []|]. split; [lia|]. intros ? ? ? [].
  - red_run.
    destruct (CreateContainer H (id co)
                (configurationOf co layerFolderPath layers mds) (snd s))
      as [[c|e] w1].
    + cbn [fst snd].
      destruct (allocMounts (heap (fst s)) specMounts) as [sl h'].
      cbn. split; [intros e [<-|[<-|[]]]; reflexivity|]. split; [lia|].
      intros cid cfg res [Hin|[Hin|[]]]; [|discriminate Hin].
      injection Hin as <- <- _. eauto.
    + cbn. split; [intros e0 [<-|[]]; reflexivity|]. split; [lia|].
      intros cid cfg res [Hin|[]]. injection Hin as <- <- _. eauto.
  - cbn. split; [intros ? []|]. split; [lia|]. intros ? ? ? [].
Qed.

Lemma nameToGuid_events l :
  forallb isNameToGuid l = true ->
  count isCreateContainer l = 0%nat
  /\ forall cid cfg res, ~ In (EvCreateContainer cid cfg res) l.
Proof.
  intros Hl. split.
  - induction l as [|e t IH]; [reflexivity|].
    cbn [forallb] in Hl. apply andb_prop in Hl as [He Ht].
    cbn [count]. rewrite (IH Ht). destruct e; cbn in He |- *; congruence.
  - intros cid cfg res Hin. rewrite forallb_forall in Hl.
    apply Hl in Hin. discriminate Hin.
Qed.

(** X14. The configuration [CreateContainer] is called with: a Linux
    container in a Hyper-V partition, named by the id, with the boot
    files of the options; the top-most layer folder as the layer folder
    path and one layer per folder below it, in order, with the GUID that
    [NameToGuid] gave for it and the path of its [layer.vhd]; and the
    mapped directories of the translation of the mounts. The call is
    made once at most. *)
Theorem createLCOWv1_configuration (s : St) cid cfg res :
  let r := createLCOWv1 H filepath_Split filepath_Join path_Join s in
  let m := fst s in
  let co := createOptions m in
  In (EvCreateContainer cid cfg res) (events r) ->
  (count isCreateContainer (events r) = 1)%nat
  /\ cid = id co /\ Name cfg = id co /\ Owner cfg = owner co
  /\ HvPartition cfg = true /\ SystemType cfg = "container"
  /\ ContainerType cfg = "linux" /\ TerminateOnLastHandleClosed cfg = true
  /\ cfg_HvRuntime cfg = Some (mkHvRuntime (lcowkird co) (lcowkernel co)
                                          (lcowinitrd co) (lcowbootparams co))
  /\ LayerFolderPath cfg = List.last (layerFoldersOf co) ""
  /\ namesOf (events r)
     = map (fun p => snd (filepath_Split p)) (removelast (layerFoldersOf co))
  /\ Layers cfg
     = map (fun pg => mkLayer (snd pg) (filepath_Join (fst pg) "layer.vhd"))
           (combine (removelast (layerFoldersOf co)) (guidsOf (events r)))
  /\ length (Layers cfg) = length (removelast (layerFoldersOf co))
  /\ exists specMounts,
      translateMounts path_Join (heap m) (readMounts (heap m) (Mounts (spec co)))
        [] []
      = Returned (inr (MappedDirectories cfg, specMounts)).
Proof.
  intros r m co Hin. subst r. rewrite createLCOWv1_unfold in Hin |- *.
  cbv zeta in Hin |- *. fold m co in Hin |- *.
  assert (Hdirect : forall lfp layers s1 pre,
    fst s1 = m ->
    count isCreateContainer pre = 0%nat ->
    (forall cid cfg res, ~ In (EvCreateContainer cid cfg res) pre) ->
    In (EvCreateContainer cid cfg res)
       (pre ++ events (mountsAndCreate H path_Join co lfp layers s1)) ->
    count isCreateContainer
      (pre ++ events (mountsAndCreate H path_Join co lfp layers s1)) = 1%nat
    /\ cid = id co
    /\ guidsOf (events (mountsAndCreate H path_Join co lfp layers s1)) = []
    /\ namesOf (events (mountsAndCreate H path_Join co lfp layers s1)) = []
    /\ exists mds specMounts,
        translateMounts path_Join (heap m) (readMounts (heap m) (Mounts (spec co)))
          [] [] = Returned (inr (mds, specMounts))
        /\ cfg = configurationOf co lfp layers mds).
  { intros lfp layers s1 pre Hm Hc0 Hno Hx.
    destruct (mountsAndCreate_create co lfp layers s1) as (Hng & Hle & Hcfg).
    cbv zeta in Hng, Hle, Hcfg. rewrite Hm in Hcfg.
    apply in_app_or in Hx as [Hx|Hx]; [exfalso; exact (Hno _ _ _ Hx)|].
    assert (Hone : count isCreateContainer
                     (events (mountsAndCreate H path_Join co lfp layers s1)) = 1%nat).
    { assert (Hpos : count isCreateContainer
                       (events (mountsAndCreate H path_Join co lfp layers s1)) <> 0%nat).
      { intros Hz. apply (count_zero_In _ _ _ Hz) in Hx. discriminate Hx. }
      lia. }
    destruct (Hcfg _ _ _ Hx) as (mds & sm & Ht & -> & ->).
    rewrite count_app, Hc0, Hone.
    split; [reflexivity|]. split; [reflexivity|].
    assert (Hgn : forall l, (forall e, In e l -> isNameToGuid e = false) ->
                            guidsOf l = [] /\ namesOf l = []).
    { induction l as [|e t IHl]; intros Hl; [split; reflexivity|].
      destruct (IHl (fun e' He' => Hl e' (or_intror He'))) as [Hg Hn].
      pose proof (Hl e (or_introl eq_refl)) as He.
      destruct e; cbn in He |- *; try discriminate He; auto. }
    destruct (Hgn _ Hng) as [Hg Hn].
    split; [exact Hg|]. split; [exact Hn|]. eauto. }
  destruct (0 <? length (layerFoldersOf co))%nat eqn:Hlen.
  - pose proof (layersLoop_run (removelast (layerFoldersOf co)) [] s) as Hl.
    pose proof (layersLoop_memory H filepath_Split filepath_Join
                  (removelast (layerFoldersOf co)) [] s) as Hmem.
    cbv zeta in Hl, Hmem. destruct Hmem as [Hmem Hng].
    destruct (nameToGuid_events _ Hng) as [Hc0 Hno].
    destruct (result (layersLoop H filepath_Split filepath_Join
                        (removelast (layerFoldersOf co)) [] s))
      as [err|layers] eqn:Hres.
    + exfalso. cbn [events snd] in Hin. exact (Hno _ _ _ Hin).
    + cbn [events snd] in Hin |- *.
      destruct Hl as (Hn & Hg & -> & _).
      destruct (Hdirect _ _ _ _ Hmem Hc0 Hno Hin)
        as (Hone & -> & Hg0 & Hn0 & mds & sm & Ht & ->).
      rewrite guidsOf_app, namesOf_app, Hg0, Hn0, !app_nil_r.
      cbn [configurationOf Name Owner HvPartition SystemType ContainerType
           TerminateOnLastHandleClosed cfg_HvRuntime LayerFolderPath Layers
           MappedDirectories app].
      repeat (split; [first [reflexivity | assumption]|]).
      split; [|eauto].
      rewrite length_map, length_combine, Hg. apply Nat.min_id.
  - assert (Hnil : layerFoldersOf co = []).
    { apply Nat.ltb_ge in Hlen. destruct (layerFoldersOf co); [reflexivity|].
      cbn in Hlen. lia. }
    destruct (Hdirect "" [] s [] eq_refl eq_refl (fun _ _ _ Hx => Hx) Hin)
      as (Hone & -> & Hg0 & Hn0 & mds & sm & Ht & ->).
    cbn [app] in Hone. rewrite Hone, Hg0, Hn0, Hnil.
    cbn [configurationOf Name Owner HvPartition SystemType ContainerType
         TerminateOnLastHandleClosed cfg_HvRuntime LayerFolderPath Layers
         MappedDirectories removelast map combine List.last length].
    repeat (split; [reflexivity|]). eauto.
Qed.

(** X15. When [NameToGuid] fails for a layer, [createLCOWv1] stops there: it
    returns that error as it is, has not looked at the mounts' outcome,
    has not called [CreateContainer], and leaves the memory as it was. *)
Theorem createLCOWv1_guid_failure (s : St) name e :
  let r := createLCOWv1 H filepath_Split filepath_Join path_Join s in
  In (EvNameToGuid name (inr e)) (events r) ->
  result r = Returned (inr (Raw e))
  /\ fst (final r) = fst s
  /\ List.last (events r) (EvNameToGuid name (inr e)) = EvNameToGuid name (inr e)
  /\ (exists done, events r = done ++ [EvNameToGuid name (inr e)]
                   /\ forallb isNameToGuid done = true)
  /\ forall cid cfg res, ~ In (EvCreateContainer cid cfg res) (events r).
Proof.
  intros r Hin. subst r. rewrite createLCOWv1_unfold in Hin |- *.
  cbv zeta in Hin |- *.
  set (co := createOptions (fst s)) in *.
  assert (Hmc : forall lfp layers s1,
            ~ In (EvNameToGuid name (inr e))
                 (events (mountsAndCreate H path_Join co lfp layers s1))).
  { intros lfp layers s1 Hx.
    destruct (mountsAndCreate_create co lfp layers s1) as (Hng & _).
    apply Hng in Hx. discriminate Hx. }
  destruct (0 <? length (layerFoldersOf co))%nat;
    [|exfalso; exact (Hmc _ _ _ Hin)].
  pose proof (layersLoop_run (removelast (layerFoldersOf co)) [] s) as Hl.
  pose proof (layersLoop_memory H filepath_Split filepath_Join
                (removelast (layerFoldersOf co)) [] s) as Hmem.
  cbv zeta in Hl, Hmem. destruct Hmem as [Hmem Hng].
  destruct (result (layersLoop H filepath_Split filepath_Join
                      (removelast (layerFoldersOf co)) [] s))
    as [err|layers] eqn:Hres.
  - cbn [events result final fst snd] in Hin |- *.
    destruct Hl as (done & name' & Hev & Hdone).
    rewrite Hev in Hin, Hng |- *.
    apply in_app_or in Hin as [Hin|[Hin|[]]]; [exfalso; exact (Hdone _ _ Hin)|].
    injection Hin as <- <-.
    rewrite forallb_app in Hng. apply andb_prop in Hng as [Hd _].
    split; [reflexivity|]. split; [exact Hmem|].
    split; [apply last_last|]. split; [eauto|].
    intros cid cfg res Hx. apply in_app_or in Hx as [Hx|[Hx|[]]];
      [|discriminate Hx].
    rewrite forallb_forall in Hd. apply Hd in Hx. discriminate Hx.
  - exfalso. cbn [events snd] in Hin. destruct Hl as (_ & _ & _ & Hno).
    apply in_app_or in Hin as [Hin|Hin]; [exact (Hno _ _ Hin)|].
    exact (Hmc _ _ _ Hin).
Qed.

(** X16. When the translation of the mounts does not succeed, no container is
    created: [CreateContainer] is not called, nothing is stored, and the
    result is the error or the panic of the translation, unless
    [NameToGuid] had failed before. *)
Theorem createLCOWv1_translation_failure (s : St) :
  let r := createLCOWv1 H filepath_Split filepath_Join path_Join s in
  let m := fst s in
  let t := translateMounts path_Join (heap m)
             (readMounts (heap m) (Mounts (spec (createOptions m)))) [] [] in
  (forall mds specMounts, t <> Returned (inr (mds, specMounts))) ->
  count isCreateContainer (events r) = 0%nat
  /\ count isStore (events r) = 0%nat
  /\ fst (final r) = m
  /\ ((exists name e, In (EvNameToGuid name (inr e)) (events r))
      \/ match t with
         | Returned (inl e) => result r = Returned (inr e)
         | Returned (inr _) => False
         | Panicked msg => result r = Panicked msg
         end).
Proof.
  intros r m t Hfail. subst r. rewrite createLCOWv1_unfold. cbv zeta.
  fold m. set (co := createOptions m) in *.
  assert (Hdirect : forall lfp layers s1,
    fst s1 = m ->
    let mr := mountsAndCreate H path_Join co lfp layers s1 in
    events mr = [] /\ fst (final mr) = m
    /\ match t with
       | Returned (inl e) => result mr = Returned (inr e)
       | Returned (inr _) => False
       | Panicked msg => result mr = Panicked msg
       end).
  { intros lfp layers s1 Hm. unfold mountsAndCreate. rewrite bind_peek, Hm.
    fold t. destruct t as [[e|[mds sm]]|msg].
    - cbn. auto.
    - exfalso. exact (Hfail mds sm eq_refl).
    - cbn. auto. }
  destruct (0 <? length (layerFoldersOf co))%nat.
  - pose proof (layersLoop_run (removelast (layerFoldersOf co)) [] s) as Hl.
    pose proof (layersLoop_memory H filepath_Split filepath_Join
                  (removelast (layerFoldersOf co)) [] s) as Hmem.
    cbv zeta in Hl, Hmem. destruct Hmem as [Hmem Hng].
    destruct (nameToGuid_events _ Hng) as [Hc0 _].
    assert (Hs0 : count isStore
                    (events (layersLoop H filepath_Split filepath_Join
                               (removelast (layerFoldersOf co)) [] s)) = 0%nat).
    { revert Hng. generalize (events (layersLoop H filepath_Split filepath_Join
                                        (removelast (layerFoldersOf co)) [] s)).
      induction l as [|e t' IHl]; intros Hl'; [reflexivity|].
      cbn [forallb] in Hl'. apply andb_prop in Hl' as [He Ht'].
      cbn [count]. rewrite (IHl Ht'). destruct e; cbn in He |- *; congruence. }
    destruct (result (layersLoop H filepath_Split filepath_Join
                        (removelast (layerFoldersOf co)) [] s))
      as [err|layers] eqn:Hres.
    + cbn [events result final fst snd].
      destruct Hl as (done & name & Hev & _).
      split; [exact Hc0|]. split; [exact Hs0|]. split; [exact Hmem|].
      left. exists name, err. rewrite Hev. apply in_or_app; right; left; reflexivity.
    + destruct (Hdirect (List.last (layerFoldersOf co) "") layers _ Hmem)
        as (Hev & Hf & Hr).
      cbn [events result final fst snd]. rewrite Hev, app_nil_r.
      split; [exact Hc0|]. split; [exact Hs0|]. split; [exact Hf|].
      right. exact Hr.
  - destruct (Hdirect "" [] s eq_refl) as (Hev & Hf & Hr).
    rewrite Hev. split; [reflexivity|]. split; [reflexivity|].
    split; [exact Hf|]. right. exact Hr.
Qed.

End V1Runs.

(** ** Handles are closed *)

Section Handles.

Context {W : Type} (H : Host W) (dts : Z) (trim : string -> string).

Lemma DebugLCOWGCS_closes c w :
  count isClose (events (DebugLCOWGCS H c w))
  = count startedOk (events (DebugLCOWGCS H c w))
  /\ count isKill (events (DebugLCOWGCS H c w))
     = count startedOk (events (DebugLCOWGCS H c w))
  /\ count isFileClose (events (DebugLCOWGCS H c w)) = 0%nat
  /\ count createdOk (events (DebugLCOWGCS H c w)) = 0%nat
  /\ forall g req res,
       In (EvCreateProcessEx g req res) (events (DebugLCOWGCS H c w)) ->
       g = c /\ Stdin req = None /\ CreateInUtilityVm req = true.
Proof.
  remember (DebugLCOWGCS H c w) as r eqn:Hr. symmetry in Hr; revert Hr.
  unfold DebugLCOWGCS; unfold_calls; exec; intros Hr; subst r;
    cbn [app events snd]; repeat (split; [reflexivity|]);
    intros g req res Hin; split_in Hin; injection Hin as <- <- _;
    repeat split.
Qed.

Lemma openProcesses_app l1 l2 s :
  openProcesses s (l1 ++ l2)
  = match openProcesses s l1 with
    | Some s' => openProcesses s' l2
    | None => None
    end.
Proof.
  revert s. induction l1 as [|e t IH]; intros s; [reflexivity|].
  cbn [app]. destruct e; cbn [openProcesses]; try apply IH.
  - match goal with |- context [match ?r with Started _ _ => _ | _ => _ end] =>
      destruct r end; apply IH.
  - destruct s as [|q rest]; [reflexivity|].
    destruct (Nat.eqb _ q); [apply IH|reflexivity].
Qed.

(** What is open at the end was open at the start or has been started and
    not closed. *)
Lemma openProcesses_closed l : forall s s' p,
  openProcesses s l = Some s' ->
  In p s \/ (exists g req bc, In (EvCreateProcessEx g req (Started p bc)) l) ->
  In p s' \/ exists c, In (EvClose p c) l.
Proof.
  induction l as [|e t IH]; intros s s' p Ho Hp.
  - cbn in Ho. injection Ho as <-.
    destruct Hp as [Hp|(g & req & bc & [])]. left; exact Hp.
  - assert (Hlift : forall s0, openProcesses s0 t = Some s' ->
              In p s0 \/ (exists g req bc,
                            In (EvCreateProcessEx g req (Started p bc)) t) ->
              In p s' \/ exists c, In (EvClose p c) (e :: t)).
    { intros s0 Ho0 Hp0. destruct (IH _ _ _ Ho0 Hp0) as [Hx|(c & Hx)];
        [left; exact Hx|right; exists c; right; exact Hx]. }
    assert (Hother : (forall g req bc, e <> EvCreateProcessEx g req (Started p bc)) ->
              In p s \/ (exists g req bc,
                           In (EvCreateProcessEx g req (Started p bc)) t)).
    { intros Hne. destruct Hp as [Hp|(g & req & bc & [Hp|Hp])];
        [left; exact Hp|exfalso; exact (Hne _ _ _ Hp)|right; eauto]. }
    destruct e; cbn [openProcesses] in Ho;
      try (apply (Hlift s Ho); apply Hother; intros; discriminate).
    + match type of Ho with
      | context [match ?r with Started _ _ => _ | _ => _ end] =>
          destruct r as [q bc|err]
      end.
      * apply (Hlift (q :: s) Ho).
        destruct Hp as [Hp|(g0 & req0 & bc0 & [Hp|Hp])].
        -- left; right; exact Hp.
        -- inversion Hp; subst. left; left; reflexivity.
        -- right; eauto.
      * apply (Hlift s Ho); apply Hother; intros; discriminate.
    + destruct s as [|q rest]; [discriminate Ho|].
      destruct (Nat.eqb_spec p0 q) as [->|Hne]; [|discriminate Ho].
      assert (Hp' : In p (q :: rest)
                    \/ (exists g req bc,
                          In (EvCreateProcessEx g req (Started p bc)) t)).
      { apply Hother; intros; discriminate. }
      destruct Hp' as [[<-|Hp']|Hp'].
      * right. eexists. left. reflexivity.
      * apply (Hlift rest Ho). left; exact Hp'.
      * apply (Hlift rest Ho). right; exact Hp'.
Qed.

Lemma DebugLCOWGCS_stack c w s :
  openProcesses s (events (DebugLCOWGCS H c w)) = Some s.
Proof.
  remember (DebugLCOWGCS H c w) as r eqn:Hr. symmetry in Hr; revert Hr.
  unfold DebugLCOWGCS; unfold_calls; exec; intros Hr; subst r;
    cbn [app events snd openProcesses]; rewrite ?Nat.eqb_refl; reflexivity.
Qed.

Lemma validateAndLocate_stack uvm destFile sizeGB cacheFile controller lun w s :
  let r := validateAndLocate H dts trim uvm destFile sizeGB cacheFile
             controller lun w in
  openProcesses s (events r) = Some s.
Proof.
  intros r; subst r.
  paths_of (validateAndLocate H dts trim uvm destFile sizeGB cacheFile
              controller lun w)
           ltac:(unfold validateAndLocate, locateAndFormat, formatAndRelease).
  all: cbn [openProcesses]; rewrite ?Nat.eqb_refl; reflexivity.
Qed.

Lemma createWithUVM_stack uvm destFile sizeGB cacheFile w s :
  let r := createWithUVM H dts trim uvm destFile sizeGB cacheFile w in
  openProcesses s (events r) = Some s.
Proof.
  destruct uvm as [uvmc|]; [|reflexivity].
  unfold createWithUVM; unfold_calls. red_run.
  destruct (winio_CreateVhdx H destFile sizeGB defaultLCOWVhdxBlockSizeMB w)
    as [[e|] w1]; [reflexivity|].
  pose proof (DebugLCOWGCS_stack uvmc w1 s) as Hd.
  destruct (DebugLCOWGCS H uvmc w1) as [[u w2] dl].
  destruct (AddSCSI H uvmc destFile "" w2) as [[[c l] err] w3].
  pose proof (validateAndLocate_stack uvmc destFile sizeGB cacheFile
                c l w3 s) as Hv.
  cbv zeta in Hv.
  destruct (validateAndLocate H dts trim uvmc destFile sizeGB cacheFile c l w3)
    as [[res w4] vl].
  cbn [events snd] in Hd, Hv |- *.
  cbn [app openProcesses]. rewrite openProcesses_app, Hd.
  cbn [openProcesses]. exact Hv.
Qed.

(** X8. On every path of a run the process handles are closed as a stack:
    each close is of the process started last among those still open, and
    at the end of the run none is left open; so each process that was
    started, the one of the diagnostics too, has its own close. *)
Theorem CreateLCOWScratch_closes_processes uvm destFile sizeGB cacheFile w :
  let r := CreateLCOWScratch H dts trim uvm destFile sizeGB cacheFile w in
  openProcesses [] (events r) = Some []
  /\ forall g req p bc,
       In (EvCreateProcessEx g req (Started p bc)) (events r) ->
       exists c, In (EvClose p c) (events r).
Proof.
  intros r.
  assert (Hs : openProcesses [] (events r) = Some []).
  { destruct (CreateLCOWScratch_shape H dts trim uvm destFile sizeGB cacheFile w)
      as [(_ & w1 & res & w2 & _ & _ & Hr) | (pre & w1 & Hpre & Hev & _)].
    - fold r in Hr. rewrite Hr. reflexivity.
    - fold r in Hev. cbv zeta in Hev. rewrite Hev, openProcesses_app.
      destruct Hpre as [->|(_ & e & _ & ->)]; cbn [openProcesses];
        apply createWithUVM_stack. }
  split; [exact Hs|].
  intros g req p bc Hin.
  destruct (openProcesses_closed _ _ _ p Hs) as [[]|Hc]; [|exact Hc].
  right. eauto.
Qed.

(** X10. [TarToVhd] with a utility VM runs one of three ways, and the
    diagnostics come last in each, in the world the calls before them
    left. The file is not created: nothing else is called. The file is
    created and the extraction does not start: that file is closed. The
    extraction starts: its process is closed, then the file. The
    extraction is the one command given the archive to read, and it
    writes to the file that was created. *)
Theorem TarToVhd_cleanup uvm targetVHDFile reader w :
  let r := TarToVhd H (Some uvm) targetVHDFile reader w in
  exists body w',
    events r = body ++ events (DebugLCOWGCS H uvm w')
    /\ final r = final (DebugLCOWGCS H uvm w')
    /\ ((exists e,
           os_Create H targetVHDFile w = (inr e, w')
           /\ body = [EvCreate targetVHDFile (inr e)]
           /\ result r = (0%Z, Some (Errorf "tar2vhd failed to create %s: %s"
                                            [FStr targetVHDFile; FStr e])))
        \/ (exists f e fc w1 w2,
              os_Create H targetVHDFile w = (inl f, w1)
              /\ container_CreateProcessEx H uvm (tar2vhdRequest reader f) w1
                 = (StartFailed e, w2)
              /\ file_Close H f w2 = (fc, w')
              /\ body = [EvCreate targetVHDFile (inl f);
                         EvCreateProcessEx uvm (tar2vhdRequest reader f)
                           (StartFailed e);
                         EvFileClose f fc]
              /\ result r = (0%Z, Some (Errorf "failed to start tar2vhd for %s: %s"
                                               [FStr targetVHDFile; FStr e])))
        \/ (exists f p bc cl fc w1 w2 w3,
              os_Create H targetVHDFile w = (inl f, w1)
              /\ container_CreateProcessEx H uvm (tar2vhdRequest reader f) w1
                 = (Started p bc, w2)
              /\ process_Close H p w2 = (cl, w3)
              /\ file_Close H f w3 = (fc, w')
              /\ body = [EvCreate targetVHDFile (inl f);
                         EvCreateProcessEx uvm (tar2vhdRequest reader f)
                           (Started p bc);
                         EvClose p cl;
                         EvFileClose f fc]
              /\ result r = (Out bc, None)))
    /\ forall g req res, In (EvCreateProcessEx g req res) (events r) ->
         g = uvm /\ CreateInUtilityVm req = true
         /\ (Stdin req <> None ->
             exists f, In (EvCreate targetVHDFile (inl f)) body
                       /\ req = tar2vhdRequest reader f).
Proof.
  intros r; subst r.
  assert (Hdebug : forall w' g req res,
            In (EvCreateProcessEx g req res) (events (DebugLCOWGCS H uvm w')) ->
            g = uvm /\ CreateInUtilityVm req = true
            /\ (Stdin req <> None ->
                exists f, False /\ req = tar2vhdRequest reader f)).
  { intros w' g req res Hin.
    destruct (DebugLCOWGCS_closes uvm w') as (_ & _ & _ & _ & Hdr).
    destruct (Hdr _ _ _ Hin) as (-> & Hs & Hu).
    split; [reflexivity|]. split; [exact Hu|]. intros Hx. contradiction. }
  unfold TarToVhd; unfold_calls. red_run.
  destruct (os_Create H targetVHDFile w) as [[outFile|e] w1] eqn:Hcreate.
  - red_run.
    destruct (container_CreateProcessEx H uvm
                (mkCreateProcessEx ["tar2vhd"] true (Some reader)
                                   (Some (ToFile outFile)) None) w1)
      as [[p bc|e] w2] eqn:Hstart.
    + red_run.
      destruct (process_Close H p w2) as [cl w3] eqn:Hclose.
      destruct (file_Close H outFile w3) as [fc w4] eqn:Hfclose.
      pose proof (Hdebug w4) as Hd.
      destruct (DebugLCOWGCS H uvm w4) as [[u w5] dl] eqn:Hdeb.
      cbn [events final result fst snd app] in Hd |- *. rewrite app_nil_r.
      exists [EvCreate targetVHDFile (inl outFile);
              EvCreateProcessEx uvm (tar2vhdRequest reader outFile) (Started p bc);
              EvClose p cl; EvFileClose outFile fc], w4.
      rewrite Hdeb. cbn [events final fst snd].
      split; [reflexivity|]. split; [reflexivity|].
      split.
      { right; right. exists outFile, p, bc, cl, fc, w1, w2, w3.
        repeat (split; [first [eassumption | reflexivity]|]). reflexivity. }
      intros g req res Hin. cbn [In] in Hin.
      destruct Hin as [Hin|[Hin|[Hin|[Hin|Hin]]]]; try discriminate Hin.
      * injection Hin as <- <- _. split; [reflexivity|].
        split; [reflexivity|]. intros _. exists outFile.
        split; [left; reflexivity|reflexivity].
      * destruct (Hd _ _ _ Hin) as (Hg & Hu & Hs).
        split; [exact Hg|]. split; [exact Hu|].
        intros Hx. destruct (Hs Hx) as (? & [] & _).
    + red_run.
      destruct (file_Close H outFile w2) as [fc w3] eqn:Hfclose.
      pose proof (Hdebug w3) as Hd.
      destruct (DebugLCOWGCS H uvm w3) as [[u w4] dl] eqn:Hdeb.
      cbn [events final result fst snd app] in Hd |- *. rewrite app_nil_r.
      exists [EvCreate targetVHDFile (inl outFile);
              EvCreateProcessEx uvm (tar2vhdRequest reader outFile) (StartFailed e);
              EvFileClose outFile fc], w3.
      rewrite Hdeb. cbn [events final fst snd].
      split; [reflexivity|]. split; [reflexivity|].
      split.
      { right; left. exists outFile, e, fc, w1, w2.
        repeat (split; [first [eassumption | reflexivity]|]). reflexivity. }
      intros g req res Hin. cbn [In] in Hin.
      destruct Hin as [Hin|[Hin|[Hin|Hin]]]; try discriminate Hin.
      * injection Hin as <- <- _. split; [reflexivity|].
        split; [reflexivity|]. intros _. exists outFile.
        split; [left; reflexivity|reflexivity].
      * destruct (Hd _ _ _ Hin) as (Hg & Hu & Hs).
        split; [exact Hg|]. split; [exact Hu|].
        intros Hx. destruct (Hs Hx) as (? & [] & _).
  - red_run.
    pose proof (Hdebug w1) as Hd.
    destruct (DebugLCOWGCS H uvm w1) as [[u w2] dl] eqn:Hdeb.
    cbn [events final result fst snd app] in Hd |- *. rewrite app_nil_r.
    exists [EvCreate targetVHDFile (inr e)], w1.
    rewrite Hdeb. cbn [events final fst snd].
    split; [reflexivity|]. split; [reflexivity|].
    split.
    { left. exists e. repeat (split; [reflexivity|]). reflexivity. }
    intros g req res Hin. cbn [In] in Hin.
    destruct Hin as [Hin|Hin]; try discriminate Hin.
    destruct (Hd _ _ _ Hin) as (Hg & Hu & Hs).
    split; [exact Hg|]. split; [exact Hu|].
    intros Hx. destruct (Hs Hx) as (? & [] & _).
Qed.

(** X11. When the destination file cannot be created, [TarToVhd] returns 0
    and that error, starts no extraction and closes no file: what is
    left is the diagnostics. *)
Theorem TarToVhd_create_failure uvm targetVHDFile reader w e w1 :
  os_Create H targetVHDFile w = (inr e, w1) ->
  let r := TarToVhd H (Some uvm) targetVHDFile reader w in
  result r = (0%Z, Some (Errorf "tar2vhd failed to create %s: %s"
                                [FStr targetVHDFile; FStr e]))
  /\ events r = EvCreate targetVHDFile (inr e) :: events (DebugLCOWGCS H uvm w1)
  /\ final r = final (DebugLCOWGCS H uvm w1)
  /\ count isFileClose (events r) = 0%nat
  /\ forall g req res, In (EvCreateProcessEx g req res) (events r) ->
       Stdin req = None.
Proof.
  intros Hc r; subst r.
  destruct (DebugLCOWGCS_closes uvm w1) as (_ & _ & Hdf & _ & Hdr).
  unfold TarToVhd; unfold_calls. red_run. rewrite Hc. red_run.
  destruct (DebugLCOWGCS H uvm w1) as [[u w2] dl].
  cbn [events final result fst snd app] in Hdf, Hdr |- *. rewrite app_nil_r.
  repeat (split; [reflexivity|]).
  split; [cbn [count isFileClose]; exact Hdf|].
  intros g req res [Hin|Hin]; [discriminate Hin|].
  destruct (Hdr _ _ _ Hin) as (_ & Hs & _). exact Hs.
Qed.

End Handles.

(** ** getLCOWSettings *)

Section SettingsProofs.

Context {W : Type} (H : Host W).
Variable valueFromStringMap : gmap string string -> string -> string.
Variables kirdKey kernelKey initrdKey bootKey : string.
Variable filepath_Join : string -> string -> string.

(** X17. [getLCOWSettings]: the kernel and the initrd are never left empty;
    an option that is given is taken as it is, a missing or empty one
    gives [bootx64.efi], [initrd.img], and the folder [Linux Containers]
    of the program files; the boot parameters have no default; id, owner
    and spec are not touched; doing it again changes nothing. *)
Theorem getLCOWSettings_defaults Options co w :
  let co' := getLCOWSettings H valueFromStringMap kirdKey kernelKey initrdKey
               bootKey filepath_Join Options co w in
  lcowkernel co' <> "" /\ lcowinitrd co' <> ""
  /\ (forall v, valueFromStringMap Options kernelKey = v -> v <> "" ->
        lcowkernel co' = v)
  /\ (valueFromStringMap Options kernelKey = "" -> lcowkernel co' = "bootx64.efi")
  /\ (forall v, valueFromStringMap Options initrdKey = v -> v <> "" ->
        lcowinitrd co' = v)
  /\ (valueFromStringMap Options initrdKey = "" -> lcowinitrd co' = "initrd.img")
  /\ (forall v, valueFromStringMap Options kirdKey = v -> v <> "" ->
        lcowkird co' = v)
  /\ (valueFromStringMap Options kirdKey = "" ->
      lcowkird co' = filepath_Join (os_Getenv H "ProgramFiles" w) "Linux Containers")
  /\ lcowbootparams co' = valueFromStringMap Options bootKey
  /\ id co' = id co /\ owner co' = owner co /\ spec co' = spec co
  /\ getLCOWSettings H valueFromStringMap kirdKey kernelKey initrdKey bootKey
       filepath_Join Options co' w = co'.
Proof.
  intros co'. subst co'. unfold getLCOWSettings, orDefault.
  cbn [lcowkernel lcowinitrd lcowkird lcowbootparams id owner spec].
  assert (Hd : forall v d, d <> "" -> (if String.eqb v "" then d else v) <> "").
  { intros v d Hne. destruct (String.eqb_spec v ""); assumption. }
  assert (Hv : forall v d, v <> "" -> (if String.eqb v "" then d else v) = v).
  { intros v d Hne. destruct (String.eqb_spec v ""); [contradiction|reflexivity]. }
  split; [apply Hd; discriminate|]. split; [apply Hd; discriminate|].
  split; [intros v <- Hne; apply Hv, Hne|].
  split; [intros ->; reflexivity|].
  split; [intros v <- Hne; apply Hv, Hne|].
  split; [intros ->; reflexivity|].
  split; [intros v <- Hne; apply Hv, Hne|].
  split; [intros ->; reflexivity|].
  repeat (split; [reflexivity|]). reflexivity.
Qed.

End SettingsProofs.

(** ** More runs on the scripted host *)

Lemma CreateLCOWScratch_success_sequence_witness :
  (In (EvAddSCSI 5%nat "d.vhdx" "" 0%Z 1%Z None)
      (events (scratch allGood (Some 5%nat) "d.vhdx" 20 "c.vhdx"))
   /\ result (scratch allGood (Some 5%nat) "d.vhdx" 20 "c.vhdx") = None)
  /\ length (afterAttach (events (scratch allGood (Some 5%nat) "d.vhdx" 20 "c.vhdx")))
     = 14%nat.
Proof.
  assert (Hin : In (EvAddSCSI 5%nat "d.vhdx" "" 0%Z 1%Z None)
                   (events (scratch allGood (Some 5%nat) "d.vhdx" 20 "c.vhdx"))).
  { vm_compute. do 2 right. left. reflexivity. }
  assert (Hres : result (scratch allGood (Some 5%nat) "d.vhdx" 20 "c.vhdx") = None)
    by reflexivity.
  split; [split; assumption|].
  pose proof (CreateLCOWScratch_success_sequence (scripted allGood) timeout4min
                noTrim (Some 5%nat) "d.vhdx" 20%N "c.vhdx" 0%nat 5%nat "d.vhdx" ""
                0%Z 1%Z None Hin Hres) as Hrun.
  cbv zeta in Hrun.
  destruct Hrun
    as (w0 & p1 & bc1 & t1 & w1 & p2 & bc2 & t2 & w2 & p3 & bc3 & t3 & w3 & w4
        & c3 & c2 & c1 & _ & _ & _ & _ & Heq).
  unfold scratch. rewrite Heq. reflexivity.
Defined.

Lemma CreateLCOWScratch_result_iff_witness :
  In (EvAddSCSI 5%nat "d.vhdx" "" 0%Z 1%Z None)
     (events (scratch detachFails (Some 5%nat) "d.vhdx" 20 ""))
  /\ (result (scratch detachFails (Some 5%nat) "d.vhdx" 20 "") = None <->
      existsb callFailed
        (afterAttach (events (scratch detachFails (Some 5%nat) "d.vhdx" 20 "")))
      = false).
Proof.
  assert (Hin : In (EvAddSCSI 5%nat "d.vhdx" "" 0%Z 1%Z None)
                   (events (scratch detachFails (Some 5%nat) "d.vhdx" 20 ""))).
  { vm_compute. right. left. reflexivity. }
  split; [exact Hin|].
  exact (CreateLCOWScratch_result_iff (scripted detachFails) timeout4min noTrim
           (Some 5%nat) "d.vhdx" 20%N "" 0%nat 5%nat "d.vhdx" "" 0%Z 1%Z None Hin).
Defined.

Lemma CreateLCOWScratch_step_errors_witness :
  (In (EvAddSCSI 5%nat "d.vhdx" "" 0%Z 1%Z None)
      (events (scratch mkfsFails (Some 5%nat) "d.vhdx" 20 "c.vhdx"))
   /\ In (EvExitCode 3%nat 1%Z None)
         (afterAttach (events (scratch mkfsFails (Some 5%nat) "d.vhdx" 20 "c.vhdx")))
   /\ 1%Z <> 0%Z)
  /\ result (scratch mkfsFails (Some 5%nat) "d.vhdx" 20 "c.vhdx")
     = Some (Errorf "`%+v` return non-zero exit code (%d) following hot-add %s to utility VM: %s"
                    [FStrs (mkfsCommand "/dev/sda"); FInt 1; FStr "d.vhdx";
                     FStr "mkfs: no such device"]).
Proof.
  assert (Hin : In (EvAddSCSI 5%nat "d.vhdx" "" 0%Z 1%Z None)
                   (events (scratch mkfsFails (Some 5%nat) "d.vhdx" 20 "c.vhdx"))).
  { vm_compute. do 6 right. left. reflexivity. }
  assert (Hex : In (EvExitCode 3%nat 1%Z None)
                   (afterAttach (events (scratch mkfsFails (Some 5%nat) "d.vhdx"
                                           20 "c.vhdx")))).
  { vm_compute. do 8 right. left. reflexivity. }
  assert (Hne : 1%Z <> 0%Z) by discriminate.
  split; [repeat split; assumption|].
  destruct (proj2 (proj2 (CreateLCOWScratch_step_errors (scripted mkfsFails)
                            timeout4min noTrim (Some 5%nat) "d.vhdx" 20%N "c.vhdx"
                            0%nat 5%nat "d.vhdx" "" 0%Z 1%Z None Hin))
              3%nat 1%Z Hex Hne)
    as (cmd & Hcmd & [([Hc|Hc] & _) | (device & wx & w1 & dres & w2 & Hc & _ & _ & Hres)]).
  - vm_compute in Hcmd. injection Hcmd as <-. discriminate Hc.
  - vm_compute in Hcmd. injection Hcmd as <-. discriminate Hc.
  - vm_compute in Hcmd. injection Hcmd as <-.
    unfold scratch. rewrite Hres. reflexivity.
Defined.

Lemma CreateLCOWScratch_commands_target_witness :
  (In (EvAddSCSI 5%nat "d.vhdx" "" 0%Z 1%Z None)
      (events (scratch allGood (Some 5%nat) "d.vhdx" 20 ""))
   /\ In (EvCreateProcessEx 5%nat
            (mkCreateProcessEx (lsCommand 0 1) true None (Some ToBuffer) None)
            (Started 1%nat (mkByteCounts 0 4096 0)))
         (afterAttach (events (scratch allGood (Some 5%nat) "d.vhdx" 20 ""))))
  /\ 5%nat = 5%nat.
Proof.
  assert (Hin : In (EvAddSCSI 5%nat "d.vhdx" "" 0%Z 1%Z None)
                   (events (scratch allGood (Some 5%nat) "d.vhdx" 20 ""))).
  { vm_compute. right. left. reflexivity. }
  assert (Hc : In (EvCreateProcessEx 5%nat
                     (mkCreateProcessEx (lsCommand 0 1) true None (Some ToBuffer) None)
                     (Started 1%nat (mkByteCounts 0 4096 0)))
                  (afterAttach (events (scratch allGood (Some 5%nat) "d.vhdx" 20 "")))).
  { vm_compute. do 3 right. left. reflexivity. }
  split; [split; assumption|].
  exact (proj1 (CreateLCOWScratch_commands_target (scripted allGood) timeout4min
                  noTrim (Some 5%nat) "d.vhdx" 20%N "" 0%nat 5%nat "d.vhdx" ""
                  0%Z 1%Z None 5%nat _ _ Hin Hc)).
Defined.

Lemma CreateLCOWScratch_vhdx_failure_witness :
  In (EvCreateVhdx "d.vhdx" 20 1 (Some "access denied"))
     (events (scratch vhdxFails (Some 5%nat) "d.vhdx" 20 ""))
  /\ result (scratch vhdxFails (Some 5%nat) "d.vhdx" 20 "")
     = Some (Errorf "failed to create VHDx %s: %s"
                    [FStr "d.vhdx"; FStr "access denied"]).
Proof.
  assert (Hin : In (EvCreateVhdx "d.vhdx" 20 1 (Some "access denied"))
                   (events (scratch vhdxFails (Some 5%nat) "d.vhdx" 20 ""))).
  { vm_compute. left. reflexivity. }
  split; [exact Hin|].
  exact (proj1 (CreateLCOWScratch_vhdx_failure (scripted vhdxFails) timeout4min
                  noTrim (Some 5%nat) "d.vhdx" 20%N "" 0%nat "d.vhdx" 20%N 1%N
                  "access denied" Hin)).
Defined.

Lemma CreateLCOWScratch_success_leaves_cache_witness :
  (result (scratch allGood (Some 5%nat) "d.vhdx" 10 "c.vhdx") = None
   /\ "c.vhdx" <> ""
   /\ effectiveSizeGB 10 = DefaultLCOWScratchSizeGB)
  /\ (events (scratch allGood (Some 5%nat) "d.vhdx" 10 "c.vhdx")
      = [EvStat "c.vhdx" None; EvCopyFile "c.vhdx" "d.vhdx" false None]
      \/ In (EvCopyFile "d.vhdx" "c.vhdx" true None)
            (events (scratch allGood (Some 5%nat) "d.vhdx" 10 "c.vhdx"))).
Proof.
  assert (Hne : "c.vhdx" <> "") by discriminate.
  split; [repeat split; exact Hne|].
  exact (CreateLCOWScratch_success_leaves_cache (scripted allGood) timeout4min
           noTrim (Some 5%nat) "d.vhdx" 10%N "c.vhdx" 0%nat eq_refl Hne eq_refl).
Defined.

(** The file cannot be created, diagnostics are on: they run, with no
    file to close. *)
Lemma TarToVhd_create_failure_witness :
  os_Create (scripted createFails) "t.vhd" 0%nat = (inr "access denied", 0%nat)
  /\ result (tar createFails (Some 5%nat) "t.vhd" 9%nat)
     = (0%Z, Some (Errorf "tar2vhd failed to create %s: %s"
                          [FStr "t.vhd"; FStr "access denied"])).
Proof.
  split; [reflexivity|].
  exact (proj1 (TarToVhd_create_failure (scripted createFails) 5%nat "t.vhd"
                  9%nat 0%nat "access denied" 0%nat eq_refl)).
Defined.

Lemma createLCOWv1_configuration_witness :
  In (EvCreateContainer "c1" layeredConfiguration (inl 1%nat))
     (events (createV1 allGood layeredMemory))
  /\ count isCreateContainer (events (createV1 allGood layeredMemory)) = 1%nat.
Proof.
  assert (Hin : In (EvCreateContainer "c1" layeredConfiguration (inl 1%nat))
                   (events (createV1 allGood layeredMemory))).
  { vm_compute. do 2 right. left. reflexivity. }
  split; [exact Hin|].
  exact (proj1 (createLCOWv1_configuration (scripted allGood) splitNone joinSlash
                  joinSlash (layeredMemory, 0%nat) "c1" layeredConfiguration
                  (inl 1%nat) Hin)).
Defined.

(** Three layer folders: two layers, the top-most folder apart. *)
Example layered_run :
  createV1 allGood layeredMemory
  = (Returned (inl 1%nat),
     (mkMemory (withMounts layeredOptions (mkSlice 3%positive 0 2))
               (snd (allocMounts exampleHeap
                       [rewrittenMount joinSlash exampleHeap bindMount;
                        tmpfsMount])),
      0%nat),
     [EvNameToGuid "C:/l/base" (inl "guid-C:/l/base");
      EvNameToGuid "C:/l/mid" (inl "guid-C:/l/mid");
      EvCreateContainer "c1" layeredConfiguration (inl 1%nat);
      EvSetSpecMounts (mkSlice 3%positive 0 2)]).
Proof. vm_compute. reflexivity. Qed.

Lemma createLCOWv1_guid_failure_witness :
  In (EvNameToGuid "C:/l/base" (inr "bad name"))
     (events (createV1 guidFails layeredMemory))
  /\ result (createV1 guidFails layeredMemory) = Returned (inr (Raw "bad name")).
Proof.
  assert (Hin : In (EvNameToGuid "C:/l/base" (inr "bad name"))
                   (events (createV1 guidFails layeredMemory))).
  { vm_compute. left. reflexivity. }
  split; [exact Hin|].
  exact (proj1 (createLCOWv1_guid_failure (scripted guidFails) splitNone joinSlash
                  joinSlash (layeredMemory, 0%nat) "C:/l/base" "bad name" Hin)).
Defined.

Lemma createLCOWv1_translation_failure_witness :
  (forall mds specMounts,
     translateMounts joinSlash (heap bogusMemory)
       (readMounts (heap bogusMemory) (Mounts (spec (createOptions bogusMemory))))
       [] []
     <> Returned (inr (mds, specMounts)))
  /\ count isCreateContainer (events (createV1 allGood bogusMemory)) = 0%nat.
Proof.
  assert (Hno : forall mds specMounts,
            translateMounts joinSlash (heap bogusMemory)
              (readMounts (heap bogusMemory)
                 (Mounts (spec (createOptions bogusMemory)))) [] []
            <> Returned (inr (mds, specMounts))).
  { intros mds sm Hx. vm_compute in Hx. discriminate Hx. }
  split; [exact Hno|].
  exact (proj1 (createLCOWv1_translation_failure (scripted allGood) splitNone
                  joinSlash joinSlash (bogusMemory, 0%nat) Hno)).
Defined.
